(** * Palmer Penguins notebook: a shallow embedding and its properties

    The repository is one Jupyter notebook, [palmer-penguins.ipynb].  Its code
    cells are straight-line Python over three libraries: pandas (the table
    that [sns.load_dataset] returns), scikit-learn (splitting, the decision
    tree, the metrics) and matplotlib (the figure the tree is drawn on).

    The development has three layers.
    - [Pandas], [Sklearn], [Matplotlib]: the library operations the cells
      call, as functions on lists.  They are the libraries' code, not the
      notebook's, and follow what pandas and scikit-learn do for the
      arguments the cells pass.  Operations whose result the notebook cannot
      determine (the bundled dataset, the random permutation, tree induction)
      are fields of an environment [Env].
    - [Notebook]: the kernel state (global names, call log, output area),
      a state-and-exception monad over it, one definition per code cell and
      [run_all], the cells in order.
    - The properties of the pipeline, stated on [run_all]. *)

From Stdlib Require Import ZArith QArith Qcanon Lia Ascii String SpecFloat.
From stdpp Require Import base option list strings numbers sorting.

(** ** Python exceptions and fallible results

    An exception is modelled by its class; library messages are
    shortened.  [NotFittedError] is scikit-learn's, [LibraryError] stands
    for whatever else a library raises (a failed download, for one). *)

Inductive exn :=
  | KeyError (key : string)
  | ValueError (msg : string)
  | TypeError (msg : string)
  | NameError (name : string)
  | IndexError
  | NotFittedError
  | LibraryError (code : nat).

Inductive Result (A : Type) :=
  | Ok (a : A)
  | Raise (e : exn).
Arguments Ok {A} a.
Arguments Raise {A} e.

Definition result_bind {A B} (r : Result A) (f : A → Result B) : Result B :=
  match r with
  | Ok a => f a
  | Raise e => Raise e
  end.

Definition of_option {A} (o : option A) (e : exn) : Result A :=
  match o with
  | Some a => Ok a
  | None => Raise e
  end.

(** ** pandas: tables, columns, [dropna], [loc], [head] *)

Module Pandas.

(** A table entry: missing ([NaN]), a number (a finite double, by its exact
    value) or a text value. *)
Inductive cell :=
  | NaN
  | Num (x : Qc)
  | Str (s : string).

#[export] Instance cell_eq_dec : EqDecision cell.
Proof. solve_decision. Defined.

#[export] Instance cell_inhabited : Inhabited cell := populate NaN.

(** A row carries its index label (the penguins table has a [RangeIndex],
    the labels survive [dropna] and the split) and its entries by column
    position. *)
Record Row := mkRow { label : nat; entries : list cell }.

#[export] Instance Row_eq_dec : EqDecision Row.
Proof. solve_decision. Defined.

Record DataFrame := mkDataFrame { columns : list string; rows : list Row }.

Record Series := mkSeries { name : string; items : list (nat * cell) }.

(** The entry of row [r] at column position [j].  A frame is rectangular:
    a position beyond the stored entries reads as missing, as pandas pads
    ragged input. *)
Definition entry (r : Row) (j : nat) : cell := default NaN (entries r !! j).

Definition isna (c : cell) : bool :=
  match c with
  | NaN => true
  | _ => false
  end.

(** [r] has a value in each of the first [width] columns. *)
Definition complete (width : nat) (r : Row) : bool :=
  forallb (λ j, negb (isna (entry r j))) (seq 0 width).

(** [DataFrame.dropna()] with its defaults [axis=0, how='any']: the rows
    without a missing entry, in order, under the same columns. *)
Definition dropna (d : DataFrame) : DataFrame :=
  mkDataFrame (columns d) (List.filter (complete (length (columns d))) (rows d)).

(** Position of column [c]: the first column of that name. *)
Fixpoint column_position (cols : list string) (c : string) : option nat :=
  match cols with
  | [] => None
  | c' :: rest => if decide (c' = c) then Some 0 else S <$> column_position rest c
  end.

Fixpoint column_positions (cols : list string) (wanted : list string) : Result (list nat) :=
  match wanted with
  | [] => Ok []
  | c :: rest =>
      match column_position cols c with
      | None => Raise (KeyError c)
      | Some j => result_bind (column_positions cols rest) (λ js, Ok (j :: js))
      end
  end.

(** [d.loc[:, wanted]] for a list of column names: every row, the named
    columns in the order asked; [KeyError] when a name is no column. *)
Definition loc_columns (d : DataFrame) (wanted : list string) : Result DataFrame :=
  result_bind (column_positions (columns d) wanted) (λ js,
    Ok (mkDataFrame wanted (map (λ r, mkRow (label r) (map (entry r) js)) (rows d)))).

(** [d.loc[:, c]] for one column name: that column as a series. *)
Definition loc_column (d : DataFrame) (c : string) : Result Series :=
  match column_position (columns d) c with
  | None => Raise (KeyError c)
  | Some j => Ok (mkSeries c (map (λ r, (label r, entry r j)) (rows d)))
  end.

(** [DataFrame.shape] and [Series.shape]. *)
Definition frame_shape (d : DataFrame) : list nat := [length (rows d); length (columns d)].
Definition series_shape (s : Series) : list nat := [length (items s)].

(** [head()] : the first five rows. *)
Definition frame_head (d : DataFrame) : DataFrame := mkDataFrame (columns d) (take 5 (rows d)).
Definition series_head (s : Series) : Series := mkSeries (name s) (take 5 (items s)).

(** [Series.values]: the entries without the index. *)
Definition values (s : Series) : list cell := (items s).*2.

(** [s[0:k]]: positional slice of a series. *)
Definition series_slice (s : Series) (k : nat) : Series := mkSeries (name s) (take k (items s)).

(** [Series.unique()]: the distinct entries in order of first appearance. *)
Fixpoint unique (l : list cell) : list cell :=
  match l with
  | [] => []
  | c :: rest => c :: List.filter (λ c', bool_decide (c' ≠ c)) (unique rest)
  end.

(** Position of the first occurrence of [c] in [l]. *)
Fixpoint first_position (c : cell) (l : list cell) : option nat :=
  match l with
  | [] => None
  | x :: rest => if decide (x = c) then Some 0 else S <$> first_position c rest
  end.

(** [c] first occurs in [l] before [c'] does. *)
Definition appears_before (l : list cell) (c c' : cell) : Prop :=
  ∃ p q, first_position c l = Some p ∧ first_position c' l = Some q ∧ p < q.

(** The entry of the table at row position [i], column [c]. *)
Definition at_ (d : DataFrame) (i : nat) (c : string) : option cell :=
  r ← rows d !! i; j ← column_position (columns d) c; Some (entry r j).

(** Index label of the row at position [i]. *)
Definition label_at (d : DataFrame) (i : nat) : option nat := label <$> rows d !! i.

(** [v] is the entry of [r] under column [c] of a table with columns [cols]. *)
Definition entry_of (cols : list string) (r : Row) (c : string) (v : cell) : Prop :=
  ∃ j, column_position cols c = Some j ∧ v = entry r j.

End Pandas.

#[export] Instance result_ret : MRet Result := λ A a, Ok a.
#[export] Instance result_mbind : MBind Result := λ A B f r, result_bind r f.

(** ** Python floats, as far as [test_size * n_samples] needs them *)

Module Float64.

(** A finite non-negative binary64 number [mant * 2 ^ expo]. *)
Record t := mk { mant : Z; expo : Z }.

(** Number of binary digits of [p]. *)
Definition digits (p : Z) : Z := if (p =? 0)%Z then 0%Z else (Z.log2 p + 1)%Z.

(** [p / 2 ^ s] rounded to the nearest integer, ties to the even one. *)
Definition round_even (p s : Z) : Z :=
  let q := (p / 2 ^ s)%Z in
  let r := (p mod 2 ^ s)%Z in
  let half := (2 ^ (s - 1))%Z in
  if (r <? half)%Z then q
  else if (half <? r)%Z then (q + 1)%Z
  else if Z.even q then q else (q + 1)%Z.

(** Rounding of the exact value [p * 2 ^ e] to 53 significant bits
    (round-to-nearest-even, the IEEE 754 default; the exponent range is
    not modelled, a row count never reaches it). *)
Definition round53 (p e : Z) : t :=
  let s := (digits p - 53)%Z in
  if (s <=? 0)%Z then mk p e else mk (round_even p s) (e + s).

(** [float(n)] for a Python int. *)
Definition of_nat (n : nat) : t := round53 (Z.of_nat n) 0.

(** [x * y] *)
Definition mul (x y : t) : t := round53 (mant x * mant y) (expo x + expo y).

(** [math.ceil(x)], an exact integer. *)
Definition ceil (x : t) : Z :=
  if (0 <=? expo x)%Z then (mant x * 2 ^ expo x)%Z
  else (- ((- mant x) / 2 ^ (- expo x)))%Z.

(** [x <= 0] and [x >= 1] *)
Definition le_zero (x : t) : bool := (mant x <=? 0)%Z.
Definition ge_one (x : t) : bool :=
  if (0 <=? expo x)%Z then (1 <=? mant x)%Z else (2 ^ (- expo x) <=? mant x)%Z.

(** The literal [0.3]: the double nearest to 3/10 is
    5404319552844595 * 2^-54. *)
Definition lit_0_3 : t := mk 5404319552844595 (-54).

(** The literal [0.25], the default [test_size] of [train_test_split]. *)
Definition lit_0_25 : t := mk 1 (-2).

(** The same operations in the Standard Library's specification of
    IEEE 754 binary64, to test the definitions above against. *)
Definition ieee (z : Z) : spec_float := binary_normalize 53 1024 z 0 false.

Definition ieee_0_3 : spec_float := S754_finite false 5404319552844595 (-54).

Definition same_value (x : t) (f : spec_float) : bool :=
  match f with
  | S754_zero _ => (mant x =? 0)%Z
  | S754_finite false m e =>
      let e0 := Z.min e (expo x) in
      (Z.pos m * 2 ^ (e - e0) =? mant x * 2 ^ (expo x - e0))%Z
  | _ => false
  end.

(** For the integer [z]: [float(z)] and [0.3 * float(z)] are the doubles the
    specification gives. *)
Definition agrees_with_ieee (z : Z) : bool :=
  same_value (round53 z 0) (ieee z)
  && same_value (mul lit_0_3 (round53 z 0)) (SFmul 53 1024 ieee_0_3 (ieee z)).

End Float64.

(** ** matplotlib: the figure the tree is drawn on *)

Module Matplotlib.

Record Figure := mkFigure { figsize : nat * nat }.
Record Axes := mkAxes { figure_of : Figure }.

(** [plt.subplots(figsize=size)]: a new figure with one axes. *)
Definition subplots (size : nat * nat) : Figure * Axes :=
  let fig := mkFigure size in (fig, mkAxes fig).

End Matplotlib.

(** ** scikit-learn: splitting, the classifier interface, the metrics *)

Module Sklearn.
Import Pandas.

(** *** [sklearn.model_selection.train_test_split] *)

(** [_validate_shuffle_split] for a float [test_size] and [train_size=None]:
    the sizes of the two parts, or [ValueError]. *)
Definition validate_shuffle_split (n_samples : nat) (test_size : Float64.t) : Result (nat * nat) :=
  if Float64.le_zero test_size || Float64.ge_one test_size
  then Raise (ValueError "test_size should be in the (0, 1) range")
  else
    let n_test := Float64.ceil (Float64.mul test_size (Float64.of_nat n_samples)) in
    let n_train := (Z.of_nat n_samples - n_test)%Z in
    if (Z.of_nat n_samples <? n_train + n_test)%Z
    then Raise (ValueError "The sum of test_size and train_size should be smaller than the number of samples")
    else if (Z.to_nat n_train =? 0)%nat
    then Raise (ValueError "the resulting train set will be empty")
    else Ok (Z.to_nat n_train, Z.to_nat n_test).

(** [_safe_indexing] by positions ([iloc]): the elements at [idx], in the
    order of [idx]. *)
Fixpoint take_positions {A} (l : list A) (idx : list nat) : Result (list A) :=
  match idx with
  | [] => Ok []
  | i :: rest =>
      match l !! i with
      | None => Raise IndexError
      | Some a => result_bind (take_positions l rest) (λ r, Ok (a :: r))
      end
  end.

(** [train_test_split(X, y, test_size=...)] with the defaults [shuffle=True,
    stratify=None]: [ShuffleSplit] draws one permutation of the positions,
    its first [n_test] positions are the test part and the next [n_train] the
    training part; both arrays are indexed with the same positions.
    [permutation n] is the generator's draw, [rng.permutation(n)].
    The result is [(X_train, X_test, y_train, y_test)]. *)
Definition train_test_split (permutation : nat → list nat) (X : DataFrame) (y : Series)
    (test_size : Float64.t) : Result (DataFrame * DataFrame * Series * Series) :=
  let n_samples := length (rows X) in
  if decide (length (items y) = n_samples) then
    '(n_train, n_test) ← validate_shuffle_split n_samples test_size;
    let p := permutation n_samples in
    let ind_test := take n_test p in
    let ind_train := take n_train (drop n_test p) in
    X_train ← take_positions (rows X) ind_train;
    X_test ← take_positions (rows X) ind_test;
    y_train ← take_positions (items y) ind_train;
    y_test ← take_positions (items y) ind_test;
    Ok (mkDataFrame (columns X) X_train, mkDataFrame (columns X) X_test,
        mkSeries (name y) y_train, mkSeries (name y) y_test)
  else Raise (ValueError "Found input variables with inconsistent numbers of samples").

(** *** Sorted labels *)

(** The order labels are sorted in: text by [String.leb], numbers by
    value, missing before numbers before text. *)
Definition cell_leb (a b : cell) : bool :=
  match a, b with
  | NaN, _ => true
  | Num _, NaN => false
  | Num x, Num y => bool_decide (x ≤ y)%Qc
  | Num _, Str _ => true
  | Str s1, Str s2 => String.leb s1 s2
  | Str _, _ => false
  end.

(** [unique_labels(y_true, y_pred)]: the labels of either sequence, each
    once, sorted. *)
Definition unique_labels (y_true y_pred : list cell) : list cell :=
  merge_sort (λ a b, Is_true (cell_leb a b)) (remove_dups (y_true ++ y_pred)).

(** *** The classifier interface *)

(** What tree induction returns: for the root and for every other node the
    position, among the sorted classes, of the node's majority class
    ([argmax] of the node's [value]), and the decision function from a
    feature row to a class.  Tree induction itself is the library's; see
    [Env]. *)
Record Tree := mkTree {
  root_class : nat;
  child_classes : list nat;
  decision : list cell → cell }.

(** An estimator object: its hyper-parameter and, once [fit] has run, its
    tree, the column names [fit] has seen ([feature_names_in_]) and the
    sorted distinct labels it has seen ([classes_]). *)
Record Estimator := mkEstimator {
  max_depth : option nat;
  tree_ : option Tree;
  feature_names_in_ : list string;
  classes_ : list cell }.

(** [DecisionTreeClassifier(max_depth=d)] *)
Definition DecisionTreeClassifier (d : option nat) : Estimator := mkEstimator d None [] [].

Definition is_text (c : cell) : bool :=
  match c with
  | Str _ => true
  | _ => false
  end.

Definition is_whole (c : cell) : bool :=
  match c with
  | Num x => bool_decide (Qden x = 1%positive)
  | _ => true
  end.

(** [check_array] as the tree estimators call it: the entries must convert
    to numbers and there must be a row; otherwise [ValueError].  A text
    entry stands for text that spells no number (pandas keeps such a column
    as objects, and the conversion of the table to floats fails on it); a
    missing entry is accepted, as decision trees accept it. *)
Definition check_array (X : DataFrame) : Result unit :=
  if forallb (λ r, forallb (λ j, negb (is_text (entry r j))) (seq 0 (length (columns X))))
             (rows X)
  then if decide (rows X = []) then Raise (ValueError "Found array with 0 sample(s)")
       else Ok tt
  else Raise (ValueError "could not convert string to float").

(** What [fit] checks of its arguments before a tree is induced: [X] as
    above, as many labels as rows, and labels that are classes: numbers
    with a fractional part are "continuous" and refused.  Each failure is a
    [ValueError].  What the library does with labels that mix text and
    numbers is not modelled. *)
Definition check_X_y (X : DataFrame) (y : Series) : Result unit :=
  check_array X;;
  if decide (length (items y) = length (rows X)) then
    if forallb is_whole (values y) then Ok tt
    else Raise (ValueError "Unknown label type: continuous")
  else Raise (ValueError "Found input variables with inconsistent numbers of samples").

(** [est.fit(X, y)]: checks [X] and [y], induces a tree and stores it in the
    estimator, with the column names of [X] and the sorted distinct labels
    of [y]. *)
Definition fit (induce : option nat → DataFrame → Series → Result Tree)
    (est : Estimator) (X : DataFrame) (y : Series) : Result Estimator :=
  check_X_y X y;;
  t ← induce (max_depth est) X y;
  Ok (mkEstimator (max_depth est) (Some t) (columns X) (unique_labels (values y) [])).

(** What [predict] checks of its argument ([_validate_X_predict]): the
    column names are those seen by [fit], in their order, and [X] passes
    [check_array].  Each failure is a [ValueError]. *)
Definition validate_X (seen : list string) (X : DataFrame) : Result unit :=
  if decide (columns X = seen) then check_array X
  else Raise (ValueError "The feature names should match those that were passed during fit").

(** [est.predict(X)]: [NotFittedError] before [fit]; then [X] is validated;
    the result is one class per row of [X]. *)
Definition predict (est : Estimator) (X : DataFrame) : Result (list cell) :=
  match tree_ est with
  | None => Raise NotFittedError
  | Some t =>
      validate_X (feature_names_in_ est) X;;
      Ok (map (λ r, decision t (entries r)) (rows X))
  end.

(** *** [sklearn.metrics]

    Labels are compared for equality.  Before a metric is computed the
    library checks the type of the two targets ([_check_targets]); that
    check is [check_targets], and the cells run it first.  The metrics
    below give the value for targets that pass it. *)

(** [_check_targets(y_true, y_pred)]: numbers with a fractional part make
    a target "continuous", and no classification metric accepts such a
    target.  What the library does with a target that mixes text and
    numbers is not modelled. *)
Definition check_targets (y_true y_pred : list cell) : Result unit :=
  if forallb is_whole y_true && forallb is_whole y_pred then Ok tt
  else Raise (ValueError "continuous is not supported").

(** The value of a metric: the quotient of two counts.  Python holds the
    double nearest to it; [nan] is the quotient 0/0 where the library does
    not replace it. *)
Inductive score :=
  | nan
  | val (q : Qc).

Definition Qc_of_nat (n : nat) : Qc := Q2Qc (inject_Z (Z.of_nat n)).

Definition quotient (a b : nat) : Qc := (Qc_of_nat a / Qc_of_nat b)%Qc.

(** Number of positions where both sequences hold the same label. *)
Fixpoint agreements (a b : list cell) : nat :=
  match a, b with
  | x :: a', y :: b' => (if decide (x = y) then 1 else 0) + agreements a' b'
  | _, _ => 0
  end.

(** [accuracy_score(y_true, y_pred)]: the mean of [y_true == y_pred]. *)
Definition accuracy_score (y_true y_pred : list cell) : Result score :=
  if decide (length y_true = length y_pred) then
    Ok (if decide (length y_true = 0) then nan
        else val (quotient (agreements y_true y_pred) (length y_true)))
  else Raise (ValueError "Found input variables with inconsistent numbers of samples").

(** [est.score(X, y)]: [accuracy_score(y, est.predict(X))]. *)
Definition estimator_score (est : Estimator) (X : DataFrame) (y : Series) : Result score :=
  y_pred ← predict est X;
  check_targets (values y) y_pred;;
  accuracy_score (values y) y_pred.

Definition count (c : cell) (l : list cell) : nat := count_occ cell_eq_dec l c.

(** Positions labelled [c] in both sequences (the diagonal entry of the
    confusion matrix). *)
Fixpoint true_positives (c : cell) (y_true y_pred : list cell) : nat :=
  match y_true, y_pred with
  | x :: t, y :: p =>
      (if decide (x = c ∧ y = c) then 1 else 0) + true_positives c t p
  | _, _ => 0
  end.

(** [_prf_divide] with [zero_division="warn"]: a quotient with a zero
    denominator is reported as 0. *)
Definition prf_divide (a b : nat) : Qc := if decide (b = 0) then 0%Qc else quotient a b.

Record report_row := mkReportRow { precision : Qc; recall : Qc; f1_score : Qc; support : nat }.

(** One class of [precision_recall_fscore_support(..., average=None)]:
    precision = tp / predicted, recall = tp / true,
    f1 = 2 tp / (true + predicted), support = true. *)
Definition class_row (y_true y_pred : list cell) (c : cell) : report_row :=
  let tp := true_positives c y_true y_pred in
  let pred_sum := count c y_pred in
  let true_sum := count c y_true in
  mkReportRow (prf_divide tp pred_sum) (prf_divide tp true_sum)
              (prf_divide (2 * tp) (true_sum + pred_sum)) true_sum.

Definition sum_nat (l : list nat) : nat := foldr Nat.add 0 l.
Definition sum_Qc (l : list Qc) : Qc := foldr Qcplus 0%Qc l.

(** [average='micro']: the counts are summed over the classes first. *)
Definition micro_row (y_true y_pred labels : list cell) : report_row :=
  let tp := sum_nat (map (λ c, true_positives c y_true y_pred) labels) in
  let pred_sum := sum_nat (map (λ c, count c y_pred) labels) in
  let true_sum := sum_nat (map (λ c, count c y_true) labels) in
  mkReportRow (prf_divide tp pred_sum) (prf_divide tp true_sum)
              (prf_divide (2 * tp) (true_sum + pred_sum)) true_sum.

(** [average='macro']: the unweighted mean of the class values. *)
Definition macro_row (class_rows : list report_row) : report_row :=
  let n := Qc_of_nat (length class_rows) in
  mkReportRow (sum_Qc (map precision class_rows) / n)%Qc
              (sum_Qc (map recall class_rows) / n)%Qc
              (sum_Qc (map f1_score class_rows) / n)%Qc
              (sum_nat (map support class_rows)).

(** [average='weighted']: the mean of the class values weighted by support;
    0 when the total support is 0. *)
Definition weighted_row (class_rows : list report_row) : report_row :=
  let total := sum_nat (map support class_rows) in
  let avg (f : report_row → Qc) : Qc :=
    if decide (total = 0) then 0%Qc
    else (sum_Qc (map (λ r, Qc_of_nat (support r) * f r) class_rows) / Qc_of_nat total)%Qc in
  mkReportRow (avg precision) (avg recall) (avg f1_score) total.

(** What [classification_report] reports for single-label targets: a row per
    class, the accuracy line (the micro-averaged f1), the macro and the
    weighted averages.  The library returns these numbers laid out as text,
    rounded to two digits. *)
Record Report := mkReport {
  per_class : list (cell * report_row);
  accuracy : Qc;
  macro_avg : report_row;
  weighted_avg : report_row }.

(** [classification_report(y_true, y_pred)] *)
Definition classification_report (y_true y_pred : list cell) : Result Report :=
  if decide (length y_true = length y_pred) then
    let labels := unique_labels y_true y_pred in
    let class_rows := map (class_row y_true y_pred) labels in
    Ok (mkReport (zip labels class_rows)
                 (f1_score (micro_row y_true y_pred labels))
                 (macro_row class_rows)
                 (weighted_row class_rows))
  else Raise (ValueError "Found input variables with inconsistent numbers of samples").

(** The row the report shows for class [c]. *)
Definition row_of (r : Report) (c : cell) : option report_row :=
  (λ found, found.2.2) <$> list_find (λ p, p.1 = c) (per_class r).

(** *** [sklearn.tree.plot_tree] *)

(** What ends up on the axes: the tree with the names it is annotated with. *)
Record Drawing := mkDrawing {
  drawn_tree : Tree;
  drawn_on : Matplotlib.Axes;
  feature_names : list string;
  class_names : list cell }.

(** The class line of a node whose majority class is at position [i]:
    [class_names[i]], appended to the text of the node.  Indexing beyond
    the names is an [IndexError]; a name that is not text cannot be appended
    to text, a [TypeError]. *)
Definition class_label (class_names : list cell) (i : nat) : Result string :=
  match class_names !! i with
  | None => Raise IndexError
  | Some (Str s) => Ok s
  | Some _ => Raise (TypeError "can only concatenate str to str")
  end.

Fixpoint class_labels (class_names : list cell) (nodes : list nat) : Result (list string) :=
  match nodes with
  | [] => Ok []
  | i :: rest =>
      s ← class_label class_names i;
      ss ← class_labels class_names rest;
      Ok (s :: ss)
  end.

(** The class lines [plot_tree] writes, the root first.  The tree of an
    estimator that has seen a single class gets none ([n_classes != 1]
    guards the line). *)
Definition written_classes (classes : list cell) (t : Tree) (class_names : list cell)
    : Result (list string) :=
  if decide (length classes = 1) then Ok []
  else class_labels class_names (root_class t :: child_classes t).

(** [plot_tree(est, ax=..., feature_names=..., class_names=...)];
    [check_is_fitted] refuses an estimator without a tree, and the text of
    the nodes is built before anything is drawn. *)
Definition plot_tree (est : Estimator) (ax : Matplotlib.Axes)
    (features : list string) (classes : list cell) : Result Drawing :=
  match tree_ est with
  | None => Raise NotFittedError
  | Some t =>
      written_classes (classes_ est) t classes;;
      Ok (mkDrawing t ax features classes)
  end.

End Sklearn.

(** ** What the notebook cannot determine

    The bundled dataset is whatever seaborn delivers, the split draws from
    numpy's global generator, and tree induction is scikit-learn's.  A run
    of the notebook is a run against one such environment.  [draw] is the
    number of random draws made before. *)
Record Env := mkEnv {
  load_dataset : string → Result Pandas.DataFrame;
  permutation : nat → nat → list nat;
  permutation_spec : ∀ draw n, permutation draw n ≡ₚ seq 0 n;
  induce : nat → option nat → Pandas.DataFrame → Pandas.Series → Result Sklearn.Tree }.

(** ** The kernel's global names

    One field per name the notebook assigns; [None] until the assignment
    has run. *)

Module Globals.

Record t := mk {
  data : option (Pandas.DataFrame);
  feature_columns : option (list string);
  X : option (Pandas.DataFrame);
  y : option (Pandas.Series);
  X_train : option (Pandas.DataFrame);
  X_test : option (Pandas.DataFrame);
  y_train : option (Pandas.Series);
  y_test : option (Pandas.Series);
  model : option (Sklearn.Estimator);
  y_pred : option (list Pandas.cell);
  report : option (Sklearn.Report);
  fig : option (Matplotlib.Figure);
  ax : option (Matplotlib.Axes) }.

Definition empty : t :=
  mk None None None None None None None None None None None None None.

Definition set_data (v : Pandas.DataFrame) (g : t) : t :=
  mk (Some v) (g.(feature_columns)) (g.(X)) (g.(y)) (g.(X_train)) (g.(X_test)) (g.(y_train)) (g.(y_test)) (g.(model)) (g.(y_pred)) (g.(report)) (g.(fig)) (g.(ax)).

Definition set_feature_columns (v : list string) (g : t) : t :=
  mk (g.(data)) (Some v) (g.(X)) (g.(y)) (g.(X_train)) (g.(X_test)) (g.(y_train)) (g.(y_test)) (g.(model)) (g.(y_pred)) (g.(report)) (g.(fig)) (g.(ax)).

Definition set_X (v : Pandas.DataFrame) (g : t) : t :=
  mk (g.(data)) (g.(feature_columns)) (Some v) (g.(y)) (g.(X_train)) (g.(X_test)) (g.(y_train)) (g.(y_test)) (g.(model)) (g.(y_pred)) (g.(report)) (g.(fig)) (g.(ax)).

Definition set_y (v : Pandas.Series) (g : t) : t :=
  mk (g.(data)) (g.(feature_columns)) (g.(X)) (Some v) (g.(X_train)) (g.(X_test)) (g.(y_train)) (g.(y_test)) (g.(model)) (g.(y_pred)) (g.(report)) (g.(fig)) (g.(ax)).

Definition set_X_train (v : Pandas.DataFrame) (g : t) : t :=
  mk (g.(data)) (g.(feature_columns)) (g.(X)) (g.(y)) (Some v) (g.(X_test)) (g.(y_train)) (g.(y_test)) (g.(model)) (g.(y_pred)) (g.(report)) (g.(fig)) (g.(ax)).

Definition set_X_test (v : Pandas.DataFrame) (g : t) : t :=
  mk (g.(data)) (g.(feature_columns)) (g.(X)) (g.(y)) (g.(X_train)) (Some v) (g.(y_train)) (g.(y_test)) (g.(model)) (g.(y_pred)) (g.(report)) (g.(fig)) (g.(ax)).

Definition set_y_train (v : Pandas.Series) (g : t) : t :=
  mk (g.(data)) (g.(feature_columns)) (g.(X)) (g.(y)) (g.(X_train)) (g.(X_test)) (Some v) (g.(y_test)) (g.(model)) (g.(y_pred)) (g.(report)) (g.(fig)) (g.(ax)).

Definition set_y_test (v : Pandas.Series) (g : t) : t :=
  mk (g.(data)) (g.(feature_columns)) (g.(X)) (g.(y)) (g.(X_train)) (g.(X_test)) (g.(y_train)) (Some v) (g.(model)) (g.(y_pred)) (g.(report)) (g.(fig)) (g.(ax)).

Definition set_model (v : Sklearn.Estimator) (g : t) : t :=
  mk (g.(data)) (g.(feature_columns)) (g.(X)) (g.(y)) (g.(X_train)) (g.(X_test)) (g.(y_train)) (g.(y_test)) (Some v) (g.(y_pred)) (g.(report)) (g.(fig)) (g.(ax)).

Definition set_y_pred (v : list Pandas.cell) (g : t) : t :=
  mk (g.(data)) (g.(feature_columns)) (g.(X)) (g.(y)) (g.(X_train)) (g.(X_test)) (g.(y_train)) (g.(y_test)) (g.(model)) (Some v) (g.(report)) (g.(fig)) (g.(ax)).

Definition set_report (v : Sklearn.Report) (g : t) : t :=
  mk (g.(data)) (g.(feature_columns)) (g.(X)) (g.(y)) (g.(X_train)) (g.(X_test)) (g.(y_train)) (g.(y_test)) (g.(model)) (g.(y_pred)) (Some v) (g.(fig)) (g.(ax)).

Definition set_fig (v : Matplotlib.Figure) (g : t) : t :=
  mk (g.(data)) (g.(feature_columns)) (g.(X)) (g.(y)) (g.(X_train)) (g.(X_test)) (g.(y_train)) (g.(y_test)) (g.(model)) (g.(y_pred)) (g.(report)) (Some v) (g.(ax)).

Definition set_ax (v : Matplotlib.Axes) (g : t) : t :=
  mk (g.(data)) (g.(feature_columns)) (g.(X)) (g.(y)) (g.(X_train)) (g.(X_test)) (g.(y_train)) (g.(y_test)) (g.(model)) (g.(y_pred)) (g.(report)) (g.(fig)) (Some v).

End Globals.

(** ** The notebook *)

Module Notebook.
Import Pandas Sklearn.

(** The library entry points the code cells use. *)
Inductive api :=
  | sns_load_dataset
  | DataFrame_head | DataFrame_dropna | DataFrame_loc | DataFrame_shape
  | Series_head | Series_shape | Series_values | Series_getitem | Series_unique
  | ndarray_getitem
  | sk_train_test_split
  | sk_DecisionTreeClassifier | estimator_fit | estimator_predict | estimator_score_method
  | sk_accuracy_score | sk_classification_report
  | sk_plot_tree
  | plt_subplots
  | builtin_print | builtin_help.

#[export] Instance api_eq_dec : EqDecision api.
Proof. solve_decision. Defined.

(** Values that reach the output area. *)
Inductive pyvalue :=
  | VFrame (d : DataFrame)
  | VSeries (s : Series)
  | VLabels (l : list cell)
  | VShape (s : list nat)
  | VScore (x : score)
  | VReport (r : Report)
  | VEstimator (e : Estimator).

Inductive output :=
  | Displayed (v : pyvalue)
  | Printed (text : string) (v : pyvalue)
  | HelpText (topic : string)
  | Drawn (d : Drawing).

(** The state of the kernel: the global names, the modules imported, the
    library calls made so far and the exceptions they raised (both oldest
    first), the output area, and the number of random draws made. *)
Record Kernel := mkKernel {
  names : Globals.t;
  imported : list string;
  calls : list api;
  raised : list (api * exn);
  outputs : list output;
  draws : nat }.

Definition fresh : Kernel := mkKernel Globals.empty [] [] [] [] 0.

(** A piece of notebook code: it changes the kernel and returns a value or
    stops with an exception. *)
Definition NB (A : Type) : Type := Kernel → Kernel * Result A.

#[export] Instance NB_ret : MRet NB := λ A a k, (k, Ok a).
#[export] Instance NB_bind : MBind NB := λ A B f m k,
  match m k with
  | (k', Ok a) => f a k'
  | (k', Raise e) => (k', Raise e)
  end.

(** [import m] / [from m import ...] *)
Definition import_ (m : string) : NB unit := λ k,
  (mkKernel (names k) (imported k ++ [m]) (calls k) (raised k) (outputs k) (draws k), Ok tt).

(** A call of the library entry point [f] whose outcome is [r]. *)
Definition call {A} (f : api) (r : Result A) : NB A := λ k,
  (mkKernel (names k) (imported k) (calls k ++ [f])
            (match r with Ok _ => raised k | Raise e => raised k ++ [(f, e)] end)
            (outputs k) (draws k), r).

(** Reading a global name; [NameError] when it is not bound. *)
Definition read {A} (field : Globals.t → option A) (name : string) : NB A := λ k,
  (k, of_option (field (names k)) (NameError name)).

(** Binding a global name. *)
Definition assign (set : Globals.t → Globals.t) : NB unit := λ k,
  (mkKernel (set (names k)) (imported k) (calls k) (raised k) (outputs k) (draws k), Ok tt).

Definition emit (o : output) : NB unit := λ k,
  (mkKernel (names k) (imported k) (calls k) (raised k) (outputs k ++ [o]) (draws k), Ok tt).

(** The index of the next random draw. *)
Definition next_draw : NB nat := λ k,
  (mkKernel (names k) (imported k) (calls k) (raised k) (outputs k) (S (draws k)), Ok (draws k)).

(** [print(f'text{v}')] *)
Definition print (text : string) (v : pyvalue) : NB unit :=
  call builtin_print (Ok tt);; emit (Printed text v).

Section Cells.
Variable env : Env.

(** [import seaborn as sns; import matplotlib.pyplot as plt] *)
Definition cell_1 : NB unit :=
  import_ "seaborn";; import_ "matplotlib.pyplot".

(** [data = sns.load_dataset('penguins'); data.head()] *)
Definition cell_2 : NB unit :=
  d ← call sns_load_dataset (load_dataset env "penguins");
  assign (Globals.set_data d);;
  d ← read Globals.data "data";
  h ← call DataFrame_head (Ok (frame_head d));
  emit (Displayed (VFrame h)).

(** [data = data.dropna()] *)
Definition cell_3 : NB unit :=
  d ← read Globals.data "data";
  d' ← call DataFrame_dropna (Ok (dropna d));
  assign (Globals.set_data d').

(** [feature_columns = [...]; X = data.loc[:, feature_columns];
    y = data.loc[:, 'species']] and the two shapes printed. *)
Definition cell_4 : NB unit :=
  assign (Globals.set_feature_columns
            ["bill_length_mm"; "bill_depth_mm"; "flipper_length_mm"; "body_mass_g"]);;
  d ← read Globals.data "data";
  cols ← read Globals.feature_columns "feature_columns";
  X ← call DataFrame_loc (loc_columns d cols);
  assign (Globals.set_X X);;
  d ← read Globals.data "data";
  y ← call DataFrame_loc (loc_column d "species");
  assign (Globals.set_y y);;
  X ← read Globals.X "X";
  sx ← call DataFrame_shape (Ok (frame_shape X));
  print "The shape of feature matrix X is: " (VShape sx);;
  y ← read Globals.y "y";
  sy ← call Series_shape (Ok (series_shape y));
  print "The shape of target vector y is: " (VShape sy).

(** [X.head()] *)
Definition cell_5 : NB unit :=
  X ← read Globals.X "X";
  h ← call DataFrame_head (Ok (frame_head X));
  emit (Displayed (VFrame h)).

(** [y.head()] *)
Definition cell_6 : NB unit :=
  y ← read Globals.y "y";
  h ← call Series_head (Ok (series_head y));
  emit (Displayed (VSeries h)).

(** [X_train, X_test, y_train, y_test = train_test_split(X, y, test_size = 0.3)]
    and the four shapes printed. *)
Definition cell_7 : NB unit :=
  import_ "sklearn.model_selection";;
  X ← read Globals.X "X";
  y ← read Globals.y "y";
  i ← next_draw;
  parts ← call sk_train_test_split
            (train_test_split (permutation env i) X y Float64.lit_0_3);
  assign (Globals.set_X_train parts.1.1.1);;
  assign (Globals.set_X_test parts.1.1.2);;
  assign (Globals.set_y_train parts.1.2);;
  assign (Globals.set_y_test parts.2);;
  X_train ← read Globals.X_train "X_train";
  s ← call DataFrame_shape (Ok (frame_shape X_train));
  print "The size of our feature matrix for the train set is: " (VShape s);;
  y_train ← read Globals.y_train "y_train";
  s ← call Series_shape (Ok (series_shape y_train));
  print "The size of our target vector for the train set is: " (VShape s);;
  X_test ← read Globals.X_test "X_test";
  s ← call DataFrame_shape (Ok (frame_shape X_test));
  print (String "010"%char "The size of our feature matrix for the test set is: ") (VShape s);;
  y_test ← read Globals.y_test "y_test";
  s ← call Series_shape (Ok (series_shape y_test));
  print "The size of our target vector for the test set is: " (VShape s).

(** [y_test.values] *)
Definition cell_8 : NB unit :=
  y_test ← read Globals.y_test "y_test";
  v ← call Series_values (Ok (values y_test));
  emit (Displayed (VLabels v)).

(** [from sklearn.tree import DecisionTreeClassifier] *)
Definition cell_9 : NB unit := import_ "sklearn.tree".

(** [help(DecisionTreeClassifier)] *)
Definition cell_10 : NB unit :=
  call builtin_help (Ok tt);; emit (HelpText "DecisionTreeClassifier").

(** [model = DecisionTreeClassifier(max_depth=2)] *)
Definition cell_11 : NB unit :=
  m ← call sk_DecisionTreeClassifier (Ok (DecisionTreeClassifier (Some 2)));
  assign (Globals.set_model m).

(** [model.fit(X_train, y_train)]: the estimator object itself is fitted,
    and returned as the value of the cell. *)
Definition fit_model : NB Estimator :=
  m ← read Globals.model "model";
  X_train ← read Globals.X_train "X_train";
  y_train ← read Globals.y_train "y_train";
  i ← next_draw;
  m' ← call estimator_fit (fit (induce env i) m X_train y_train);
  assign (Globals.set_model m');;
  mret m'.

Definition cell_12 : NB unit :=
  m ← fit_model; emit (Displayed (VEstimator m)).

(** [y_pred = model.predict(X_test)] *)
Definition predict_test : NB unit :=
  m ← read Globals.model "model";
  X_test ← read Globals.X_test "X_test";
  p ← call estimator_predict (predict m X_test);
  assign (Globals.set_y_pred p).

(** [y_pred = model.predict(X_test); y_pred[0:10]] *)
Definition cell_13 : NB unit :=
  predict_test;;
  p ← read Globals.y_pred "y_pred";
  s ← call ndarray_getitem (Ok (take 10 p));
  emit (Displayed (VLabels s)).

(** [y_test[0:10].values] *)
Definition cell_14 : NB unit :=
  y_test ← read Globals.y_test "y_test";
  s ← call Series_getitem (Ok (series_slice y_test 10));
  v ← call Series_values (Ok (values s));
  emit (Displayed (VLabels v)).

(** [accuracy_score(y_pred, y_test)] *)
Definition cell_15 : NB unit :=
  import_ "sklearn.metrics";;
  p ← read Globals.y_pred "y_pred";
  y_test ← read Globals.y_test "y_test";
  a ← call sk_accuracy_score
        (check_targets p (values y_test);; accuracy_score p (values y_test));
  emit (Displayed (VScore a)).

(** [report = classification_report(y_pred, y_test); print(report)] *)
Definition cell_16 : NB unit :=
  import_ "sklearn.metrics";;
  p ← read Globals.y_pred "y_pred";
  y_test ← read Globals.y_test "y_test";
  r ← call sk_classification_report
        (check_targets p (values y_test);; classification_report p (values y_test));
  assign (Globals.set_report r);;
  r ← read Globals.report "report";
  print "" (VReport r).

(** [fig, ax = plt.subplots(figsize=(14,10));
    plot_tree(model, ax=ax, feature_names = feature_columns,
              class_names = y.unique());] *)
Definition cell_17 : NB unit :=
  import_ "sklearn.tree";;
  fa ← call plt_subplots (Ok (Matplotlib.subplots (14, 10)));
  assign (Globals.set_fig fa.1);;
  assign (Globals.set_ax fa.2);;
  m ← read Globals.model "model";
  ax ← read Globals.ax "ax";
  cols ← read Globals.feature_columns "feature_columns";
  y ← read Globals.y "y";
  classes ← call Series_unique (Ok (unique (values y)));
  d ← call sk_plot_tree (plot_tree m ax cols classes);
  emit (Drawn d).

(** The imports of the other classifiers; every assignment in this cell is
    commented out. *)
Definition cell_18 : NB unit :=
  import_ "sklearn.ensemble";; import_ "sklearn.svm";; import_ "sklearn.neighbors".

(** [model.fit(X_train, y_train); y_pred = model.predict(X_test);
    report = classification_report(y_test, y_pred);
    print(f'Model accuracy: {model.score(X_test, y_test)}'); print(report)] *)
Definition cell_19 : NB unit :=
  fit_model;;
  predict_test;;
  y_test ← read Globals.y_test "y_test";
  p ← read Globals.y_pred "y_pred";
  r ← call sk_classification_report
        (check_targets (values y_test) p;; classification_report (values y_test) p);
  assign (Globals.set_report r);;
  m ← read Globals.model "model";
  X_test ← read Globals.X_test "X_test";
  y_test ← read Globals.y_test "y_test";
  a ← call estimator_score_method (estimator_score m X_test y_test);
  print "Model accuracy: " (VScore a);;
  r ← read Globals.report "report";
  print "" (VReport r).

(** The code cells in notebook order. *)
Definition cells : list (NB unit) :=
  [cell_1; cell_2; cell_3; cell_4; cell_5; cell_6; cell_7; cell_8; cell_9; cell_10;
   cell_11; cell_12; cell_13; cell_14; cell_15; cell_16; cell_17; cell_18; cell_19].

(** Running cells one after the other; the first exception ends the run. *)
Fixpoint run_cells (cs : list (NB unit)) : NB unit :=
  match cs with
  | [] => mret tt
  | c :: rest => c;; run_cells rest
  end.

(** "Run All" on a fresh kernel. *)
Definition run_all : Kernel * Result unit := run_cells cells fresh.

End Cells.

End Notebook.

(** ** A small environment to run the notebook on

    Eight observations with the seven columns of the penguins table, two of
    them incomplete; the generator returns the positions in reverse; the
    "tree" separates on bill length alone. *)

Module Example.
Import Pandas Sklearn.

Definition num (z : Z) : cell := Num (Q2Qc (inject_Z z)).

Definition penguin_columns : list string :=
  ["species"; "island"; "bill_length_mm"; "bill_depth_mm"; "flipper_length_mm";
   "body_mass_g"; "sex"].

Definition penguins : DataFrame :=
  mkDataFrame penguin_columns
    [ mkRow 0 [Str "Adelie"; Str "Torgersen"; num 39; num 18; num 181; num 3750; Str "Male"];
      mkRow 1 [Str "Adelie"; Str "Torgersen"; NaN; NaN; NaN; NaN; NaN];
      mkRow 2 [Str "Gentoo"; Str "Biscoe"; num 46; num 13; num 211; num 4500; Str "Female"];
      mkRow 3 [Str "Chinstrap"; Str "Dream"; num 46; num 17; num 192; num 3500; Str "Female"];
      mkRow 4 [Str "Gentoo"; Str "Biscoe"; num 50; num 16; num 230; num 5700; NaN];
      mkRow 5 [Str "Adelie"; Str "Dream"; num 37; num 18; num 185; num 3650; Str "Male"];
      mkRow 6 [Str "Gentoo"; Str "Biscoe"; num 48; num 14; num 210; num 4600; Str "Male"];
      mkRow 7 [Str "Chinstrap"; Str "Dream"; num 51; num 19; num 196; num 3700; Str "Male"] ].

Definition by_bill_length (features : list cell) : cell :=
  match features with
  | Num x :: _ => if bool_decide (x ≤ Q2Qc (inject_Z 42))%Qc then Str "Adelie" else Str "Gentoo"
  | _ => Str "Adelie"
  end.

Definition toy_load (dataset : string) : Result DataFrame :=
  if decide (dataset = "penguins") then Ok penguins else Raise (ValueError "not a dataset").

Definition toy_induce (draw : nat) (depth : option nat) (X : DataFrame) (y : Series) : Result Tree :=
  Ok (mkTree 0 [0; 1] by_bill_length).

Lemma reverse_is_permutation (draw n : nat) : rev (seq 0 n) ≡ₚ seq 0 n.
Proof. symmetry. apply Permutation_rev. Qed.

Definition toy : Env :=
  mkEnv toy_load (λ _ n, rev (seq 0 n)) reverse_is_permutation toy_induce.

(** An environment whose dataset has no [species] column. *)
Definition headless : Env :=
  mkEnv (λ _, Ok (mkDataFrame ["bill_length_mm"] [mkRow 0 [num 39]]))
        (λ _ n, rev (seq 0 n)) reverse_is_permutation toy_induce.

(** A table with a single, complete observation. *)
Definition one_penguin : DataFrame :=
  mkDataFrame penguin_columns
    [ mkRow 0 [Str "Adelie"; Str "Torgersen"; num 39; num 18;
               num 181; num 3750; Str "Male"] ].

Definition lonely : Env :=
  mkEnv (λ _, Ok one_penguin) (λ _ n, rev (seq 0 n)) reverse_is_permutation
        toy_induce.

(** An environment in which the dataset cannot be loaded. *)
Definition offline : Env :=
  mkEnv (λ _, Raise (LibraryError 404)) (λ _ n, rev (seq 0 n))
        reverse_is_permutation toy_induce.

(** An environment in which tree induction fails. *)
Definition untrainable : Env :=
  mkEnv toy_load (λ _ n, rev (seq 0 n)) reverse_is_permutation
        (λ _ _ _ _, Raise (ValueError "could not convert string to float")).

(** The table with a bill length entered as text in its last row, which the
    split puts into the test part. *)
Definition mistyped_penguins : DataFrame :=
  mkDataFrame penguin_columns
    (take 7 (rows penguins)
     ++ [ mkRow 7 [Str "Chinstrap"; Str "Dream"; Str "unknown"; num 19; num 196; num 3700;
                   Str "Male"] ]).

Definition mistyped : Env :=
  mkEnv (λ _, Ok mistyped_penguins) (λ _ n, rev (seq 0 n)) reverse_is_permutation toy_induce.

(** A tree that predicts the first label it was given. *)
Definition first_label_induce (draw : nat) (depth : option nat) (X : DataFrame) (y : Series)
    : Result Tree :=
  Ok (mkTree 0 [0; 1] (λ _, default NaN (head (values y)))).

(** The complete rows of the table, with the species replaced by the
    numbers in [codes], row by row. *)
Definition coded_penguins (codes : list cell) : DataFrame :=
  mkDataFrame penguin_columns
    (zip_with (λ r c, mkRow (label r) (c :: drop 1 (entries r)))
              (rows (dropna penguins)) codes).

(** Species coded by whole numbers. *)
Definition numbered : Env :=
  mkEnv (λ _, Ok (coded_penguins [num 1; num 3; num 2; num 1; num 3; num 2]))
        (λ _ n, rev (seq 0 n)) reverse_is_permutation first_label_induce.

(** Species coded by numbers, one of them, in the test part, not whole. *)
Definition graded : Env :=
  mkEnv (λ _, Ok (coded_penguins [num 1; num 3; num 2; num 1; num 3; Num (Q2Qc (5 # 2))]))
        (λ _ n, rev (seq 0 n)) reverse_is_permutation first_label_induce.

End Example.

(** * Properties *)

(** ** What a complete run computes *)

Module Summary.
Import Pandas Sklearn Notebook.

Definition features : list string :=
  ["bill_length_mm"; "bill_depth_mm"; "flipper_length_mm"; "body_mass_g"].

(** The library calls of a complete run, in order. *)
Definition all_calls : list api :=
  [ sns_load_dataset; DataFrame_head;
    DataFrame_dropna;
    DataFrame_loc; DataFrame_loc; DataFrame_shape; builtin_print; Series_shape; builtin_print;
    DataFrame_head;
    Series_head;
    sk_train_test_split; DataFrame_shape; builtin_print; Series_shape; builtin_print;
    DataFrame_shape; builtin_print; Series_shape; builtin_print;
    Series_values;
    builtin_help;
    sk_DecisionTreeClassifier;
    estimator_fit;
    estimator_predict; ndarray_getitem;
    Series_getitem; Series_values;
    sk_accuracy_score;
    sk_classification_report; builtin_print;
    plt_subplots; Series_unique; sk_plot_tree;
    estimator_fit; estimator_predict; sk_classification_report; estimator_score_method;
    builtin_print; builtin_print ].

Definition all_imports : list string :=
  [ "seaborn"; "matplotlib.pyplot"; "sklearn.model_selection"; "sklearn.tree";
    "sklearn.metrics"; "sklearn.metrics"; "sklearn.tree";
    "sklearn.ensemble"; "sklearn.svm"; "sklearn.neighbors" ].

(** The values a complete run goes through. *)
Record Run := mkRun {
  raw : DataFrame;
  X : DataFrame;
  y : Series;
  X_train : DataFrame;
  X_test : DataFrame;
  y_train : Series;
  y_test : Series;
  tree : Tree;
  shown_accuracy : score;
  tree_report : Report;
  tree' : Tree;
  final_report : Report;
  final_accuracy : score }.

(** [predictions t d]: what an estimator holding [t] predicts for [d]. *)
Definition predictions (t : Tree) (d : DataFrame) : list cell :=
  map (λ r, decision t (entries r)) (rows d).

(** The estimator once [fit] has stored the tree [t]. *)
Definition fitted (r : Run) (t : Tree) : Estimator :=
  mkEstimator (Some 2) (Some t) (columns (X_train r)) (unique_labels (values (y_train r)) []).

(** The chain of library results behind a complete run: each line applies
    one library operation to results of the lines above. *)
Definition explains (env : Env) (r : Run) : Prop :=
  load_dataset env "penguins" = Ok (raw r)
  ∧ loc_columns (dropna (raw r)) features = Ok (X r)
  ∧ loc_column (dropna (raw r)) "species" = Ok (y r)
  ∧ train_test_split (permutation env 0) (X r) (y r) Float64.lit_0_3
    = Ok (X_train r, X_test r, y_train r, y_test r)
  ∧ induce env 1 (Some 2) (X_train r) (y_train r) = Ok (tree r)
  ∧ accuracy_score (predictions (tree r) (X_test r)) (values (y_test r)) = Ok (shown_accuracy r)
  ∧ classification_report (predictions (tree r) (X_test r)) (values (y_test r)) = Ok (tree_report r)
  ∧ induce env 2 (Some 2) (X_train r) (y_train r) = Ok (tree' r)
  ∧ classification_report (values (y_test r)) (predictions (tree' r) (X_test r)) = Ok (final_report r)
  ∧ accuracy_score (values (y_test r)) (predictions (tree' r) (X_test r)) = Ok (final_accuracy r)
  ∧ check_X_y (X_train r) (y_train r) = Ok tt
  ∧ validate_X (columns (X_train r)) (X_test r) = Ok tt
  ∧ check_targets (predictions (tree r) (X_test r)) (values (y_test r)) = Ok tt
  ∧ (∃ lines, written_classes (unique_labels (values (y_train r)) []) (tree r)
                (unique (values (y r))) = Ok lines)
  ∧ check_targets (values (y_test r)) (predictions (tree' r) (X_test r)) = Ok tt.

Definition the_axes : Matplotlib.Axes := Matplotlib.mkAxes (Matplotlib.mkFigure (14, 10)).

(** The global names after a complete run. *)
Definition final_names (r : Run) : Globals.t :=
  Globals.mk (Some (dropna (raw r))) (Some features) (Some (X r)) (Some (y r))
    (Some (X_train r)) (Some (X_test r)) (Some (y_train r)) (Some (y_test r))
    (Some (fitted r (tree' r)))
    (Some (predictions (tree' r) (X_test r)))
    (Some (final_report r))
    (Some (Matplotlib.mkFigure (14, 10))) (Some the_axes).

(** The output area after a complete run. *)
Definition final_outputs (r : Run) : list output :=
  [ Displayed (VFrame (frame_head (raw r)));
    Printed "The shape of feature matrix X is: " (VShape (frame_shape (X r)));
    Printed "The shape of target vector y is: " (VShape (series_shape (y r)));
    Displayed (VFrame (frame_head (X r)));
    Displayed (VSeries (series_head (y r)));
    Printed "The size of our feature matrix for the train set is: "
      (VShape (frame_shape (X_train r)));
    Printed "The size of our target vector for the train set is: "
      (VShape (series_shape (y_train r)));
    Printed (String "010"%char "The size of our feature matrix for the test set is: ")
      (VShape (frame_shape (X_test r)));
    Printed "The size of our target vector for the test set is: "
      (VShape (series_shape (y_test r)));
    Displayed (VLabels (values (y_test r)));
    HelpText "DecisionTreeClassifier";
    Displayed (VEstimator (fitted r (tree r)));
    Displayed (VLabels (take 10 (predictions (tree r) (X_test r))));
    Displayed (VLabels (values (series_slice (y_test r) 10)));
    Displayed (VScore (shown_accuracy r));
    Printed "" (VReport (tree_report r));
    Drawn (mkDrawing (tree r) the_axes features (unique (values (y r))));
    Printed "Model accuracy: " (VScore (final_accuracy r));
    Printed "" (VReport (final_report r)) ].

Definition final (r : Run) : Kernel :=
  mkKernel (final_names r) all_imports all_calls [] (final_outputs r) 3.

End Summary.

(** ** The stages of the pipeline *)

Module Pipeline.
Import Notebook.

Inductive stage := Load | Clean | Split | Fit | Predict | Score | Plot.

#[export] Instance stage_eq_dec : EqDecision stage.
Proof. solve_decision. Defined.

(** The stage a library call belongs to; the accessors, the constructor of
    the estimator, [plt.subplots], [print] and [help] belong to none. *)
Definition stage_of (f : api) : option stage :=
  match f with
  | sns_load_dataset => Some Load
  | DataFrame_dropna => Some Clean
  | sk_train_test_split => Some Split
  | estimator_fit => Some Fit
  | estimator_predict => Some Predict
  | sk_accuracy_score | sk_classification_report | estimator_score_method => Some Score
  | sk_plot_tree => Some Plot
  | _ => None
  end.

Definition stages (trace : list api) : list stage := omap stage_of trace.

(** The stages of a trace in the order in which each is first entered. *)
Fixpoint first_occurrences (l : list stage) : list stage :=
  match l with
  | [] => []
  | s :: rest => s :: List.filter (λ s', bool_decide (s' ≠ s)) (first_occurrences rest)
  end.

End Pipeline.

(** ** The libraries behind the calls *)

Module Interfaces.
Import Notebook.

Inductive library :=
  | seaborn | pandas | numpy | matplotlib
  | sklearn_model_selection | sklearn_tree | sklearn_metrics
  | builtins.

#[export] Instance library_eq_dec : EqDecision library.
Proof. solve_decision. Defined.

(** The library an entry point belongs to: the module it is imported from,
    or the type of the object the method or attribute is taken from. *)
Definition library_of (f : api) : library :=
  match f with
  | sns_load_dataset => seaborn
  | DataFrame_head | DataFrame_dropna | DataFrame_loc | DataFrame_shape
  | Series_head | Series_shape | Series_values | Series_getitem | Series_unique => pandas
  | ndarray_getitem => numpy
  | sk_train_test_split => sklearn_model_selection
  | sk_DecisionTreeClassifier | estimator_fit | estimator_predict
  | estimator_score_method | sk_plot_tree => sklearn_tree
  | sk_accuracy_score | sk_classification_report => sklearn_metrics
  | plt_subplots => matplotlib
  | builtin_print | builtin_help => builtins
  end.

(** The interfaces the specification names: the dataset loader and the
    machine-learning library (its tree plot counted in). *)
Definition named_interface (f : api) : Prop :=
  f = sns_load_dataset
  ∨ library_of f ∈ [sklearn_model_selection; sklearn_tree; sklearn_metrics].

#[export] Instance named_interface_dec (f : api) : Decision (named_interface f).
Proof. unfold named_interface. apply _. Defined.

End Interfaces.

(** Symbolic execution of the cells: unfold the notebook layer, leave the
    library operations folded, and split on each library result. *)
Ltac nb_unfold :=
  cbv beta iota zeta delta
    [Notebook.run_all Notebook.run_cells Notebook.cells
     Notebook.cell_1 Notebook.cell_2 Notebook.cell_3 Notebook.cell_4 Notebook.cell_5
     Notebook.cell_6 Notebook.cell_7 Notebook.cell_8 Notebook.cell_9 Notebook.cell_10
     Notebook.cell_11 Notebook.cell_12 Notebook.cell_13 Notebook.cell_14 Notebook.cell_15
     Notebook.cell_16 Notebook.cell_17 Notebook.cell_18 Notebook.cell_19
     Notebook.fit_model Notebook.predict_test Notebook.print Notebook.import_
     Notebook.call Notebook.read Notebook.assign Notebook.emit Notebook.next_draw
     Notebook.fresh mbind mret Notebook.NB_bind Notebook.NB_ret
     result_mbind result_ret result_bind of_option
     Notebook.names Notebook.imported Notebook.calls Notebook.raised Notebook.outputs
     Notebook.draws app fst snd
     Sklearn.fit Sklearn.predict Sklearn.plot_tree Sklearn.estimator_score
     Sklearn.DecisionTreeClassifier Sklearn.tree_ Sklearn.max_depth Sklearn.feature_names_in_
     Sklearn.classes_
     Matplotlib.subplots Globals.empty
     Globals.data Globals.feature_columns Globals.X Globals.y Globals.X_train
     Globals.X_test Globals.y_train Globals.y_test Globals.model Globals.y_pred
     Globals.report Globals.fig Globals.ax
     Globals.set_data Globals.set_feature_columns Globals.set_X Globals.set_y
     Globals.set_X_train Globals.set_X_test Globals.set_y_train Globals.set_y_test
     Globals.set_model Globals.set_y_pred Globals.set_report Globals.set_fig Globals.set_ax].

(** The same for one cell on any kernel: lists of calls stay as they are,
    and the names a cell reads are split into bound and unbound. *)
Ltac nb_unfold_cell :=
  cbv beta iota zeta delta
    [Notebook.run_all Notebook.run_cells Notebook.cells
     Notebook.cell_1 Notebook.cell_2 Notebook.cell_3 Notebook.cell_4 Notebook.cell_5
     Notebook.cell_6 Notebook.cell_7 Notebook.cell_8 Notebook.cell_9 Notebook.cell_10
     Notebook.cell_11 Notebook.cell_12 Notebook.cell_13 Notebook.cell_14 Notebook.cell_15
     Notebook.cell_16 Notebook.cell_17 Notebook.cell_18 Notebook.cell_19
     Notebook.fit_model Notebook.predict_test Notebook.print Notebook.import_
     Notebook.call Notebook.read Notebook.assign Notebook.emit Notebook.next_draw
     Notebook.fresh mbind mret Notebook.NB_bind Notebook.NB_ret
     result_mbind result_ret result_bind of_option
     Notebook.names Notebook.imported Notebook.calls Notebook.raised Notebook.outputs
     Notebook.draws fst snd
     Sklearn.fit Sklearn.predict Sklearn.plot_tree Sklearn.estimator_score
     Sklearn.DecisionTreeClassifier Sklearn.tree_ Sklearn.max_depth Sklearn.feature_names_in_
     Sklearn.classes_
     Matplotlib.subplots Globals.empty
     Globals.data Globals.feature_columns Globals.X Globals.y Globals.X_train
     Globals.X_test Globals.y_train Globals.y_test Globals.model Globals.y_pred
     Globals.report Globals.fig Globals.ax
     Globals.set_data Globals.set_feature_columns Globals.set_X Globals.set_y
     Globals.set_X_train Globals.set_X_test Globals.set_y_train Globals.set_y_test
     Globals.set_model Globals.set_y_pred Globals.set_report Globals.set_fig Globals.set_ax].

Ltac nb_step_cell :=
  match goal with
  | |- context [match ?r with _ => _ end] =>
      first
        [ is_var r; destruct r
        | let T := type of r in
          lazymatch T with
          | Result _ =>
              lazymatch r with
              | context [match _ with _ => _ end] => fail
              | _ => destruct r eqn:?
              end
          end ]
  end; cbv beta iota zeta.

Ltac nb_step :=
  match goal with
  | |- context [match ?r with _ => _ end] =>
      let T := type of r in
      lazymatch T with
      | Result _ =>
          lazymatch r with
          | context [match _ with _ => _ end] => fail
          | _ => destruct r eqn:?
          end
      | (_ * _)%type => is_var r; destruct r
      end
  end; cbv beta iota zeta.

Section RunAll.
Import Pandas Sklearn Notebook Summary.
Variable env : Env.

(** A run ends without exception exactly when every library call in the
    chain returns, and then the kernel is [final]. *)
Lemma run_all_ok (k : Kernel) :
  run_all env = (k, Ok tt) ↔ ∃ r, explains env r ∧ k = final r.
Proof.
  split.
  - nb_unfold. repeat (nb_step; try discriminate).
    intros [= <-].
    repeat match goal with u : unit |- _ => destruct u end.
    eexists (mkRun _ _ _ _ _ _ _ _ _ _ _ _ _).
    unfold explains, final, final_names, final_outputs, fitted, predictions, the_axes; simpl.
    repeat split; eauto.
  - intros (r & (H1 & H2 & H3 & H4 & H5 & H6 & H7 & H8 & H9 & H10 & H11 & H12 & H13
                 & [lines H14] & H15) & ->).
    unfold fitted, predictions, features in *.
    nb_unfold. repeat (nb_step; simplify_eq).
    reflexivity.
Qed.

End RunAll.

(** ** pandas: what [dropna] and [loc] keep *)

Section PandasFacts.
Import Pandas.

Lemma complete_spec (width : nat) (r : Row) :
  complete width r = true ↔ ∀ j, j < width → entry r j ≠ NaN.
Proof.
  unfold complete. rewrite forallb_forall. split.
  - intros H j Hj. specialize (H j). rewrite in_seq in H.
    assert (Hn : negb (isna (entry r j)) = true) by (apply H; lia).
    intros E. rewrite E in Hn. discriminate.
  - intros H j [_ Hj]%in_seq. specialize (H j ltac:(lia)).
    destruct (entry r j); [congruence | reflexivity | reflexivity].
Qed.

Lemma filter_sublist {A} (f : A → bool) (l : list A) : List.filter f l `sublist_of` l.
Proof.
  induction l as [|a l IH]; simpl; [constructor|].
  destruct (f a); [by apply sublist_skip | by apply sublist_cons].
Qed.

Lemma filter_count {A} (dec : ∀ a b : A, {a = b} + {a ≠ b}) (f : A → bool) (l : list A) (a : A) :
  count_occ dec (List.filter f l) a = if f a then count_occ dec l a else 0.
Proof.
  induction l as [|b l IH]; simpl.
  - by destruct (f a).
  - destruct (f b) eqn:Eb; simpl; destruct (dec b a) as [->|Hne]; rewrite ?IH.
    + by rewrite Eb.
    + done.
    + by rewrite Eb.
    + done.
Qed.

Lemma elem_of_dropna (d : DataFrame) (r : Row) :
  r ∈ rows (dropna d) ↔ r ∈ rows d ∧ ∀ j, j < length (columns d) → entry r j ≠ NaN.
Proof.
  unfold dropna; simpl. rewrite !list_elem_of_In, filter_In, complete_spec. tauto.
Qed.

Lemma column_position_Some (cols : list string) (c : string) (j : nat) :
  column_position cols c = Some j → cols !! j = Some c.
Proof.
  revert j. induction cols as [|c' cols IH]; intros j; simpl; [done|].
  case_decide as E.
  - intros [= <-]. by rewrite E.
  - destruct (column_position cols c) as [j'|] eqn:Ej; simpl; [|done].
    intros [= <-]. simpl. by apply IH.
Qed.

Lemma column_position_lt (cols : list string) (c : string) (j : nat) :
  column_position cols c = Some j → j < length cols.
Proof. intros H%column_position_Some. by eapply lookup_lt_Some. Qed.

Lemma column_position_None (cols : list string) (c : string) :
  column_position cols c = None ↔ c ∉ cols.
Proof.
  induction cols as [|c' cols IH]; simpl.
  - split; [intros _; apply not_elem_of_nil | done].
  - case_decide as E.
    + subst. split; [done | intros []; left].
    + rewrite not_elem_of_cons, <- IH.
      destruct (column_position cols c); simpl; split; try done.
      by intros [_ ?].
Qed.

Lemma column_positions_Ok (cols wanted : list string) (js : list nat) :
  column_positions cols wanted = Ok js ↔
  Forall2 (λ c j, column_position cols c = Some j) wanted js.
Proof.
  revert js. induction wanted as [|c wanted IH]; intros js; simpl.
  - split; [intros [= <-]; constructor | by intros ->%Forall2_nil_inv_l].
  - destruct (column_position cols c) as [j|] eqn:Ej.
    + destruct (column_positions cols wanted) as [js'|e] eqn:E; simpl.
      * split.
        -- intros [= <-]. constructor; [done | by apply IH].
        -- intros (j' & js'' & Hj & Hjs & ->)%Forall2_cons_inv_l.
           apply IH in Hjs. congruence.
      * split; [done|].
        intros (j' & js'' & Hj & Hjs & ->)%Forall2_cons_inv_l.
        apply IH in Hjs. congruence.
    + split; [done|].
      intros (j' & js'' & Hj & Hjs & ->)%Forall2_cons_inv_l. congruence.
Qed.

(** [loc] with a list of names succeeds exactly when every name is a column. *)
Lemma loc_columns_is_Ok (d : DataFrame) (wanted : list string) :
  (∃ X, loc_columns d wanted = Ok X) ↔ wanted ⊆ columns d.
Proof.
  unfold loc_columns. split.
  - intros [X HX] c Hc.
    destruct (column_positions (columns d) wanted) as [js|] eqn:E; [|done].
    apply column_positions_Ok in E.
    apply list_elem_of_lookup in Hc as [i Hi].
    destruct (Forall2_lookup_l _ _ _ _ _ E Hi) as (j & _ & Hj).
    apply column_position_Some in Hj. by eapply list_elem_of_lookup_2.
  - intros Hsub.
    assert (∃ js, column_positions (columns d) wanted = Ok js) as [js ->].
    { induction wanted as [|c wanted IH]; simpl; [by eexists|].
      destruct (column_position (columns d) c) as [j|] eqn:Ej.
      - destruct IH as [js ->]; [intros x Hx; apply Hsub; by right|]. by eexists.
      - apply column_position_None in Ej. destruct Ej. apply Hsub. by left. }
    by eexists.
Qed.

(** What [d.loc[:, wanted]] holds: the wanted columns, a row per row of [d]
    under the same label, and at each named column the entry [d] has there. *)
Lemma loc_columns_spec (d X : DataFrame) (wanted : list string) :
  loc_columns d wanted = Ok X →
  columns X = wanted
  ∧ length (rows X) = length (rows d)
  ∧ (∀ i, label_at X i = label_at d i)
  ∧ (∀ i c, c ∈ wanted → i < length (rows d) → at_ X i c = at_ d i c).
Proof.
  unfold loc_columns.
  destruct (column_positions (columns d) wanted) as [js|] eqn:E; [|done].
  simpl. intros [= <-]. simpl.
  apply column_positions_Ok in E.
  split; [done|]. split; [by rewrite length_map|]. split.
  - intros i. unfold label_at; simpl. rewrite list_lookup_fmap.
    by destruct (rows d !! i).
  - intros i c Hc Hi. unfold at_; simpl. rewrite list_lookup_fmap.
    destruct (rows d !! i) as [r|] eqn:Er; simpl; [|done].
    destruct (column_position wanted c) as [p|] eqn:Ep.
    2: { by apply column_position_None in Ep. }
    apply column_position_Some in Ep.
    destruct (Forall2_lookup_l _ _ _ _ _ E Ep) as (j & Hj & Hpos).
    rewrite Hpos. simpl. unfold entry at 1; simpl.
    by rewrite list_lookup_fmap, Hj.
Qed.

(** What [d.loc[:, c]] holds: the entry of each row at column [c], under
    the row's label. *)
Lemma loc_column_spec (d : DataFrame) (y : Series) (c : string) :
  loc_column d c = Ok y →
  name y = c
  ∧ length (items y) = length (rows d)
  ∧ (∀ i, fst <$> items y !! i = label_at d i)
  ∧ (∀ i, i < length (rows d) → snd <$> items y !! i = at_ d i c).
Proof.
  unfold loc_column.
  destruct (column_position (columns d) c) as [j|] eqn:E; [|done].
  intros [= <-]; simpl.
  split; [done|]. split; [by rewrite length_map|]. split.
  - intros i. unfold label_at. rewrite list_lookup_fmap. by destruct (rows d !! i).
  - intros i Hi. unfold at_. rewrite list_lookup_fmap, E.
    by destruct (rows d !! i).
Qed.

Lemma loc_column_is_Ok (d : DataFrame) (c : string) :
  (∃ y, loc_column d c = Ok y) ↔ c ∈ columns d.
Proof.
  unfold loc_column. destruct (column_position (columns d) c) as [j|] eqn:E.
  - split; [|by eexists]. intros _.
    apply column_position_Some in E. by eapply list_elem_of_lookup_2.
  - apply column_position_None in E. split; [by intros [? ?] | done].
Qed.

End PandasFacts.

(** ** Floating point: [ceil(0.3 * n)] is the ceiling of 3n/10 *)

Section FloatFacts.
Local Open Scope Z_scope.

(** [lit_0_3] has 53 significant bits and lies within half a unit in the
    last place (2^-55) of 3/10. *)
Lemma lit_0_3_is_nearest :
  2 ^ 52 ≤ Float64.mant Float64.lit_0_3 < 2 ^ 53
  ∧ Float64.expo Float64.lit_0_3 = -54
  ∧ 2 * Z.abs (10 * Float64.mant Float64.lit_0_3 - 3 * 2 ^ 54) ≤ 10.
Proof. cbv. repeat split; discriminate. Qed.

(** The rounding defined here and the Standard Library's IEEE 754
    multiplication give the same doubles on every row count up to 1000 and
    on counts around the powers of two up to 2^62. *)
Lemma float64_agrees_with_ieee754 :
  forallb Float64.agrees_with_ieee
    (map Z.of_nat (seq 0 1001)
     ++ flat_map (λ k, [2 ^ Z.of_nat k - 1; 2 ^ Z.of_nat k + 1; 3 * 2 ^ Z.of_nat k + 7])
                 (seq 0 63)) = true.
Proof. vm_compute. reflexivity. Qed.

Lemma round_even_bounds (p s : Z) :
  p / 2 ^ s ≤ Float64.round_even p s ≤ p / 2 ^ s + 1.
Proof.
  unfold Float64.round_even.
  repeat match goal with |- context [if ?b then _ else _] => destruct b end; lia.
Qed.

(** [- ((- m) / u)] is the least integer [c] with [m ≤ c * u]. *)
Lemma ceil_div_unique (m u c : Z) :
  0 < u → (c - 1) * u < m ≤ c * u → - ((- m) / u) = c.
Proof.
  intros Hu [H1 H2].
  assert ((- m) / u = - c); [|lia].
  symmetry. apply Z.div_unique with (r := c * u - m); lia.
Qed.

Lemma of_nat_exact (n : nat) :
  Z.of_nat n < 2 ^ 53 → Float64.of_nat n = Float64.mk (Z.of_nat n) 0.
Proof.
  intros Hn. unfold Float64.of_nat, Float64.round53, Float64.digits.
  destruct (Z.eqb_spec (Z.of_nat n) 0) as [->|Hne]; [reflexivity|].
  assert (Z.log2 (Z.of_nat n) < 53) by (apply Z.log2_lt_pow2; lia).
  destruct (Z.leb_spec (Z.log2 (Z.of_nat n) + 1 - 53) 0); [reflexivity | lia].
Qed.

(** Rounding the product to 53 bits never moves it across an integer:
    for fewer than 2^50 rows, [math.ceil(0.3 * n)] is exactly the ceiling
    of 3n/10. *)
Lemma ceil_mul_0_3 (n : nat) :
  Z.of_nat n < 2 ^ 50 →
  Float64.ceil (Float64.mul Float64.lit_0_3 (Float64.of_nat n)) = (3 * Z.of_nat n + 9) / 10.
Proof.
  intros Hn. rewrite of_nat_exact by lia.
  set (N := Z.of_nat n) in *. assert (0 ≤ N) by lia.
  destruct (Z.eq_dec N 0) as [->|]; [reflexivity|].
  destruct (Z.eq_dec N 1) as [->|]; [reflexivity|].
  unfold Float64.mul, Float64.lit_0_3; simpl Float64.mant; simpl Float64.expo.
  set (p := 5404319552844595 * N).
  set (c := (3 * N + 9) / 10).
  assert (Hc : 10 * c ≤ 3 * N + 9 < 10 * c + 10).
  { unfold c. pose proof (Z.div_mod (3 * N + 9) 10 ltac:(lia)).
    pose proof (Z.mod_pos_bound (3 * N + 9) 10 ltac:(lia)). lia. }
  assert (Hp53 : 2 ^ 53 ≤ p) by (unfold p; lia).
  assert (Hp103 : p < 2 ^ 103) by (unfold p; lia).
  assert (Hlo : 53 ≤ Z.log2 p) by (apply Z.log2_le_pow2; lia).
  assert (Hhi : Z.log2 p < 103) by (apply Z.log2_lt_pow2; lia).
  unfold Float64.round53, Float64.digits.
  destruct (Z.eqb_spec p 0); [lia|].
  set (s := Z.log2 p + 1 - 53).
  assert (Hs : 1 ≤ s ≤ 50) by (unfold s; lia).
  destruct (Z.leb_spec s 0); [lia|].
  unfold Float64.ceil; simpl Float64.mant; simpl Float64.expo.
  destruct (Z.leb_spec 0 (-54 + 0 + s)); [lia|].
  replace (- (-54 + 0 + s)) with (54 - s) by lia.
  set (T := 2 ^ s). set (U := 2 ^ (54 - s)).
  assert (HT : 0 < T) by (apply Z.pow_pos_nonneg; lia).
  assert (HU : 0 < U) by (apply Z.pow_pos_nonneg; lia).
  assert (HTU : T * U = 2 ^ 54).
  { unfold T, U. rewrite <- Z.pow_add_r by lia. f_equal. lia. }
  assert (HT50 : T ≤ 2 ^ 50) by (apply Z.pow_le_mono_r; lia).
  pose proof (round_even_bounds p s) as Hm. fold T in Hm.
  set (m := Float64.round_even p s) in *.
  pose proof (Z.div_mod p T ltac:(lia)) as Hq.
  pose proof (Z.mod_pos_bound p T HT) as Hr.
  set (q := p / T) in *. set (r := p mod T) in *.
  assert (Hupper : p < c * 2 ^ 54) by (unfold p; lia).
  assert (Hlower : (c - 1) * 2 ^ 54 + T ≤ p) by (unfold p; lia).
  apply ceil_div_unique; [done|].
  rewrite <- HTU in Hupper, Hlower.
  split.
  - assert (T * ((c - 1) * U + 1) < T * (q + 1)) by lia.
    assert ((c - 1) * U + 1 < q + 1) by (apply (Z.mul_lt_mono_pos_l T); assumption).
    lia.
  - assert (T * q < T * (c * U)) by lia.
    assert (q < c * U) by (apply (Z.mul_lt_mono_pos_l T); assumption).
    lia.
Qed.

End FloatFacts.

(** ** The split: positions, sizes, permutation *)

Section SplitFacts.
Import Pandas Sklearn.

Lemma take_positions_Ok {A} (l : list A) (idx : list nat) (res : list A) :
  take_positions l idx = Ok res ↔ Forall2 (λ i a, l !! i = Some a) idx res.
Proof.
  revert res. induction idx as [|i idx IH]; intros res; simpl.
  - split; [intros [= <-]; constructor | by intros ->%Forall2_nil_inv_l].
  - destruct (l !! i) as [a|] eqn:Ei.
    + destruct (take_positions l idx) as [res'|e] eqn:E; simpl.
      * split.
        -- intros [= <-]. constructor; [done | by apply IH].
        -- intros (a' & res'' & Ha & Hres & ->)%Forall2_cons_inv_l.
           apply IH in Hres. congruence.
      * split; [done|].
        intros (a' & res'' & Ha & Hres & ->)%Forall2_cons_inv_l.
        apply IH in Hres. congruence.
    + split; [done|].
      intros (a' & res'' & Ha & Hres & ->)%Forall2_cons_inv_l. congruence.
Qed.

Lemma take_positions_total {A} (l : list A) (idx : list nat) :
  Forall (λ i, i < length l) idx → ∃ res, take_positions l idx = Ok res.
Proof.
  induction 1 as [|i idx Hi _ [res IH]]; simpl; [by eexists|].
  destruct (lookup_lt_is_Some_2 l i Hi) as [a ->]. rewrite IH. by eexists.
Qed.

(** Taking the elements at permuted positions permutes the elements. *)
Lemma positions_permutation {A} (l : list A) (idx idx' : list nat) (res : list A) :
  idx ≡ₚ idx' →
  Forall2 (λ i a, l !! i = Some a) idx res →
  ∃ res', Forall2 (λ i a, l !! i = Some a) idx' res' ∧ res ≡ₚ res'.
Proof.
  intros Hp. revert res. induction Hp as [|i idx idx' _ IH|i j idx|idx1 idx2 idx3 _ IH1 _ IH2];
    intros res Hres.
  - apply Forall2_nil_inv_l in Hres as ->. exists []. by split.
  - apply Forall2_cons_inv_l in Hres as (a & res0 & Ha & Hres & ->).
    destruct (IH _ Hres) as (res' & H1 & H2).
    exists (a :: res'). split; [by constructor | by constructor].
  - apply Forall2_cons_inv_l in Hres as (a & res0 & Ha & Hres & ->).
    apply Forall2_cons_inv_l in Hres as (b & res1 & Hb & Hres & ->).
    exists (b :: a :: res1). split; [by repeat constructor | by constructor].
  - destruct (IH1 _ Hres) as (res2 & H1 & H2).
    destruct (IH2 _ H1) as (res3 & H3 & H4).
    exists res3. split; [done | by etrans].
Qed.

Lemma positions_all {A} (l res : list A) :
  Forall2 (λ i a, l !! i = Some a) (seq 0 (length l)) res → res = l.
Proof.
  intros H. apply list_eq. intros i.
  destruct (decide (i < length l)) as [Hi|Hi].
  - assert (Hs : seq 0 (length l) !! i = Some i) by (by apply lookup_seq_lt).
    destruct (Forall2_lookup_l _ _ _ _ _ H Hs) as (a & -> & Ha). by rewrite Ha.
  - rewrite (lookup_ge_None_2 l) by lia.
    apply lookup_ge_None_2. apply Forall2_length in H.
    rewrite length_seq in H. lia.
Qed.

Lemma positions_of_permutation {A} (l : list A) (idx : list nat) (res : list A) :
  idx ≡ₚ seq 0 (length l) →
  Forall2 (λ i a, l !! i = Some a) idx res →
  res ≡ₚ l.
Proof.
  intros Hp Hres.
  destruct (positions_permutation l _ _ _ Hp Hres) as (res' & H1 & H2).
  apply positions_all in H1. by subst.
Qed.

Lemma positions_zip {A B} (l : list A) (k : list B) (idx : list nat) (ra : list A) (rb : list B) :
  Forall2 (λ i a, l !! i = Some a) idx ra →
  Forall2 (λ i b, k !! i = Some b) idx rb →
  Forall2 (λ i p, zip l k !! i = Some p) idx (zip ra rb).
Proof.
  intros Ha. revert rb. induction Ha as [|i a idx ra Hi _ IH]; intros rb Hb.
  - apply Forall2_nil_inv_l in Hb as ->. constructor.
  - apply Forall2_cons_inv_l in Hb as (b & rb' & Hb & Hrb & ->). simpl.
    constructor; [|by apply IH].
    rewrite lookup_zip_with, Hi. simpl. by rewrite Hb.
Qed.

Lemma positions_app {A} (l : list A) (i1 i2 : list nat) (r1 r2 : list A) :
  Forall2 (λ i a, l !! i = Some a) i1 r1 →
  Forall2 (λ i a, l !! i = Some a) i2 r2 →
  Forall2 (λ i a, l !! i = Some a) (i1 ++ i2) (r1 ++ r2).
Proof. apply Forall2_app. Qed.

Local Open Scope Z_scope.

Lemma round53_nonneg (p e : Z) : 0 ≤ p → 0 ≤ Float64.mant (Float64.round53 p e).
Proof.
  intros Hp. unfold Float64.round53.
  destruct (_ <=? _); simpl; [done|].
  pose proof (round_even_bounds p (Float64.digits p - 53)).
  pose proof (Z.div_pos p (2 ^ (Float64.digits p - 53)) Hp).
  destruct (Z.le_gt_cases 0 (Float64.digits p - 53)).
  - assert (0 < 2 ^ (Float64.digits p - 53)) by (apply Z.pow_pos_nonneg; lia). lia.
  - rewrite Z.pow_neg_r in * by lia. rewrite Z.div_0_r in *. lia.
Qed.

Lemma ceil_nonneg (x : Float64.t) : 0 ≤ Float64.mant x → 0 ≤ Float64.ceil x.
Proof.
  intros Hm. unfold Float64.ceil. destruct (Z.leb_spec 0 (Float64.expo x)).
  - apply Z.mul_nonneg_nonneg; [done | apply Z.pow_nonneg; lia].
  - assert (0 < 2 ^ (- Float64.expo x)) by (apply Z.pow_pos_nonneg; lia).
    assert (- Float64.mant x / 2 ^ (- Float64.expo x) ≤ 0); [|lia].
    apply Z.div_le_upper_bound; lia.
Qed.

(** Whatever the fraction, the two sizes add up to the number of samples
    and the training part is not empty. *)
Lemma validate_shuffle_split_sizes (n : nat) (test_size : Float64.t) (n_train n_test : nat) :
  validate_shuffle_split n test_size = Ok (n_train, n_test) →
  (n_train + n_test = n)%nat ∧ (0 < n_train)%nat.
Proof.
  unfold validate_shuffle_split.
  destruct (Float64.le_zero test_size) eqn:E0; [done|].
  destruct (Float64.ge_one test_size); [done|]. simpl.
  set (c := Float64.ceil _).
  assert (0 ≤ c).
  { apply ceil_nonneg. apply round53_nonneg. apply Z.mul_nonneg_nonneg.
    - unfold Float64.le_zero in E0. lia.
    - apply round53_nonneg; lia. }
  destruct (Z.ltb_spec (Z.of_nat n) (Z.of_nat n - c + c)); [done|].
  destruct (Nat.eqb_spec (Z.to_nat (Z.of_nat n - c)) 0); [done|].
  intros [= <- <-]. lia.
Qed.

(** With [test_size = 0.3]: fewer than two samples are refused, otherwise
    the test part has ceil(3n/10) samples and the training part the rest. *)
Lemma validate_shuffle_split_0_3 (n : nat) :
  Z.of_nat n < 2 ^ 50 →
  validate_shuffle_split n Float64.lit_0_3 =
    if decide (n < 2)%nat then Raise (ValueError "the resulting train set will be empty")
    else Ok ((n - (3 * n + 9) / 10)%nat, ((3 * n + 9) / 10)%nat).
Proof.
  intros Hn. unfold validate_shuffle_split.
  change (Float64.le_zero Float64.lit_0_3 || Float64.ge_one Float64.lit_0_3) with false.
  cbv beta iota. rewrite ceil_mul_0_3 by done.
  assert (Hc : ((3 * Z.of_nat n + 9) / 10) = Z.of_nat ((3 * n + 9) / 10)).
  { rewrite Nat2Z.inj_div. f_equal. lia. }
  rewrite Hc. set (c := ((3 * n + 9) / 10)%nat).
  assert (Hcn : (10 * c ≤ 3 * n + 9 < 10 * c + 10)%nat).
  { unfold c. pose proof (Nat.div_mod (3 * n + 9) 10 ltac:(lia)).
    pose proof (Nat.mod_upper_bound (3 * n + 9) 10 ltac:(lia)). lia. }
  destruct (Z.ltb_spec (Z.of_nat n) (Z.of_nat n - Z.of_nat c + Z.of_nat c)); [lia|].
  destruct (Nat.eqb_spec (Z.to_nat (Z.of_nat n - Z.of_nat c)) 0) as [E|E];
    case_decide; try lia.
  - done.
  - do 2 f_equal; lia.
Qed.


Local Close Scope Z_scope.

(** What a successful call returns: both arrays indexed by the same two
    position lists, cut from one draw of the generator. *)
Lemma train_test_split_Ok (perm : nat → list nat) (X : DataFrame) (y : Series)
    (test_size : Float64.t) (Xtr Xte : DataFrame) (ytr yte : Series) :
  train_test_split perm X y test_size = Ok (Xtr, Xte, ytr, yte) →
  ∃ n_train n_test,
    length (items y) = length (rows X)
    ∧ validate_shuffle_split (length (rows X)) test_size = Ok (n_train, n_test)
    ∧ Forall2 (λ i r, rows X !! i = Some r)
        (take n_train (drop n_test (perm (length (rows X))))) (rows Xtr)
    ∧ Forall2 (λ i r, rows X !! i = Some r)
        (take n_test (perm (length (rows X)))) (rows Xte)
    ∧ Forall2 (λ i r, items y !! i = Some r)
        (take n_train (drop n_test (perm (length (rows X))))) (items ytr)
    ∧ Forall2 (λ i r, items y !! i = Some r)
        (take n_test (perm (length (rows X)))) (items yte)
    ∧ columns Xtr = columns X ∧ columns Xte = columns X
    ∧ name ytr = name y ∧ name yte = name y.
Proof.
  unfold train_test_split. case_decide as Hlen; [|done].
  unfold mbind, result_mbind, result_bind.
  destruct (validate_shuffle_split _ _) as [[n_train n_test]|] eqn:Ev; [|done].
  destruct (take_positions (rows X) (take n_train _)) as [a|] eqn:E1; [|done].
  destruct (take_positions (rows X) (take n_test _)) as [b|] eqn:E2; [|done].
  destruct (take_positions (items y) (take n_train _)) as [c|] eqn:E3; [|done].
  destruct (take_positions (items y) (take n_test _)) as [d|] eqn:E4; [|done].
  intros [= <- <- <- <-]. simpl.
  exists n_train, n_test.
  apply take_positions_Ok in E1, E2, E3, E4. by repeat split.
Qed.

(** The call returns whenever the arrays have one length, the sizes are
    accepted and the generator delivers a permutation. *)
Lemma train_test_split_total (perm : nat → list nat) (X : DataFrame) (y : Series)
    (test_size : Float64.t) (sizes : nat * nat) :
  length (items y) = length (rows X) →
  validate_shuffle_split (length (rows X)) test_size = Ok sizes →
  perm (length (rows X)) ≡ₚ seq 0 (length (rows X)) →
  ∃ parts, train_test_split perm X y test_size = Ok parts.
Proof.
  intros Hlen Hv Hp. unfold train_test_split. rewrite decide_True by done.
  rewrite Hv. destruct sizes as [n_train n_test].
  unfold mbind, result_mbind, result_bind.
  assert (Hin : Forall (λ i, i < length (rows X)) (perm (length (rows X)))).
  { apply Forall_forall. intros i Hi. rewrite Hp in Hi.
    apply list_elem_of_In, in_seq in Hi. lia. }
  assert (H1 : Forall (λ i, i < length (rows X))
                 (take n_train (drop n_test (perm (length (rows X)))))).
  { by apply Forall_take, Forall_drop. }
  assert (H2 : Forall (λ i, i < length (rows X)) (take n_test (perm (length (rows X))))).
  { by apply Forall_take. }
  destruct (take_positions_total _ _ H1) as [a ->].
  destruct (take_positions_total _ _ H2) as [b ->].
  assert (H3 : Forall (λ i, i < length (items y))
                 (take n_train (drop n_test (perm (length (rows X)))))).
  { by rewrite Hlen. }
  assert (H4 : Forall (λ i, i < length (items y)) (take n_test (perm (length (rows X))))).
  { by rewrite Hlen. }
  destruct (take_positions_total _ _ H3) as [c ->].
  destruct (take_positions_total _ _ H4) as [d ->].
  by eexists.
Qed.

(** The two parts partition the rows: the pairs (feature row, label) of
    the test part followed by those of the training part are a permutation
    of the pairs of the input, and each part keeps features and labels
    aligned. *)
Lemma train_test_split_partition (perm : nat → list nat) (X : DataFrame) (y : Series)
    (test_size : Float64.t) (Xtr Xte : DataFrame) (ytr yte : Series) :
  perm (length (rows X)) ≡ₚ seq 0 (length (rows X)) →
  train_test_split perm X y test_size = Ok (Xtr, Xte, ytr, yte) →
  zip (rows Xte) (items yte) ++ zip (rows Xtr) (items ytr) ≡ₚ zip (rows X) (items y)
  ∧ rows Xte ++ rows Xtr ≡ₚ rows X
  ∧ items yte ++ items ytr ≡ₚ items y
  ∧ length (rows Xtr) = length (items ytr)
  ∧ length (rows Xte) = length (items yte)
  ∧ length (rows Xtr) + length (rows Xte) = length (rows X)
  ∧ 0 < length (rows Xtr).
Proof.
  intros Hp (n_train & n_test & Hlen & Hv & H1 & H2 & H3 & H4 & _)%train_test_split_Ok.
  apply validate_shuffle_split_sizes in Hv as [Hsum Hpos].
  set (p := perm (length (rows X))) in *.
  assert (Hpl : length p = length (rows X)).
  { rewrite Hp. apply length_seq. }
  assert (Hcut : take n_test p ++ take n_train (drop n_test p) = p).
  { rewrite (take_ge (drop n_test p)); [apply take_drop|].
    rewrite length_drop. lia. }
  assert (Hidx : take n_test p ++ take n_train (drop n_test p) ≡ₚ seq 0 (length (rows X))).
  { by rewrite Hcut. }
  assert (L1 : length (rows Xtr) = n_train).
  { apply Forall2_length in H1. rewrite <- H1, length_take, length_drop. lia. }
  assert (L2 : length (rows Xte) = n_test).
  { apply Forall2_length in H2. rewrite <- H2, length_take. lia. }
  assert (L3 : length (items ytr) = n_train).
  { apply Forall2_length in H3. rewrite <- H3, length_take, length_drop. lia. }
  assert (L4 : length (items yte) = n_test).
  { apply Forall2_length in H4. rewrite <- H4, length_take. lia. }
  repeat split; try lia.
  - eapply (positions_of_permutation (zip (rows X) (items y))).
    + rewrite length_zip_with, Hlen, Nat.min_id. exact Hidx.
    + apply Forall2_app; by apply positions_zip.
  - eapply positions_of_permutation; [exact Hidx | by apply Forall2_app].
  - eapply positions_of_permutation; [by rewrite Hlen | by apply Forall2_app].
Qed.

End SplitFacts.

(** ** The metrics: what swapping the two arguments does *)

Section MetricFacts.
Import Pandas Sklearn.


(** [agreements] counts the positions at which the two sequences agree. *)
Lemma agreements_zip (a b : list cell) :
  agreements a b = length (filter (λ p, p.1 = p.2) (zip a b)).
Proof.
  revert b. induction a as [|x a IH]; intros [|y b]; simpl; try done.
  rewrite IH, filter_cons. simpl. by case_decide.
Qed.


Lemma true_positives_comm (c : cell) (a b : list cell) :
  true_positives c a b = true_positives c b a.
Proof.
  revert b. induction a as [|x a IH]; intros [|y b]; simpl; try done.
  rewrite IH. repeat case_decide; tauto.
Qed.

Lemma elem_of_unique_labels (a b : list cell) (c : cell) :
  c ∈ unique_labels a b ↔ c ∈ a ∨ c ∈ b.
Proof.
  unfold unique_labels. rewrite merge_sort_Permutation, elem_of_remove_dups, elem_of_app. done.
Qed.

Lemma NoDup_unique_labels (a b : list cell) : NoDup (unique_labels a b).
Proof.
  unfold unique_labels. rewrite merge_sort_Permutation. apply NoDup_remove_dups.
Qed.

Lemma unique_labels_swap (a b : list cell) : unique_labels a b ≡ₚ unique_labels b a.
Proof.
  apply NoDup_Permutation; try apply NoDup_unique_labels.
  intros c. rewrite !elem_of_unique_labels. tauto.
Qed.

(** Swapping the arguments exchanges predicted and true counts, hence
    precision and recall; the f1 value and the diagonal stay. *)
Lemma class_row_swap (a b : list cell) (c : cell) :
  precision (class_row b a c) = recall (class_row a b c)
  ∧ recall (class_row b a c) = precision (class_row a b c)
  ∧ f1_score (class_row b a c) = f1_score (class_row a b c)
  ∧ support (class_row b a c) = count c b.
Proof.
  unfold class_row; simpl. rewrite (true_positives_comm c b a).
  repeat split. f_equal. lia.
Qed.

Lemma find_row (f : cell → report_row) (l : list cell) (c : cell) :
  (λ found : nat * (cell * report_row), found.2.2)
    <$> list_find (λ p : cell * report_row, p.1 = c) (zip l (map f l))
  = if decide (c ∈ l) then Some (f c) else None.
Proof.
  induction l as [|x l IH].
  - case_decide as Hin; [by apply elem_of_nil in Hin | done].
  - cbn [map zip zip_with list_find]. destruct (decide (x = c)) as [->|Hne].
    + rewrite decide_True by done. cbn. by rewrite decide_True by left.
    + rewrite decide_False by done.
      rewrite <- option_fmap_compose.
      change ((λ found : nat * (cell * report_row), found.2.2) ∘ prod_map S id)
        with (λ found : nat * (cell * report_row), found.2.2).
      rewrite IH. destruct (decide (c ∈ l)) as [Hin|Hin].
      * rewrite decide_True; [done | by right].
      * rewrite decide_False; [done|]. intros [?|?]%elem_of_cons; congruence.
Qed.

(** The report has a row for exactly the labels that occur, and the row
    of a label is its [class_row]. *)
Lemma row_of_report (a b : list cell) (rep : Report) (c : cell) :
  classification_report a b = Ok rep →
  row_of rep c = if decide (c ∈ a ∨ c ∈ b) then Some (class_row a b c) else None.
Proof.
  unfold classification_report. case_decide; [|done]. intros [= <-].
  unfold row_of; simpl. rewrite find_row.
  repeat case_decide; try done; exfalso; rewrite elem_of_unique_labels in *; tauto.
Qed.

Lemma sum_nat_Permutation (l l' : list nat) : l ≡ₚ l' → sum_nat l = sum_nat l'.
Proof. induction 1; simpl; lia. Qed.

Lemma sum_Qc_Permutation (l l' : list Qc) : l ≡ₚ l' → sum_Qc l = sum_Qc l'.
Proof.
  induction 1 as [|x l l' _ IH|x y l|l1 l2 l3 _ IH1 _ IH2]; simpl.
  - done.
  - by rewrite IH.
  - rewrite !Qcplus_assoc. f_equal. apply Qcplus_comm.
  - by etrans.
Qed.

(** The accuracy line is the same in both argument orders. *)
Lemma report_accuracy_swap (a b : list cell) (ra rb : Report) :
  classification_report a b = Ok ra →
  classification_report b a = Ok rb →
  accuracy rb = accuracy ra.
Proof.
  unfold classification_report. repeat case_decide; try done.
  intros [= <-] [= <-]. simpl.
  pose proof (unique_labels_swap a b) as Hp.
  rewrite (map_ext (λ c, true_positives c b a) (λ c, true_positives c a b))
    by (intros; apply true_positives_comm).
  rewrite (sum_nat_Permutation
             (map (λ c, true_positives c a b) (unique_labels b a))
             (map (λ c, true_positives c a b) (unique_labels a b))).
  2: { by rewrite Hp. }
  rewrite (sum_nat_Permutation (map (λ c, count c b) (unique_labels b a))
                               (map (λ c, count c b) (unique_labels a b))).
  2: { by rewrite Hp. }
  rewrite (sum_nat_Permutation (map (λ c, count c a) (unique_labels b a))
                               (map (λ c, count c a) (unique_labels a b))).
  2: { by rewrite Hp. }
  f_equal. lia.
Qed.


Lemma sum_nat_add (f g : cell → nat) (l : list cell) :
  sum_nat (map (λ c, f c + g c) l) = sum_nat (map f l) + sum_nat (map g l).
Proof. induction l as [|x l IH]; simpl; lia. Qed.

Lemma sum_nat_zero (f : cell → nat) (l : list cell) :
  (∀ c, c ∈ l → f c = 0) → sum_nat (map f l) = 0.
Proof.
  induction l as [|x l IH]; intros H; simpl; [done|].
  rewrite H by left. rewrite IH; [done|]. intros c Hc. apply H. by right.
Qed.

(** Over a duplicate-free label list, exactly one label matches [x]. *)
Lemma sum_nat_indicator (P : cell → Prop) `{∀ c, Decision (P c)} (x : cell) (l : list cell) :
  NoDup l → (∀ c, P c → c = x) →
  sum_nat (map (λ c, if decide (P c) then 1 else 0) l) = if decide (x ∈ l ∧ P x) then 1 else 0.
Proof.
  intros Hnd HP. induction Hnd as [|c l Hc Hnd IH].
  - rewrite decide_False; [done|]. intros [?%elem_of_nil _]. done.
  - cbn [map sum_nat foldr]. fold (sum_nat (map (λ c, if decide (P c) then 1 else 0) l)).
    rewrite IH. destruct (decide (P c)) as [Hp|Hp].
    + pose proof (HP _ Hp) as ->.
      rewrite (decide_False (P := x ∈ l ∧ P x)) by tauto.
      rewrite decide_True; [done|]. split; [left | done].
    + destruct (decide (x ∈ l ∧ P x)) as [[Hin Hx]|Hn].
      * rewrite decide_True; [done|]. split; [by right | done].
      * rewrite decide_False; [done|]. intros [[->|?]%elem_of_cons ?]; tauto.
Qed.

Lemma sum_true_positives (l a b : list cell) :
  NoDup l → (∀ c, c ∈ a → c ∈ l) →
  sum_nat (map (λ c, true_positives c a b) l) = agreements a b.
Proof.
  intros Hnd. revert b. induction a as [|x a IH]; intros b Hin.
  - simpl. by apply sum_nat_zero.
  - destruct b as [|y b]; [by apply sum_nat_zero|]. simpl.
    rewrite sum_nat_add, IH by (intros; apply Hin; by right).
    rewrite (sum_nat_indicator (λ c, x = c ∧ y = c) x) by (done || by intros c [-> _]).
    f_equal. assert (x ∈ l) by (apply Hin; left).
    destruct (decide (x = y)) as [<-|Hne].
    + by rewrite decide_True.
    + rewrite decide_False; [done|]. intros (_ & _ & ?). congruence.
Qed.

Lemma sum_count (l a : list cell) :
  NoDup l → (∀ c, c ∈ a → c ∈ l) →
  sum_nat (map (λ c, count c a) l) = length a.
Proof.
  intros Hnd. induction a as [|x a IH]; intros Hin.
  - simpl. by apply sum_nat_zero.
  - simpl. rewrite <- IH by (intros; apply Hin; by right).
    rewrite (map_ext (λ c, count c (x :: a))
               (λ c, (if decide (x = c) then 1 else 0) + count c a)).
    2: { intros c. unfold count. simpl. destruct (cell_eq_dec x c); by case_decide. }
    rewrite sum_nat_add.
    rewrite (sum_nat_indicator (λ c, x = c) x) by done.
    rewrite decide_True; [done|]. split; [apply Hin; left | done].
Qed.

Lemma Qc_of_nat_add (a b : nat) : Qc_of_nat (a + b) = (Qc_of_nat a + Qc_of_nat b)%Qc.
Proof.
  unfold Qc_of_nat. apply Qc_is_canon. simpl.
  rewrite Nat2Z.inj_add, inject_Z_plus.
  rewrite !Qred_correct. reflexivity.
Qed.

Lemma Qc_of_nat_nonzero (n : nat) : n ≠ 0 → Qc_of_nat n ≠ 0%Qc.
Proof.
  intros Hn E. unfold Qc_of_nat in E.
  change 0%Qc with (Q2Qc 0) in E. apply Q2Qc_eq_iff in E.
  unfold Qeq in E. simpl in E. lia.
Qed.

Lemma quotient_double (a n : nat) : n ≠ 0 → quotient (2 * a) (n + n) = quotient a n.
Proof.
  intros Hn. unfold quotient.
  replace (2 * a) with (a + a) by lia. rewrite !Qc_of_nat_add.
  pose proof (Qc_of_nat_nonzero n Hn).
  field. split; [done|].
  intros E. apply H. 
  assert (E2 : ((1 + 1) * Qc_of_nat n = 0)%Qc) by (rewrite <- E; ring).
  apply Qcmult_integral in E2 as [E2|E2]; [discriminate | done].
Qed.

(** The accuracy line of the report is the accuracy score. *)
Lemma report_accuracy (a b : list cell) (rep : Report) :
  classification_report a b = Ok rep → a ≠ [] →
  accuracy_score a b = Ok (val (accuracy rep)).
Proof.
  unfold classification_report, accuracy_score.
  case_decide as Hlen; [|done]. intros [= <-] Ha. simpl.
  rewrite decide_False by (by destruct a).
  rewrite sum_true_positives, !sum_count;
    try apply NoDup_unique_labels;
    try (intros c Hc; apply elem_of_unique_labels; tauto).
  unfold prf_divide. rewrite <- Hlen.
  rewrite decide_False by (destruct a; simpl; [done | lia]).
  change (agreements a b + (agreements a b + 0)) with (2 * agreements a b).
  rewrite quotient_double by (by destruct a). done.
Qed.

End MetricFacts.

(** ** Provenance of the entries of [X] and [y] *)

Section Provenance.
Import Pandas.


Lemma loc_columns_rows (d X : DataFrame) (wanted : list string) :
  loc_columns d wanted = Ok X →
  Forall2 (λ r r', label r' = label r
                   ∧ Forall2 (entry_of (columns d) r) wanted (entries r'))
          (rows d) (rows X).
Proof.
  unfold loc_columns.
  destruct (column_positions (columns d) wanted) as [js|] eqn:E; [|done].
  intros [= <-]; simpl. apply column_positions_Ok in E.
  apply Forall2_fmap_r, Forall_Forall2_diag, Forall_forall. intros r _. simpl.
  split; [done|]. apply Forall2_fmap_r.
  eapply Forall2_impl; [exact E|]. intros c j Hj. by exists j.
Qed.

Lemma loc_column_items (d : DataFrame) (y : Series) (c : string) :
  loc_column d c = Ok y →
  Forall2 (λ r it, it.1 = label r ∧ entry_of (columns d) r c it.2) (rows d) (items y).
Proof.
  unfold loc_column.
  destruct (column_position (columns d) c) as [j|] eqn:E; [|done].
  intros [= <-]; simpl.
  apply Forall2_fmap_r, Forall_Forall2_diag, Forall_forall. intros r _. simpl.
  split; [done|]. by exists j.
Qed.

(** An entry read from a complete row is a value. *)
Lemma entry_of_complete (cols : list string) (r : Row) (c : string) (v : cell) :
  (∀ j, j < length cols → entry r j ≠ NaN) → entry_of cols r c v → v ≠ NaN.
Proof.
  intros Hr (j & Hj & ->). apply Hr. by eapply column_position_lt.
Qed.

(** After [dropna], no selected entry is missing. *)
Lemma loc_columns_dropna_no_NaN (d X : DataFrame) (wanted : list string) :
  loc_columns (dropna d) wanted = Ok X → ∀ r, r ∈ rows X → NaN ∉ entries r.
Proof.
  intros H%loc_columns_rows r' Hr'.
  apply list_elem_of_lookup in Hr' as [i Hi].
  destruct (Forall2_lookup_r _ _ _ _ _ H Hi) as (r & Hr & _ & Hent).
  apply list_elem_of_lookup_2, elem_of_dropna in Hr as [_ Hc].
  intros Hin. apply list_elem_of_lookup in Hin as [p Hp].
  destruct (Forall2_lookup_r _ _ _ _ _ Hent Hp) as (c & _ & Hv).
  by apply (entry_of_complete _ _ _ _ Hc Hv).
Qed.

Lemma loc_column_dropna_no_NaN (d : DataFrame) (y : Series) (c : string) :
  loc_column (dropna d) c = Ok y → ∀ it, it ∈ items y → it.2 ≠ NaN.
Proof.
  intros H%loc_column_items it Hit.
  apply list_elem_of_lookup in Hit as [i Hi].
  destruct (Forall2_lookup_r _ _ _ _ _ H Hi) as (r & Hr & _ & Hv).
  apply list_elem_of_lookup_2, elem_of_dropna in Hr as [_ Hc].
  by apply (entry_of_complete _ _ _ _ Hc Hv).
Qed.

End Provenance.

(** * The pipeline properties *)

Section Cleaning.
Import Pandas Sklearn Notebook Summary.

Lemma toy_runs : run_all Example.toy = ((run_all Example.toy).1, Ok tt).
Proof. vm_compute. reflexivity. Qed.

(** C1.  [data = data.dropna()] returns exactly the rows without a missing
    value: under the same columns, a row is in the result if and only if it
    is a row of the input with a value in every column; every such row is
    kept as it is, as often as it occurs, and the rows keep their relative
    order.  In a complete run the name [data] is rebound to the cleaned
    table, [X] and [y] are extracted from it, the four parts of the split
    are made of rows of [X] and [y], none of them holds a missing entry, and
    the tree is induced from the training part. *)
Theorem C1_dropna_returns_the_complete_rows :
  (∀ d : DataFrame,
      columns (dropna d) = columns d
      ∧ rows (dropna d) `sublist_of` rows d
      ∧ (∀ r, r ∈ rows (dropna d) ↔
              r ∈ rows d ∧ ∀ j, j < length (columns d) → entry r j ≠ NaN)
      ∧ (∀ r, (∀ j, j < length (columns d) → entry r j ≠ NaN) →
              count_occ Row_eq_dec (rows (dropna d)) r = count_occ Row_eq_dec (rows d) r))
  ∧ (∀ env k, run_all env = (k, Ok tt) →
      ∃ raw X y Xtr Xte ytr yte t,
        load_dataset env "penguins" = Ok raw
        ∧ Globals.data (names k) = Some (dropna raw)
        ∧ Globals.X (names k) = Some X ∧ loc_columns (dropna raw) features = Ok X
        ∧ Globals.y (names k) = Some y ∧ loc_column (dropna raw) "species" = Ok y
        ∧ Globals.X_train (names k) = Some Xtr ∧ Globals.X_test (names k) = Some Xte
        ∧ Globals.y_train (names k) = Some ytr ∧ Globals.y_test (names k) = Some yte
        ∧ rows Xte ++ rows Xtr ≡ₚ rows X
        ∧ items yte ++ items ytr ≡ₚ items y
        ∧ (∀ r, r ∈ rows Xtr ++ rows Xte → NaN ∉ entries r)
        ∧ (∀ it, it ∈ items ytr ++ items yte → it.2 ≠ NaN)
        ∧ induce env 1 (Some 2) Xtr ytr = Ok t
        ∧ In (Displayed (VLabels (take 10 (predictions t Xte)))) (outputs k)).
Proof.
  split.
  - intros d. split; [done|]. split; [apply filter_sublist|]. split; [apply elem_of_dropna|].
    intros r Hr. unfold dropna; simpl. rewrite filter_count.
    by apply complete_spec in Hr as ->.
  - intros env k (r & (H1 & H2 & H3 & H4 & H5 & _) & ->)%run_all_ok.
    exists (raw r), (X r), (y r), (X_train r), (X_test r), (y_train r), (y_test r), (tree r).
    destruct (train_test_split_partition _ _ _ _ _ _ _ _ (permutation_spec env 0 _) H4)
      as (_ & HX & Hy & _).
    repeat split; try done.
    + intros r' Hr'. apply (loc_columns_dropna_no_NaN _ _ _ H2).
      rewrite <- HX. apply elem_of_app. apply elem_of_app in Hr'. tauto.
    + intros it Hit. apply (loc_column_dropna_no_NaN _ _ _ H3).
      rewrite <- Hy. apply elem_of_app. apply elem_of_app in Hit. tauto.
    + simpl. tauto.
Qed.

Lemma C1_witness :
  ∃ raw X y Xtr Xte ytr yte t,
    load_dataset Example.toy "penguins" = Ok raw
    ∧ Globals.data (names (run_all Example.toy).1) = Some (dropna raw)
    ∧ Globals.X (names (run_all Example.toy).1) = Some X
    ∧ loc_columns (dropna raw) features = Ok X
    ∧ Globals.y (names (run_all Example.toy).1) = Some y
    ∧ loc_column (dropna raw) "species" = Ok y
    ∧ Globals.X_train (names (run_all Example.toy).1) = Some Xtr
    ∧ Globals.X_test (names (run_all Example.toy).1) = Some Xte
    ∧ Globals.y_train (names (run_all Example.toy).1) = Some ytr
    ∧ Globals.y_test (names (run_all Example.toy).1) = Some yte
    ∧ rows Xte ++ rows Xtr ≡ₚ rows X
    ∧ items yte ++ items ytr ≡ₚ items y
    ∧ (∀ r, r ∈ rows Xtr ++ rows Xte → NaN ∉ entries r)
    ∧ (∀ it, it ∈ items ytr ++ items yte → it.2 ≠ NaN)
    ∧ induce Example.toy 1 (Some 2) Xtr ytr = Ok t
    ∧ In (Displayed (VLabels (take 10 (predictions t Xte))))
         (outputs (run_all Example.toy).1).
Proof.
  destruct C1_dropna_returns_the_complete_rows as [_ H].
  exact (H Example.toy _ toy_runs).
Defined.

End Cleaning.

Section Splitting.
Import Pandas Sklearn Notebook Summary.

(** C2.  In a complete run the split of [(X, y)] is a partition.  There are
    two lists of row positions, [test] and [train], that together hold every
    position of [X] exactly once (so no position is in both); [X_test] and
    [y_test] are the rows of [X] and the labels of [y] at the positions
    [test], in that order, and [X_train] and [y_train] those at [train].
    Hence row [i] of each feature part and label [i] of the matching label
    part come from the same position, the pairs of the two parts are a
    permutation of the pairs of [(X, y)], and the parts carry the columns of
    [X] and the name of [y]. *)
Theorem C2_split_is_a_partition (env : Env) (k : Kernel) :
  run_all env = (k, Ok tt) →
  ∃ X y Xtr Xte ytr yte (train test : list nat),
    Globals.X (names k) = Some X ∧ Globals.y (names k) = Some y
    ∧ Globals.X_train (names k) = Some Xtr ∧ Globals.X_test (names k) = Some Xte
    ∧ Globals.y_train (names k) = Some ytr ∧ Globals.y_test (names k) = Some yte
    ∧ test ++ train ≡ₚ seq 0 (length (rows X))
    ∧ (∀ i, i ∈ test → i ∉ train)
    ∧ Forall2 (λ i r, rows X !! i = Some r) train (rows Xtr)
    ∧ Forall2 (λ i l, items y !! i = Some l) train (items ytr)
    ∧ Forall2 (λ i r, rows X !! i = Some r) test (rows Xte)
    ∧ Forall2 (λ i l, items y !! i = Some l) test (items yte)
    ∧ zip (rows Xte) (items yte) ++ zip (rows Xtr) (items ytr) ≡ₚ zip (rows X) (items y)
    ∧ rows Xte ++ rows Xtr ≡ₚ rows X
    ∧ items yte ++ items ytr ≡ₚ items y
    ∧ length (items y) = length (rows X)
    ∧ columns Xtr = columns X ∧ columns Xte = columns X
    ∧ name ytr = name y ∧ name yte = name y.
Proof.
  intros (r & (_ & _ & _ & H4 & _) & ->)%run_all_ok.
  pose proof (permutation_spec env 0 (length (rows (X r)))) as Hp.
  destruct (train_test_split_partition _ _ _ _ _ _ _ _ Hp H4) as (Hz & HX & Hy & _).
  destruct (train_test_split_Ok _ _ _ _ _ _ _ _ H4)
    as (n_train & n_test & Hlen & Hv & T1 & T2 & T3 & T4 & C1 & C2 & N1 & N2).
  apply validate_shuffle_split_sizes in Hv as [Hsum Hpos].
  set (p := permutation env 0 (length (rows (X r)))) in *.
  assert (Hpl : length p = length (rows (X r))) by (rewrite Hp; apply length_seq).
  assert (Hcut : take n_test p ++ take n_train (drop n_test p) = p).
  { rewrite (take_ge (drop n_test p)); [apply take_drop|]. rewrite length_drop. lia. }
  exists (X r), (y r), (X_train r), (X_test r), (y_train r), (y_test r),
    (take n_train (drop n_test p)), (take n_test p).
  repeat split; try done.
  - by rewrite Hcut.
  - assert (Hnd : NoDup (take n_test p ++ take n_train (drop n_test p))).
    { rewrite Hcut, Hp. apply NoDup_seq. }
    apply NoDup_app in Hnd as (_ & Hdis & _). exact Hdis.
Qed.

Lemma C2_witness :
  ∃ X y Xtr Xte ytr yte (train test : list nat),
    Globals.X (names (run_all Example.toy).1) = Some X
    ∧ Globals.y (names (run_all Example.toy).1) = Some y
    ∧ Globals.X_train (names (run_all Example.toy).1) = Some Xtr
    ∧ Globals.X_test (names (run_all Example.toy).1) = Some Xte
    ∧ Globals.y_train (names (run_all Example.toy).1) = Some ytr
    ∧ Globals.y_test (names (run_all Example.toy).1) = Some yte
    ∧ test ++ train ≡ₚ seq 0 (length (rows X))
    ∧ (∀ i, i ∈ test → i ∉ train)
    ∧ Forall2 (λ i r, rows X !! i = Some r) train (rows Xtr)
    ∧ Forall2 (λ i l, items y !! i = Some l) train (items ytr)
    ∧ Forall2 (λ i r, rows X !! i = Some r) test (rows Xte)
    ∧ Forall2 (λ i l, items y !! i = Some l) test (items yte)
    ∧ zip (rows Xte) (items yte) ++ zip (rows Xtr) (items ytr) ≡ₚ zip (rows X) (items y)
    ∧ rows Xte ++ rows Xtr ≡ₚ rows X
    ∧ items yte ++ items ytr ≡ₚ items y
    ∧ length (items y) = length (rows X)
    ∧ columns Xtr = columns X ∧ columns Xte = columns X
    ∧ name ytr = name y ∧ name yte = name y.
Proof. exact (C2_split_is_a_partition Example.toy _ toy_runs). Defined.

End Splitting.

Section Extraction.
Import Pandas Sklearn Notebook Summary.

Lemma first_four_cells (env : Env) (k : Kernel) :
  run_cells [cell_1; cell_2 env; cell_3; cell_4] fresh = (k, Ok tt) →
  ∃ raw X y,
    load_dataset env "penguins" = Ok raw
    ∧ loc_columns (dropna raw) features = Ok X
    ∧ loc_column (dropna raw) "species" = Ok y
    ∧ Globals.data (names k) = Some (dropna raw)
    ∧ Globals.X (names k) = Some X ∧ Globals.y (names k) = Some y.
Proof.
  nb_unfold. repeat (nb_step; try discriminate).
  intros [= <-]. simpl. eexists _, _, _. repeat split; eassumption.
Qed.

(** C3.  After the fourth code cell, and still at the end of a complete
    run, [X] has exactly the columns bill_length_mm, bill_depth_mm,
    flipper_length_mm and body_mass_g, [y] is the series named species, and
    both have one row per row of the cleaned table [data]: at every row
    position [X], [y] and [data] carry the same index label, [X] holds the
    entries [data] has there under the four columns, and [y] holds the entry
    [data] has there under species. *)
Theorem C3_X_and_y_are_columns_of_the_cleaned_table (env : Env) (k : Kernel) :
  run_cells [cell_1; cell_2 env; cell_3; cell_4] fresh = (k, Ok tt)
  ∨ run_all env = (k, Ok tt) →
  ∃ clean X y,
    Globals.data (names k) = Some clean
    ∧ Globals.X (names k) = Some X
    ∧ Globals.y (names k) = Some y
    ∧ columns X = ["bill_length_mm"; "bill_depth_mm"; "flipper_length_mm"; "body_mass_g"]
    ∧ name y = "species"
    ∧ length (rows X) = length (rows clean)
    ∧ length (items y) = length (rows X)
    ∧ ∀ i, i < length (rows clean) →
        label_at X i = label_at clean i
        ∧ fst <$> items y !! i = label_at clean i
        ∧ (∀ c, c ∈ columns X → at_ X i c = at_ clean i c)
        ∧ snd <$> items y !! i = at_ clean i "species".
Proof.
  intros H.
  assert (∃ raw X y,
    loc_columns (dropna raw) features = Ok X
    ∧ loc_column (dropna raw) "species" = Ok y
    ∧ Globals.data (names k) = Some (dropna raw)
    ∧ Globals.X (names k) = Some X ∧ Globals.y (names k) = Some y)
    as (raw & X & y & HX & Hy & E1 & E2 & E3).
  { destruct H as [H|H].
    - apply first_four_cells in H as (raw & X & y & _ & ? & ? & ? & ? & ?).
      by exists raw, X, y.
    - apply run_all_ok in H as (r & (_ & ? & ? & _) & ->).
      by exists (raw r), (Summary.X r), (Summary.y r). }
  exists (dropna raw), X, y.
  apply loc_columns_spec in HX as (C & L & Lab & At).
  apply loc_column_spec in Hy as (N & L' & Lab' & At').
  repeat split; try done; try congruence.
  - intros c Hc. apply At; [by rewrite <- C | done].
  - by apply At'.
Qed.

Lemma C3_witness :
  ∃ clean X y,
    Globals.data (names (run_all Example.toy).1) = Some clean
    ∧ Globals.X (names (run_all Example.toy).1) = Some X
    ∧ Globals.y (names (run_all Example.toy).1) = Some y
    ∧ columns X = ["bill_length_mm"; "bill_depth_mm"; "flipper_length_mm"; "body_mass_g"]
    ∧ name y = "species"
    ∧ length (rows X) = length (rows clean)
    ∧ length (items y) = length (rows X)
    ∧ ∀ i, i < length (rows clean) →
        label_at X i = label_at clean i
        ∧ fst <$> items y !! i = label_at clean i
        ∧ (∀ c, c ∈ columns X → at_ X i c = at_ clean i c)
        ∧ snd <$> items y !! i = at_ clean i "species".
Proof.
  exact (C3_X_and_y_are_columns_of_the_cleaned_table Example.toy _ (or_intror toy_runs)).
Defined.

End Extraction.

(** ** Every run, complete or not *)

Section AnyRun.
Import Pandas Sklearn Notebook Summary.

(** A run either completes, having made all calls with none raising, or
    stops at the one call that raised: that call is the last one made, its
    exception is the result of the run, and the calls made are an initial
    part of the calls of a complete run. *)
Lemma run_all_cases (env : Env) :
  match run_all env with
  | (k, Ok _) => raised k = [] ∧ calls k = all_calls
  | (k, Raise e) =>
      ∃ f, raised k = [(f, e)] ∧ last (calls k) = Some f
           ∧ all_calls = calls k ++ drop (length (calls k)) all_calls
           ∧ calls k ≠ all_calls
  end.
Proof.
  nb_unfold.
  repeat (nb_step;
          try (eexists; split; [reflexivity|]; split; [reflexivity|];
               split; [reflexivity | discriminate])).
  split; reflexivity.
Qed.

Lemma run_all_calls_prefix (env : Env) : calls (run_all env).1 `prefix_of` all_calls.
Proof.
  pose proof (run_all_cases env) as H.
  destruct (run_all env) as [k [[]|e]]; simpl.
  - destruct H as [_ ->]. done.
  - destruct H as (f & _ & _ & H & _). eexists. exact H.
Qed.

(** One cell on any kernel.  If the cell returns, no library call has
    raised.  If it raises, then either a library call has raised that
    exception, it is the last call made and nothing ran after it, or the
    exception is Python's [NameError] for a name the cell reads and no
    library call has raised. *)
Lemma cell_outcome (env : Env) (c : NB unit) (k k' : Kernel) (outcome : Result unit) :
  c ∈ cells env → c k = (k', outcome) →
  match outcome with
  | Ok _ => raised k' = raised k
  | Raise e =>
      (∃ f, raised k' = raised k ++ [(f, e)] ∧ last (calls k') = Some f)
      ∨ (∃ name, e = NameError name ∧ raised k' = raised k)
  end.
Proof.
  intros Hc. unfold cells in Hc.
  repeat (apply elem_of_cons in Hc as [->|Hc]); [..|by apply elem_of_nil in Hc].
  all: revert k' outcome; destruct k as [g im cs rs os dr]; destruct g.
  all: nb_unfold_cell; repeat nb_step_cell.
  all: intros k' outcome [= <- <-]; cbn [raised calls].
  all: try reflexivity.
  all: try (right; eexists; split; reflexivity).
  all: left; eexists; split; [reflexivity | apply last_snoc].
Qed.

End AnyRun.


Section Order.
Import Pandas Sklearn Notebook Summary Pipeline.

(** C4.  The stages run in one fixed order.  Whatever the environment, the
    stages a run goes through are an initial part of
    load, clean, split, fit, predict, score, score, plot, fit, predict,
    score, score (the last cell fits, predicts and scores once more after
    the plot).  In a complete run the seven stages are first entered in
    the order load, clean, split, fit, predict, score, plot, and each stage
    works on results of earlier ones: the loaded table is cleaned, the
    columns of the cleaned table are split, the tree is induced from the
    training part, the predictions are that tree's decisions on the test
    part, the score compares these predictions with the test labels, and the
    tree drawn is the one fitted before. *)
Theorem C4_stages_run_in_fixed_order (env : Env) :
  stages (calls (run_all env).1)
    `prefix_of` [Load; Clean; Split; Fit; Predict; Score; Score; Plot; Fit; Predict; Score; Score]
  ∧ ∀ k, run_all env = (k, Ok tt) →
      first_occurrences (stages (calls k)) = [Load; Clean; Split; Fit; Predict; Score; Plot]
      ∧ ∃ raw X y Xtr Xte ytr yte t acc,
          load_dataset env "penguins" = Ok raw
          ∧ Globals.data (names k) = Some (dropna raw)
          ∧ loc_columns (dropna raw) features = Ok X
          ∧ loc_column (dropna raw) "species" = Ok y
          ∧ train_test_split (permutation env 0) X y Float64.lit_0_3 = Ok (Xtr, Xte, ytr, yte)
          ∧ induce env 1 (Some 2) Xtr ytr = Ok t
          ∧ In (Displayed (VLabels (take 10 (predictions t Xte)))) (outputs k)
          ∧ accuracy_score (predictions t Xte) (values yte) = Ok acc
          ∧ In (Displayed (VScore acc)) (outputs k)
          ∧ In (Drawn (mkDrawing t the_axes features (unique (values y)))) (outputs k).
Proof.
  split.
  - destruct (run_all_calls_prefix env) as [rest Hrest].
    exists (stages rest).
    change [Load; Clean; Split; Fit; Predict; Score; Score; Plot; Fit; Predict; Score; Score]
      with (stages all_calls).
    rewrite Hrest. apply omap_app.
  - intros k (r & (H1 & H2 & H3 & H4 & H5 & H6 & _) & ->)%run_all_ok.
    split; [reflexivity|].
    exists (raw r), (X r), (y r), (X_train r), (X_test r), (y_train r), (y_test r),
      (tree r), (shown_accuracy r).
    repeat split; try done; simpl; tauto.
Qed.

Lemma C4_witness :
  first_occurrences (stages (calls (run_all Example.toy).1))
    = [Load; Clean; Split; Fit; Predict; Score; Plot]
  ∧ ∃ raw X y Xtr Xte ytr yte t acc,
      load_dataset Example.toy "penguins" = Ok raw
      ∧ Globals.data (names (run_all Example.toy).1) = Some (dropna raw)
      ∧ loc_columns (dropna raw) features = Ok X
      ∧ loc_column (dropna raw) "species" = Ok y
      ∧ train_test_split (permutation Example.toy 0) X y Float64.lit_0_3
        = Ok (Xtr, Xte, ytr, yte)
      ∧ induce Example.toy 1 (Some 2) Xtr ytr = Ok t
      ∧ In (Displayed (VLabels (take 10 (predictions t Xte))))
           (outputs (run_all Example.toy).1)
      ∧ accuracy_score (predictions t Xte) (values yte) = Ok acc
      ∧ In (Displayed (VScore acc)) (outputs (run_all Example.toy).1)
      ∧ In (Drawn (mkDrawing t the_axes features (unique (values y))))
           (outputs (run_all Example.toy).1).
Proof.
  destruct (C4_stages_run_in_fixed_order Example.toy) as [_ H].
  exact (H _ toy_runs).
Defined.

End Order.

Section Sizes.
Import Pandas Sklearn Notebook Summary.


(** C5, as stated, fails for a table with one row: the call does not
    allocate one row to the test part and none to the training part, it
    raises [ValueError], and so does the run of the notebook on such a
    table. *)
Lemma C5_counterexample :
  (run_all Example.lonely).2 = Raise (ValueError "the resulting train set will be empty")
  ∧ raised (run_all Example.lonely).1
    = [(sk_train_test_split, ValueError "the resulting train set will be empty")]
  ∧ ¬ (∀ (X : DataFrame) (y : Series),
         length (items y) = length (rows X) →
         ∃ Xtr Xte ytr yte,
           train_test_split (permutation Example.lonely 0) X y Float64.lit_0_3 = Ok (Xtr, Xte, ytr, yte)
           ∧ length (rows Xte) = (3 * length (rows X) + 9) / 10
           ∧ length (rows Xtr) = length (rows X) - (3 * length (rows X) + 9) / 10).
Proof.
  split; [vm_compute; reflexivity|]. split; [vm_compute; reflexivity|].
  intros H.
  destruct (H (mkDataFrame features [mkRow 0 [Example.num 39; Example.num 18;
                                               Example.num 181; Example.num 3750]])
              (mkSeries "species" [(0, Str "Adelie")]) eq_refl)
    as (Xtr & Xte & ytr & yte & Hsplit & _).
  vm_compute in Hsplit. discriminate.
Qed.

(** C5, amended.  For [n] rows, [n] below 2^50, and labels of the same
    length: with fewer than two rows [train_test_split(X, y, test_size=0.3)]
    raises [ValueError]; with two rows or more it returns, the test part has
    ceil(3n/10) rows (the least [t] with [3n ≤ 10t]) and the training part
    the other [n - t], in the features and in the labels alike.  In a
    complete run the parts bound to [X_train], [X_test], [y_train] and
    [y_test] have these sizes.  The fraction is the 0.3 the cell passes, not
    the default 0.25: of 20 rows, 6 are held out, where the default would
    hold out 5. *)
Theorem C5_test_part_is_three_tenths_rounded_up (env : Env) :
  (∀ (draw : nat) (X : DataFrame) (y : Series),
     length (items y) = length (rows X) →
     (Z.of_nat (length (rows X)) < 2 ^ 50)%Z →
     (length (rows X) < 2 →
        train_test_split (permutation env draw) X y Float64.lit_0_3
        = Raise (ValueError "the resulting train set will be empty"))
     ∧ (2 ≤ length (rows X) →
        ∃ Xtr Xte ytr yte,
          train_test_split (permutation env draw) X y Float64.lit_0_3 = Ok (Xtr, Xte, ytr, yte)
          ∧ length (rows Xte) = (3 * length (rows X) + 9) / 10
          ∧ 3 * length (rows X) ≤ 10 * length (rows Xte) < 3 * length (rows X) + 10
          ∧ length (rows Xtr) = length (rows X) - length (rows Xte)
          ∧ length (items yte) = length (rows Xte)
          ∧ length (items ytr) = length (rows Xtr)))
  ∧ (∀ k, run_all env = (k, Ok tt) →
     ∃ X Xtr Xte ytr yte,
       Globals.X (names k) = Some X
       ∧ Globals.X_train (names k) = Some Xtr ∧ Globals.X_test (names k) = Some Xte
       ∧ Globals.y_train (names k) = Some ytr ∧ Globals.y_test (names k) = Some yte
       ∧ ((Z.of_nat (length (rows X)) < 2 ^ 50)%Z →
          2 ≤ length (rows X)
          ∧ length (rows Xte) = (3 * length (rows X) + 9) / 10
          ∧ 3 * length (rows X) ≤ 10 * length (rows Xte) < 3 * length (rows X) + 10
          ∧ length (rows Xtr) = length (rows X) - length (rows Xte)
          ∧ length (items yte) = length (rows Xte)
          ∧ length (items ytr) = length (rows Xtr)))
  ∧ (validate_shuffle_split 20 Float64.lit_0_3 = Ok (14, 6)
     ∧ validate_shuffle_split 20 Float64.lit_0_25 = Ok (15, 5)).
Proof.
  assert (Hsizes : ∀ draw X y Xtr Xte ytr yte,
    (Z.of_nat (length (rows X)) < 2 ^ 50)%Z →
    train_test_split (permutation env draw) X y Float64.lit_0_3 = Ok (Xtr, Xte, ytr, yte) →
    2 ≤ length (rows X)
    ∧ length (rows Xte) = (3 * length (rows X) + 9) / 10
    ∧ 3 * length (rows X) ≤ 10 * length (rows Xte) < 3 * length (rows X) + 10
    ∧ length (rows Xtr) = length (rows X) - length (rows Xte)
    ∧ length (items yte) = length (rows Xte)
    ∧ length (items ytr) = length (rows Xtr)).
  { intros draw X y Xtr Xte ytr yte Hn Hs.
    pose proof (permutation_spec env draw (length (rows X))) as Hp.
    destruct (train_test_split_partition _ _ _ _ _ _ _ _ Hp Hs)
      as (_ & _ & _ & L1 & L2 & L3 & _).
    apply train_test_split_Ok in Hs as (n_train & n_test & _ & Hv & _ & T2 & _).
    rewrite validate_shuffle_split_0_3 in Hv by done.
    case_decide as Hlt; [done|].
    set (n := length (rows X)) in *.
    assert (Hc : 10 * ((3 * n + 9) / 10) ≤ 3 * n + 9 < 10 * ((3 * n + 9) / 10) + 10).
    { pose proof (Nat.div_mod (3 * n + 9) 10 ltac:(lia)).
      pose proof (Nat.mod_upper_bound (3 * n + 9) 10 ltac:(lia)). lia. }
    set (c := (3 * n + 9) / 10) in *.
    injection Hv as <- <-.
    apply Forall2_length in T2. rewrite length_take in T2.
    assert (length (permutation env draw n) = n) by (rewrite Hp; apply length_seq).
    lia. }
  split.
  - intros draw X y Hlen Hn. split.
    + intros Hlt. unfold train_test_split. rewrite decide_True by done.
      rewrite validate_shuffle_split_0_3 by done. by rewrite decide_True by done.
    + intros Hge.
      destruct (train_test_split_total (permutation env draw) X y Float64.lit_0_3
                  ((length (rows X) - (3 * length (rows X) + 9) / 10),
                   ((3 * length (rows X) + 9) / 10)) Hlen)
        as [[[[Xtr Xte] ytr] yte] Hs].
      * rewrite validate_shuffle_split_0_3 by done. rewrite decide_False by lia. done.
      * apply permutation_spec.
      * exists Xtr, Xte, ytr, yte. split; [done|].
        by destruct (Hsizes _ _ _ _ _ _ _ Hn Hs) as (_ & ? & ? & ? & ? & ?).
  - split; [|split; vm_compute; reflexivity].
    intros k (r & (_ & _ & _ & H4 & _) & ->)%run_all_ok.
    exists (X r), (X_train r), (X_test r), (y_train r), (y_test r).
    do 5 (split; [done|]). intros Hn. by apply (Hsizes _ _ _ _ _ _ _ Hn H4).
Qed.

Lemma C5_witness :
  ∃ X Xtr Xte ytr yte,
    Globals.X (names (run_all Example.toy).1) = Some X
    ∧ Globals.X_train (names (run_all Example.toy).1) = Some Xtr
    ∧ Globals.X_test (names (run_all Example.toy).1) = Some Xte
    ∧ Globals.y_train (names (run_all Example.toy).1) = Some ytr
    ∧ Globals.y_test (names (run_all Example.toy).1) = Some yte
    ∧ ((Z.of_nat (length (rows X)) < 2 ^ 50)%Z →
       2 ≤ length (rows X)
       ∧ length (rows Xte) = (3 * length (rows X) + 9) / 10
       ∧ 3 * length (rows X) ≤ 10 * length (rows Xte) < 3 * length (rows X) + 10
       ∧ length (rows Xtr) = length (rows X) - length (rows Xte)
       ∧ length (items yte) = length (rows Xte)
       ∧ length (items ytr) = length (rows Xtr)).
Proof.
  destruct (C5_test_part_is_three_tenths_rounded_up Example.toy) as (_ & H & _).
  exact (H _ toy_runs).
Defined.

End Sizes.

Section Errors.
Import Pandas Sklearn Notebook Summary.


(** C6.  The notebook handles no exception and conditions the data only by
    dropping incomplete rows.  Every run either completes with no library
    call having raised, or ends with the exception of a library call: exactly
    one call raised, it is the last call made (nothing is retried, nothing
    runs after it), and its exception is the outcome of the run; the
    notebook raises nothing of its own.  The same holds of every cell, run
    on any kernel: a cell that returns has seen no library exception, and a
    cell that raises has either passed on the exception of the last library
    call it made or found a name unbound.  Each kind of call does end some
    run this way: loading, selecting the columns, splitting, fitting,
    predicting, scoring and plotting.  In a complete run the rows of [X]
    and the labels of [y] are, one for one and in order, the complete rows
    of the loaded table, each entry being the loaded entry under its column
    and label. *)
Theorem C6_library_errors_end_the_run :
  (∀ env k outcome, run_all env = (k, outcome) →
     match outcome with
     | Ok _ => raised k = []
     | Raise e => ∃ f, raised k = [(f, e)] ∧ last (calls k) = Some f
     end)
  ∧ (∀ env c k k' outcome, c ∈ cells env → c k = (k', outcome) →
       match outcome with
       | Ok _ => raised k' = raised k
       | Raise e =>
           (∃ f, raised k' = raised k ++ [(f, e)] ∧ last (calls k') = Some f)
           ∨ (∃ name, e = NameError name ∧ raised k' = raised k)
       end)
  ∧ Forall (λ f, ∃ env k e, run_all env = (k, Raise e)
                            ∧ raised k = [(f, e)] ∧ last (calls k) = Some f)
           [sns_load_dataset; DataFrame_loc; sk_train_test_split; estimator_fit;
            estimator_predict; sk_accuracy_score; sk_plot_tree]
  ∧ ∀ env k, run_all env = (k, Ok tt) →
      ∃ raw X y,
        load_dataset env "penguins" = Ok raw
        ∧ Globals.X (names k) = Some X
        ∧ Globals.y (names k) = Some y
        ∧ Forall2 (λ r r', label r' = label r
                           ∧ Forall2 (entry_of (columns raw) r) features (entries r'))
                  (rows (dropna raw)) (rows X)
        ∧ Forall2 (λ r it, it.1 = label r ∧ entry_of (columns raw) r "species" it.2)
                  (rows (dropna raw)) (items y).
Proof.
  split; [|split; [|split]].
  - intros env k outcome E. pose proof (run_all_cases env) as H. rewrite E in H.
    destruct outcome as [[]|e].
    + tauto.
    + destruct H as (f & ? & ? & _). by exists f.
  - intros env c k k' outcome. apply cell_outcome.
  - repeat apply Forall_cons_2; [| | | | | | |constructor].
    + exists Example.offline. eexists _, _. by vm_compute.
    + exists Example.headless. eexists _, _. by vm_compute.
    + exists Example.lonely. eexists _, _. by vm_compute.
    + exists Example.untrainable. eexists _, _. by vm_compute.
    + exists Example.mistyped. eexists _, _. by vm_compute.
    + exists Example.graded. eexists _, _. by vm_compute.
    + exists Example.numbered. eexists _, _. by vm_compute.
  - intros env k (r & (H1 & H2 & H3 & _) & ->)%run_all_ok.
    exists (raw r), (X r), (y r).
    repeat split; try done.
    + by apply loc_columns_rows in H2.
    + by apply loc_column_items in H3.
Qed.

Lemma headless_stops :
  run_all Example.headless = ((run_all Example.headless).1, Raise (KeyError "bill_depth_mm")).
Proof. vm_compute. reflexivity. Qed.

Lemma C6_witness :
  (∃ f, raised (run_all Example.headless).1 = [(f, KeyError "bill_depth_mm")]
        ∧ last (calls (run_all Example.headless).1) = Some f)
  ∧ (let k := (run_cells [cell_1; cell_2 Example.toy; cell_3; cell_4; cell_5; cell_6;
                          cell_7 Example.toy; cell_8; cell_9; cell_10; cell_11] fresh).1 in
     (∃ f, raised (cell_13 k).1 = raised k ++ [(f, NotFittedError)]
           ∧ last (calls (cell_13 k).1) = Some f)
     ∨ (∃ name, NotFittedError = NameError name ∧ raised (cell_13 k).1 = raised k))
  ∧ ∃ raw X y,
      load_dataset Example.toy "penguins" = Ok raw
      ∧ Globals.X (names (run_all Example.toy).1) = Some X
      ∧ Globals.y (names (run_all Example.toy).1) = Some y
      ∧ Forall2 (λ r r', label r' = label r
                         ∧ Forall2 (entry_of (columns raw) r) features (entries r'))
                (rows (dropna raw)) (rows X)
      ∧ Forall2 (λ r it, it.1 = label r ∧ entry_of (columns raw) r "species" it.2)
                (rows (dropna raw)) (items y).
Proof.
  destruct C6_library_errors_end_the_run as (Hraise & Hcell & _ & Hok).
  split; [exact (Hraise _ _ _ headless_stops)|]. split; [|exact (Hok _ _ toy_runs)].
  intros k.
  apply (Hcell Example.toy cell_13 k (cell_13 k).1 (Raise NotFittedError)).
  - unfold cells. do 12 apply list_elem_of_further. apply list_elem_of_here.
  - vm_compute. reflexivity.
Defined.

(** A failed download, a missing column and a failing [fit] each end the
    run with the library's exception, at the call that raised it. *)
Example load_error_propagates :
  run_all Example.offline
  = (mkKernel Globals.empty ["seaborn"; "matplotlib.pyplot"] [sns_load_dataset]
       [(sns_load_dataset, LibraryError 404)] [] 0,
     Raise (LibraryError 404)).
Proof. vm_compute. reflexivity. Qed.

Example key_error_propagates :
  (run_all Example.headless).2 = Raise (KeyError "bill_depth_mm")
  ∧ raised (run_all Example.headless).1 = [(DataFrame_loc, KeyError "bill_depth_mm")]
  ∧ calls (run_all Example.headless).1
    = [sns_load_dataset; DataFrame_head; DataFrame_dropna; DataFrame_loc].
Proof. repeat split; vm_compute; reflexivity. Qed.

Example fit_error_propagates :
  (run_all Example.untrainable).2 = Raise (ValueError "could not convert string to float")
  ∧ last (calls (run_all Example.untrainable).1) = Some estimator_fit
  ∧ Globals.y_pred (names (run_all Example.untrainable).1) = None.
Proof. repeat split; vm_compute; reflexivity. Qed.

(** So do text among the test features, a species code that is not a whole
    number, and species that are numbers: the run ends in the prediction
    cell, at [accuracy_score] and at [plot_tree]. *)
Example predict_error_propagates :
  (run_all Example.mistyped).2 = Raise (ValueError "could not convert string to float")
  ∧ raised (run_all Example.mistyped).1
    = [(estimator_predict, ValueError "could not convert string to float")]
  ∧ last (calls (run_all Example.mistyped).1) = Some estimator_predict
  ∧ Globals.y_pred (names (run_all Example.mistyped).1) = None.
Proof. repeat split; vm_compute; reflexivity. Qed.

Example score_error_propagates :
  (run_all Example.graded).2 = Raise (ValueError "continuous is not supported")
  ∧ raised (run_all Example.graded).1
    = [(sk_accuracy_score, ValueError "continuous is not supported")]
  ∧ last (calls (run_all Example.graded).1) = Some sk_accuracy_score
  ∧ Globals.report (names (run_all Example.graded).1) = None.
Proof. repeat split; vm_compute; reflexivity. Qed.

Example plot_error_propagates :
  (run_all Example.numbered).2 = Raise (TypeError "can only concatenate str to str")
  ∧ raised (run_all Example.numbered).1
    = [(sk_plot_tree, TypeError "can only concatenate str to str")]
  ∧ last (calls (run_all Example.numbered).1) = Some sk_plot_tree
  ∧ Globals.fig (names (run_all Example.numbered).1) = Some (Matplotlib.mkFigure (14, 10)).
Proof. repeat split; vm_compute; reflexivity. Qed.

End Errors.


Section ExternalInterfaces.
Import Pandas Sklearn Notebook Summary Interfaces.

Lemma toy_calls : calls (run_all Example.toy).1 = all_calls.
Proof. vm_compute. reflexivity. Qed.

Lemma toy_imports : imported (run_all Example.toy).1 = all_imports.
Proof. vm_compute. reflexivity. Qed.

(** C7, as stated, fails on any complete run: the notebook also calls
    matplotlib ([plt.subplots]), pandas accessors such as [dropna], and
    writes to the output area with [print]. *)
Lemma C7_counterexample :
  ¬ Forall named_interface (calls (run_all Example.toy).1)
  ∧ plt_subplots ∈ calls (run_all Example.toy).1
  ∧ ¬ named_interface plt_subplots
  ∧ DataFrame_dropna ∈ calls (run_all Example.toy).1
  ∧ ¬ named_interface DataFrame_dropna
  ∧ builtin_print ∈ calls (run_all Example.toy).1
  ∧ ¬ named_interface builtin_print
  ∧ In "matplotlib.pyplot" (imported (run_all Example.toy).1).
Proof.
  rewrite toy_calls, toy_imports.
  assert (N1 : ¬ named_interface plt_subplots) by (apply (bool_decide_eq_false_1 _); reflexivity).
  assert (N2 : ¬ named_interface DataFrame_dropna) by (apply (bool_decide_eq_false_1 _); reflexivity).
  assert (N3 : ¬ named_interface builtin_print) by (apply (bool_decide_eq_false_1 _); reflexivity).
  assert (I1 : plt_subplots ∈ all_calls) by (apply (bool_decide_eq_true_1 _); reflexivity).
  assert (I2 : DataFrame_dropna ∈ all_calls) by (apply (bool_decide_eq_true_1 _); reflexivity).
  assert (I3 : builtin_print ∈ all_calls) by (apply (bool_decide_eq_true_1 _); reflexivity).
  repeat split; try done.
  - intros H. rewrite Forall_forall in H. by apply N1, H.
  - right. left. reflexivity.
Qed.

(** C7, amended.  In every run the library calls are an initial part of
    one fixed sequence and the imports an initial part of one fixed list;
    the first call, and the only call into seaborn, is the dataset loader;
    matplotlib is called at most once; and every call outside the dataset
    loader and scikit-learn is a pandas accessor, a slice of the prediction
    array, [plt.subplots], [print] or [help].  A complete run makes all
    these calls, and what it writes is the output area [final_outputs]:
    values displayed, lines printed, one help text and one drawing. *)
Theorem C7_interfaces_of_the_notebook (env : Env) :
  (∀ k outcome, run_all env = (k, outcome) →
     calls k `prefix_of` all_calls
     ∧ imported k `prefix_of` all_imports
     ∧ head (calls k) = Some sns_load_dataset
     ∧ length (filter (λ f, library_of f = seaborn) (calls k)) = 1
     ∧ length (filter (λ f, library_of f = matplotlib) (calls k)) ≤ 1
     ∧ (∀ f, f ∈ calls k → ¬ named_interface f →
             f ∈ [DataFrame_head; DataFrame_dropna; DataFrame_loc; DataFrame_shape;
                  Series_head; Series_shape; Series_values; Series_getitem; Series_unique;
                  ndarray_getitem; plt_subplots; builtin_print; builtin_help]))
  ∧ ∀ k, run_all env = (k, Ok tt) →
      calls k = all_calls ∧ imported k = all_imports
      ∧ ∃ r, explains env r ∧ outputs k = final_outputs r.
Proof.
  split.
  - intros k outcome E.
    assert (Hany : calls (run_all env).1 `prefix_of` all_calls
                   ∧ imported (run_all env).1 `prefix_of` all_imports
                   ∧ head (calls (run_all env).1) = Some sns_load_dataset).
    { clear E. nb_unfold.
      repeat (nb_step; try (simpl; split; [by eexists|]; split; [by eexists|]; reflexivity)). }
    rewrite E in Hany. simpl in Hany. destruct Hany as (Hc & Hi & Hh).
    split; [done|]. split; [done|]. split; [done|].
    destruct Hc as [rest Hrest].
    assert (Hcount : ∀ (lib : library),
      length (filter (λ f, library_of f = lib) (calls k))
      ≤ length (filter (λ f, library_of f = lib) all_calls)).
    { intros lib. rewrite Hrest, filter_app, length_app. lia. }
    split; [|split].
    + apply Nat.le_antisymm; [apply (Hcount seaborn)|].
      destruct (calls k) as [|f l]; [done|].
      injection Hh as ->. rewrite filter_cons_True by done. simpl. lia.
    + apply (Hcount matplotlib).
    + intros f _ Hf.
      destruct f;
        try (exfalso; apply Hf; apply (bool_decide_eq_true_1 _); reflexivity);
        apply (bool_decide_eq_true_1 _); reflexivity.
  - intros k (r & Hr & ->)%run_all_ok. split; [done|]. split; [done|]. by exists r.
Qed.

Lemma C7_witness :
  calls (run_all Example.toy).1 = all_calls
  ∧ imported (run_all Example.toy).1 = all_imports
  ∧ ∃ r, explains Example.toy r ∧ outputs (run_all Example.toy).1 = final_outputs r.
Proof.
  destruct (C7_interfaces_of_the_notebook Example.toy) as [_ H].
  exact (H _ toy_runs).
Defined.

End ExternalInterfaces.

Section Evaluation.
Import Pandas Sklearn Notebook Summary.

Lemma classification_report_swap (a b : list cell) (ra : Report) :
  classification_report a b = Ok ra →
  ∃ rb, classification_report b a = Ok rb
        ∧ accuracy rb = accuracy ra
        ∧ ∀ c, match row_of ra c, row_of rb c with
               | Some x, Some x' =>
                   precision x' = recall x ∧ recall x' = precision x
                   ∧ f1_score x' = f1_score x
               | None, None => True
               | _, _ => False
               end.
Proof.
  intros Ha.
  assert (Hlen : length b = length a).
  { unfold classification_report in Ha. by case_decide. }
  destruct (classification_report b a) as [rb|] eqn:Hb.
  2: { unfold classification_report in Hb. by rewrite decide_True in Hb. }
  exists rb. split; [done|]. split; [by eapply report_accuracy_swap|].
  intros c. rewrite (row_of_report _ _ _ c Ha), (row_of_report _ _ _ c Hb).
  destruct (decide (c ∈ a ∨ c ∈ b)) as [Hc|Hc].
  - rewrite decide_True by tauto.
    by destruct (class_row_swap a b c) as (? & ? & ? & _).
  - by rewrite decide_False by tauto.
Qed.

(** C8.  The two evaluation cells pass the arguments in opposite orders: the
    report printed for the decision tree is
    [classification_report(y_pred, y_test)], the one printed by the last cell
    is [classification_report(y_test, y_pred)].  Swapping the two arguments
    of [classification_report] keeps the classes listed, exchanges precision
    and recall in the row of every class, and leaves every f1 value and the
    accuracy line as they are.  The two orders do differ: there are label
    sequences for which a class gets another precision once the arguments
    are swapped. *)
Theorem C8_reports_use_opposite_argument_orders :
  (∀ env k, run_all env = (k, Ok tt) →
     ∃ Xte yte t t' rep rep',
       Globals.X_test (names k) = Some Xte
       ∧ Globals.y_test (names k) = Some yte
       ∧ In (Displayed (VLabels (take 10 (predictions t Xte)))) (outputs k)
       ∧ classification_report (predictions t Xte) (values yte) = Ok rep
       ∧ In (Printed "" (VReport rep)) (outputs k)
       ∧ Globals.y_pred (names k) = Some (predictions t' Xte)
       ∧ classification_report (values yte) (predictions t' Xte) = Ok rep'
       ∧ In (Printed "" (VReport rep')) (outputs k))
  ∧ (∀ (a b : list cell) (ra : Report),
       classification_report a b = Ok ra →
       ∃ rb, classification_report b a = Ok rb
             ∧ accuracy rb = accuracy ra
             ∧ ∀ c, match row_of ra c, row_of rb c with
                    | Some x, Some x' =>
                        precision x' = recall x ∧ recall x' = precision x
                        ∧ f1_score x' = f1_score x
                    | None, None => True
                    | _, _ => False
                    end)
  ∧ (∃ (a b : list cell) (ra rb : Report) (c : cell) (x x' : report_row),
       classification_report a b = Ok ra ∧ classification_report b a = Ok rb
       ∧ row_of ra c = Some x ∧ row_of rb c = Some x'
       ∧ precision x ≠ precision x').
Proof.
  split; [|split].
  - intros env k (r & (_ & _ & _ & _ & _ & _ & H7 & _ & H9 & _) & ->)%run_all_ok.
    exists (X_test r), (y_test r), (tree r), (tree' r), (tree_report r), (final_report r).
    repeat split; try done; simpl; tauto.
  - apply classification_report_swap.
  - eexists [Str "Gentoo"; Str "Adelie"], [Str "Gentoo"; Str "Gentoo"], _, _, (Str "Gentoo"), _, _.
    split; [reflexivity|]. split; [reflexivity|].
    split; [reflexivity|]. split; [reflexivity|].
    intros E. apply (f_equal this) in E. vm_compute in E. discriminate.
Qed.

Lemma C8_witness :
  ∃ Xte yte t t' rep rep',
    Globals.X_test (names (run_all Example.toy).1) = Some Xte
    ∧ Globals.y_test (names (run_all Example.toy).1) = Some yte
    ∧ In (Displayed (VLabels (take 10 (predictions t Xte)))) (outputs (run_all Example.toy).1)
    ∧ classification_report (predictions t Xte) (values yte) = Ok rep
    ∧ In (Printed "" (VReport rep)) (outputs (run_all Example.toy).1)
    ∧ Globals.y_pred (names (run_all Example.toy).1) = Some (predictions t' Xte)
    ∧ classification_report (values yte) (predictions t' Xte) = Ok rep'
    ∧ In (Printed "" (VReport rep')) (outputs (run_all Example.toy).1).
Proof.
  destruct C8_reports_use_opposite_argument_orders as [H _].
  exact (H Example.toy _ toy_runs).
Defined.



End Evaluation.

(** * Further properties of the cells and of the operations they call *)

(** ** The size of the test part *)

Section TestSize.
Import Pandas Sklearn Notebook Summary.
Local Open Scope Z_scope.

Lemma round53_pos (p e : Z) : 0 < p → 0 < Float64.mant (Float64.round53 p e).
Proof.
  intros Hp. unfold Float64.round53, Float64.digits.
  destruct (Z.eqb_spec p 0); [lia|].
  destruct (Z.leb_spec (Z.log2 p + 1 - 53) 0); simpl; [done|].
  set (s := Z.log2 p + 1 - 53) in *.
  pose proof (round_even_bounds p s).
  pose proof (Z.log2_spec p Hp) as [Hlo _].
  assert (0 < 2 ^ s) by (apply Z.pow_pos_nonneg; lia).
  assert (2 ^ 52 ≤ p / 2 ^ s); [|lia].
  apply Z.div_le_lower_bound; [done|].
  rewrite <- Z.pow_add_r by lia. replace (s + 52) with (Z.log2 p) by (unfold s; lia). done.
Qed.

Lemma ceil_pos (x : Float64.t) : 0 < Float64.mant x → 0 < Float64.ceil x.
Proof.
  intros Hm. unfold Float64.ceil. destruct (Z.leb_spec 0 (Float64.expo x)).
  - apply Z.mul_pos_pos; [done | apply Z.pow_pos_nonneg; lia].
  - assert (0 < 2 ^ (- Float64.expo x)) by (apply Z.pow_pos_nonneg; lia).
    assert (- Float64.mant x / 2 ^ (- Float64.expo x) < 0); [|lia].
    apply Z.div_lt_upper_bound; lia.
Qed.

(** An accepted split has a test part too. *)
Lemma validate_shuffle_split_test_part (n : nat) (test_size : Float64.t) (n_train n_test : nat) :
  validate_shuffle_split n test_size = Ok (n_train, n_test) → (0 < n_test)%nat.
Proof.
  intros Hv. pose proof (validate_shuffle_split_sizes _ _ _ _ Hv) as [Hsum Hpos].
  revert Hv. unfold validate_shuffle_split.
  destruct (Float64.le_zero test_size) eqn:E0; [done|].
  destruct (Float64.ge_one test_size); [done|]. simpl.
  set (c := Float64.ceil _).
  assert (0 < c).
  { apply ceil_pos, round53_pos. apply Z.mul_pos_pos.
    - unfold Float64.le_zero in E0. lia.
    - apply round53_pos. lia. }
  destruct (Z.ltb_spec (Z.of_nat n) (Z.of_nat n - c + c)); [done|].
  destruct (Nat.eqb_spec (Z.to_nat (Z.of_nat n - c)) 0); [done|].
  intros [= <- <-]. lia.
Qed.

(** X1.  [math.ceil(0.3 * n)] is exact.  The double [0.3] lies strictly below
    3/10 and the product is rounded once more, yet for every row count [n]
    below 2^50 the test size scikit-learn computes is the least integer [t]
    with [3 n ≤ 10 t]: neither rounding moves the product across an
    integer, not even when 3n/10 is itself an integer. *)
Theorem X1_test_size_is_the_exact_ceiling (n : nat) :
  Z.of_nat n < 2 ^ 50 →
  10 * Float64.mant Float64.lit_0_3 < 3 * 2 ^ (- Float64.expo Float64.lit_0_3)
  ∧ 3 * Z.of_nat n
    ≤ 10 * Float64.ceil (Float64.mul Float64.lit_0_3 (Float64.of_nat n))
    < 3 * Z.of_nat n + 10.
Proof.
  intros Hn. split; [reflexivity|].
  rewrite ceil_mul_0_3 by done.
  pose proof (Z.div_mod (3 * Z.of_nat n + 9) 10 ltac:(lia)).
  pose proof (Z.mod_pos_bound (3 * Z.of_nat n + 9) 10 ltac:(lia)). lia.
Qed.

Lemma X1_witness :
  10 * Float64.mant Float64.lit_0_3 < 3 * 2 ^ (- Float64.expo Float64.lit_0_3)
  ∧ 3 * Z.of_nat 340
    ≤ 10 * Float64.ceil (Float64.mul Float64.lit_0_3 (Float64.of_nat 340))
    < 3 * Z.of_nat 340 + 10.
Proof. apply (X1_test_size_is_the_exact_ceiling 340). reflexivity. Defined.

Local Close Scope Z_scope.

(** The test part of an accepted split has a row. *)
Lemma split_test_rows (env : Env) (draw : nat) (X : DataFrame) (y : Series)
    (test_size : Float64.t) (Xtr Xte : DataFrame) (ytr yte : Series) :
  train_test_split (permutation env draw) X y test_size = Ok (Xtr, Xte, ytr, yte) →
  0 < length (rows Xte).
Proof.
  intros Hs.
  pose proof (permutation_spec env draw (length (rows X))) as Hp.
  apply train_test_split_Ok in Hs as (n_train & n_test & _ & Hv & _ & T2 & _).
  pose proof (validate_shuffle_split_test_part _ _ _ _ Hv) as Htest.
  apply validate_shuffle_split_sizes in Hv as [Hsum Hpos].
  apply Forall2_length in T2. rewrite length_take in T2.
  assert (length (permutation env draw (length (rows X))) = length (rows X))
    by (rewrite Hp; apply length_seq).
  lia.
Qed.

(** X2.  [train_test_split] never returns an empty part.  Whatever fraction
    in (0, 1) is passed as [test_size], a call that returns has at least one
    row in the training part and at least one in the test part, the two
    sizes add up to the number of rows, and so a table must have at least
    two rows for the call to return. *)
Theorem X2_split_parts_are_not_empty (env : Env) (draw : nat) (X : DataFrame) (y : Series)
    (test_size : Float64.t) (Xtr Xte : DataFrame) (ytr yte : Series) :
  train_test_split (permutation env draw) X y test_size = Ok (Xtr, Xte, ytr, yte) →
  rows Xtr ≠ [] ∧ rows Xte ≠ [] ∧ items ytr ≠ [] ∧ items yte ≠ []
  ∧ length (rows Xtr) + length (rows Xte) = length (rows X)
  ∧ 2 ≤ length (rows X).
Proof.
  intros Hs.
  pose proof (split_test_rows _ _ _ _ _ _ _ _ _ Hs) as Hte.
  destruct (train_test_split_partition _ _ _ _ _ _ _ _ (permutation_spec env draw _) Hs)
    as (_ & _ & _ & L1 & L2 & L3 & L4).
  repeat split; try lia.
  - intros E. rewrite E in L4. simpl in L4. lia.
  - intros E. rewrite E in Hte. simpl in Hte. lia.
  - intros E. rewrite E in L1. simpl in L1. lia.
  - intros E. rewrite E in L2. simpl in L2. lia.
Qed.

Lemma X2_witness :
  ∃ Xtr Xte ytr yte,
    train_test_split (permutation Example.toy 0)
      (mkDataFrame ["bill_length_mm"]
         [mkRow 0 [Example.num 39]; mkRow 2 [Example.num 46]; mkRow 3 [Example.num 50]])
      (mkSeries "species" [(0, Str "Adelie"); (2, Str "Gentoo"); (3, Str "Gentoo")])
      Float64.lit_0_3 = Ok (Xtr, Xte, ytr, yte)
    ∧ rows Xtr ≠ [] ∧ rows Xte ≠ [] ∧ items ytr ≠ [] ∧ items yte ≠ []
    ∧ length (rows Xtr) + length (rows Xte) = 3
    ∧ 2 ≤ 3.
Proof.
  eexists _, _, _, _. split; [by vm_compute|].
  apply (X2_split_parts_are_not_empty Example.toy 0
           (mkDataFrame ["bill_length_mm"]
              [mkRow 0 [Example.num 39]; mkRow 2 [Example.num 46]; mkRow 3 [Example.num 50]])
           (mkSeries "species" [(0, Str "Adelie"); (2, Str "Gentoo"); (3, Str "Gentoo")])
           Float64.lit_0_3).
  by vm_compute.
Defined.

End TestSize.

(** ** When a run completes, and how it fails *)

Section Completion.
Import Pandas Sklearn Notebook Summary.

Lemma length_predictions (t : Tree) (d : DataFrame) :
  length (predictions t d) = length (rows d).
Proof. unfold predictions. apply length_map. Qed.

Lemma length_values (s : Series) : length (values s) = length (items s).
Proof. unfold values. apply length_fmap. Qed.

Lemma column_positions_Raise (cols wanted : list string) (e : exn) :
  column_positions cols wanted = Raise e →
  ∃ c, e = KeyError c ∧ c ∈ wanted ∧ c ∉ cols.
Proof.
  induction wanted as [|c wanted IH]; simpl; [done|].
  destruct (column_position cols c) as [j|] eqn:Ej.
  - destruct (column_positions cols wanted) as [js|e'] eqn:E; simpl; [done|].
    intros [= <-]. destruct (IH eq_refl) as (c' & -> & Hin & Hout).
    exists c'. split; [done|]. split; [by right | done].
  - intros [= <-]. exists c. split; [done|]. split; [left|].
    by apply column_position_None.
Qed.

(** A run in which the features cannot be selected. *)
Lemma run_without_features (env : Env) (raw : DataFrame) (e : exn) :
  load_dataset env "penguins" = Ok raw →
  loc_columns (dropna raw) features = Raise e →
  ∃ k, run_all env = (k, Raise e)
       ∧ calls k = [sns_load_dataset; DataFrame_head; DataFrame_dropna; DataFrame_loc]
       ∧ raised k = [(DataFrame_loc, e)]
       ∧ Globals.X (names k) = None
       ∧ Globals.X_train (names k) = None
       ∧ Globals.model (names k) = None.
Proof.
  intros H1 H2. unfold features in *. nb_unfold.
  repeat (nb_step; simplify_eq).
  eexists. split; [reflexivity|]. by repeat split.
Qed.

(** A run in which the labels cannot be selected. *)
Lemma run_without_species (env : Env) (raw X : DataFrame) (e : exn) :
  load_dataset env "penguins" = Ok raw →
  loc_columns (dropna raw) features = Ok X →
  loc_column (dropna raw) "species" = Raise e →
  ∃ k, run_all env = (k, Raise e)
       ∧ calls k = [sns_load_dataset; DataFrame_head; DataFrame_dropna;
                    DataFrame_loc; DataFrame_loc]
       ∧ raised k = [(DataFrame_loc, e)]
       ∧ Globals.X (names k) = Some X
       ∧ Globals.X_train (names k) = None
       ∧ Globals.model (names k) = None.
Proof.
  intros H1 H2 H3. unfold features in *. nb_unfold.
  repeat (nb_step; simplify_eq).
  eexists. split; [reflexivity|]. by repeat split.
Qed.

(** A run in which the split is refused. *)
Lemma run_without_split (env : Env) (raw X : DataFrame) (y : Series) (e : exn) :
  load_dataset env "penguins" = Ok raw →
  loc_columns (dropna raw) features = Ok X →
  loc_column (dropna raw) "species" = Ok y →
  train_test_split (permutation env 0) X y Float64.lit_0_3 = Raise e →
  ∃ k, run_all env = (k, Raise e)
       ∧ last (calls k) = Some sk_train_test_split
       ∧ raised k = [(sk_train_test_split, e)]
       ∧ Globals.X_train (names k) = None
       ∧ Globals.model (names k) = None.
Proof.
  intros H1 H2 H3 H4. unfold features in *. nb_unfold.
  repeat (nb_step; simplify_eq).
  eexists. split; [reflexivity|]. by repeat split.
Qed.

Lemma split_of_two_rows (env : Env) (draw : nat) (X : DataFrame) (y : Series) :
  length (items y) = length (rows X) →
  (Z.of_nat (length (rows X)) < 2 ^ 50)%Z →
  if decide (length (rows X) < 2)
  then train_test_split (permutation env draw) X y Float64.lit_0_3
       = Raise (ValueError "the resulting train set will be empty")
  else ∃ parts, train_test_split (permutation env draw) X y Float64.lit_0_3 = Ok parts.
Proof.
  intros Hlen Hn. case_decide as Hlt.
  - unfold train_test_split. rewrite decide_True by done.
    rewrite validate_shuffle_split_0_3 by done. by rewrite decide_True by done.
  - eapply train_test_split_total; [done| |apply permutation_spec].
    rewrite validate_shuffle_split_0_3 by done. by rewrite decide_False by done.
Qed.

Lemma elem_of_List_filter {A} (f : A → bool) (l : list A) (a : A) :
  a ∈ List.filter f l ↔ a ∈ l ∧ f a = true.
Proof. rewrite !list_elem_of_In. apply filter_In. Qed.

Lemma elem_of_unique (l : list cell) (c : cell) : c ∈ unique l ↔ c ∈ l.
Proof.
  induction l as [|x l IH]; simpl; [done|].
  rewrite !elem_of_cons, elem_of_List_filter, IH.
  destruct (decide (c = x)) as [->|Hne]; [tauto|].
  rewrite bool_decide_eq_true. tauto.
Qed.

Lemma class_labels_Ok (names : list cell) (nodes : list nat) (lines : list string) :
  class_labels names nodes = Ok lines →
  Forall (λ i, ∃ s, names !! i = Some (Str s)) nodes.
Proof.
  revert lines. induction nodes as [|i nodes IH]; intros lines; simpl; [constructor|].
  unfold class_label.
  destruct (names !! i) as [[| |s]|] eqn:Ei; simpl; try done.
  destruct (class_labels names nodes) as [ss|e] eqn:E; simpl; [|done].
  intros _. constructor; [by exists s | by eapply IH].
Qed.

Lemma class_labels_Raise (names : list cell) (nodes : list nat) (e : exn) :
  class_labels names nodes = Raise e →
  (e = IndexError ∨ ∃ msg, e = TypeError msg)
  ∧ ∃ i, i ∈ nodes ∧ ∀ s, names !! i ≠ Some (Str s).
Proof.
  induction nodes as [|i nodes IH]; simpl; [done|].
  unfold class_label.
  destruct (names !! i) as [[| |s]|] eqn:Ei; simpl.
  - intros [= <-]. split; [right; by eexists|]. exists i. split; [left | by rewrite Ei].
  - intros [= <-]. split; [right; by eexists|]. exists i. split; [left | by rewrite Ei].
  - destruct (class_labels names nodes) as [ss|e'] eqn:E; simpl; [done|].
    intros [= <-]. destruct (IH eq_refl) as [He (j & Hj & Hn)].
    split; [done|]. exists j. split; [by right | done].
  - intros [= <-]. split; [by left|]. exists i. split; [left | by rewrite Ei].
Qed.

(** What [plot_tree] needs of the class names, and how it fails. *)
Lemma written_classes_Ok (classes : list cell) (t : Tree) (names : list cell)
    (lines : list string) :
  written_classes classes t names = Ok lines →
  length classes ≠ 1 →
  Forall (λ i, ∃ s, names !! i = Some (Str s)) (root_class t :: child_classes t).
Proof.
  unfold written_classes. case_decide as Hd; [done|]. intros H _. by eapply class_labels_Ok.
Qed.

Lemma written_classes_Raise (classes : list cell) (t : Tree) (names : list cell) (e : exn) :
  written_classes classes t names = Raise e →
  length classes ≠ 1
  ∧ (e = IndexError ∨ ∃ msg, e = TypeError msg)
  ∧ ∃ i, i ∈ root_class t :: child_classes t ∧ ∀ s, names !! i ≠ Some (Str s).
Proof.
  unfold written_classes. case_decide as Hd; [done|]. intros H.
  split; [done|]. by apply class_labels_Raise.
Qed.

(** A run that stops at [plot_tree]. *)
Lemma run_stops_at_the_plot (env : Env) (k : Kernel) (e : exn) :
  run_all env = (k, Raise e) →
  last (calls k) = Some sk_plot_tree →
  ∃ y m t rep,
    Globals.y (names k) = Some y
    ∧ Globals.model (names k) = Some m
    ∧ tree_ m = Some t
    ∧ written_classes (classes_ m) t (unique (values y)) = Raise e
    ∧ Globals.report (names k) = Some rep
    ∧ Globals.fig (names k) = Some (Matplotlib.mkFigure (14, 10)).
Proof.
  unfold features. nb_unfold.
  repeat (nb_step; try discriminate).
  all: intros [= <- <-]; cbn [calls names outputs last]; try discriminate.
  intros _. eexists _, _, _, _. cbn. by repeat split.
Qed.

Lemma numbered_stops :
  run_all Example.numbered
  = ((run_all Example.numbered).1, Raise (TypeError "can only concatenate str to str")).
Proof. vm_compute. reflexivity. Qed.

(** The name looked up for the root is among the labels. *)
Lemma root_name_is_a_label (names : list cell) (t : Tree) :
  Forall (λ i, ∃ s, unique names !! i = Some (Str s)) (root_class t :: child_classes t) →
  ∃ s, Str s ∈ names.
Proof.
  intros [[s Hs] _]%Forall_cons. exists s.
  apply elem_of_unique. by eapply list_elem_of_lookup_2.
Qed.

(** X3.  What a complete run requires, and how the plot stops a run.  If
    Run All completes, the loaded table has the four feature columns and
    the species column and at least two rows without a missing entry; and,
    unless the training labels are of a single class, the class name that
    [plot_tree] looks up for the root and for every other node of the tree
    is text, so some species of the cleaned table is text.  A run that gets
    as far as [plot_tree] and stops there stops for that reason: the
    estimator has seen more than one class and for some node the class name
    is missing ([IndexError]) or is not text ([TypeError], as when the
    species are numbers); the report of the cell before is bound and the
    figure has been created. *)
Theorem X3_what_a_complete_run_requires :
  (∀ env k, run_all env = (k, Ok tt) →
     ∃ raw y ytr t,
       load_dataset env "penguins" = Ok raw
       ∧ ("species" :: features) ⊆ columns raw
       ∧ 2 ≤ length (rows (dropna raw))
       ∧ Globals.y (names k) = Some y
       ∧ Globals.y_train (names k) = Some ytr
       ∧ In (Drawn (mkDrawing t the_axes features (unique (values y)))) (outputs k)
       ∧ (length (unique_labels (values ytr) []) ≠ 1 →
          Forall (λ i, ∃ s, unique (values y) !! i = Some (Str s))
                 (root_class t :: child_classes t)
          ∧ ∃ s, Str s ∈ values y))
  ∧ (∀ env k e, run_all env = (k, Raise e) → last (calls k) = Some sk_plot_tree →
       ∃ y m t rep,
         Globals.y (names k) = Some y
         ∧ Globals.model (names k) = Some m
         ∧ tree_ m = Some t
         ∧ length (classes_ m) ≠ 1
         ∧ (∃ i, i ∈ root_class t :: child_classes t
                 ∧ ∀ s, unique (values y) !! i ≠ Some (Str s))
         ∧ (e = IndexError ∨ ∃ msg, e = TypeError msg)
         ∧ raised k = [(sk_plot_tree, e)]
         ∧ Globals.report (names k) = Some rep
         ∧ Globals.fig (names k) = Some (Matplotlib.mkFigure (14, 10))).
Proof.
  split.
  - intros env k (r & (H1 & H2 & H3 & H4 & _ & _ & _ & _ & _ & _ & _ & _ & _ & [lines Hw] & _)
                  & ->)%run_all_ok.
    exists (raw r), (y r), (y_train r), (tree r).
    split; [done|]. split.
    { intros c [->|Hc]%elem_of_cons.
      - apply (loc_column_is_Ok (dropna (raw r))). eauto.
      - revert c Hc. apply (loc_columns_is_Ok (dropna (raw r))). eauto. }
    split.
    { pose proof (split_test_rows _ _ _ _ _ _ _ _ _ H4) as Hte.
      destruct (train_test_split_partition _ _ _ _ _ _ _ _ (permutation_spec env 0 _) H4)
        as (_ & _ & _ & _ & _ & L3 & L4).
      apply loc_columns_spec in H2 as (_ & <- & _). lia. }
    split; [done|]. split; [done|]. split; [simpl; tauto|].
    intros Hn. pose proof (written_classes_Ok _ _ _ _ Hw Hn) as Hall.
    split; [done|]. by eapply root_name_is_a_label.
  - intros env k e Hrun Hlast.
    destruct (run_stops_at_the_plot env k e Hrun Hlast)
      as (y & m & t & rep & Hy & Hm & Ht & Hw & Hrep & Hfig).
    destruct (written_classes_Raise _ _ _ _ Hw) as (Hn & He & Hi).
    pose proof (run_all_cases env) as Hc. rewrite Hrun in Hc.
    destruct Hc as (f & Hr & Hf & _). rewrite Hlast in Hf. injection Hf as <-.
    exists y, m, t, rep. by repeat split.
Qed.

Lemma X3_witness :
  (∃ raw y ytr t,
     load_dataset Example.toy "penguins" = Ok raw
     ∧ ("species" :: features) ⊆ columns raw
     ∧ 2 ≤ length (rows (dropna raw))
     ∧ Globals.y (names (run_all Example.toy).1) = Some y
     ∧ Globals.y_train (names (run_all Example.toy).1) = Some ytr
     ∧ In (Drawn (mkDrawing t the_axes features (unique (values y))))
          (outputs (run_all Example.toy).1)
     ∧ (length (unique_labels (values ytr) []) ≠ 1 →
        Forall (λ i, ∃ s, unique (values y) !! i = Some (Str s))
               (root_class t :: child_classes t)
        ∧ ∃ s, Str s ∈ values y))
  ∧ ∃ y m t rep,
      Globals.y (names (run_all Example.numbered).1) = Some y
      ∧ Globals.model (names (run_all Example.numbered).1) = Some m
      ∧ tree_ m = Some t
      ∧ length (classes_ m) ≠ 1
      ∧ (∃ i, i ∈ root_class t :: child_classes t
              ∧ ∀ s, unique (values y) !! i ≠ Some (Str s))
      ∧ (TypeError "can only concatenate str to str" = IndexError
         ∨ ∃ msg, TypeError "can only concatenate str to str" = TypeError msg)
      ∧ raised (run_all Example.numbered).1
        = [(sk_plot_tree, TypeError "can only concatenate str to str")]
      ∧ Globals.report (names (run_all Example.numbered).1) = Some rep
      ∧ Globals.fig (names (run_all Example.numbered).1) = Some (Matplotlib.mkFigure (14, 10)).
Proof.
  destruct X3_what_a_complete_run_requires as [H1 H2].
  split; [exact (H1 Example.toy _ toy_runs)|].
  apply (H2 Example.numbered _ _ numbered_stops). vm_compute. reflexivity.
Defined.

(** X4.  A table without one of the five columns stops the run with
    [KeyError].  If the loaded table lacks a feature column or the species
    column, the run ends with [KeyError] for a column that is wanted and
    absent, raised by [data.loc]; nothing was split and no model was
    created.  The notebook does not check the columns itself. *)
Theorem X4_missing_column_is_a_KeyError (env : Env) (raw : DataFrame) :
  load_dataset env "penguins" = Ok raw →
  ¬ (("species" :: features) ⊆ columns raw) →
  ∃ c k,
    c ∈ ("species" :: features) ∧ (c ∉ columns raw)
    ∧ run_all env = (k, Raise (KeyError c))
    ∧ last (calls k) = Some DataFrame_loc
    ∧ raised k = [(DataFrame_loc, KeyError c)]
    ∧ Globals.X_train (names k) = None
    ∧ Globals.model (names k) = None.
Proof.
  intros Hload Hmiss.
  destruct (loc_columns (dropna raw) features) as [X|e] eqn:HX.
  - destruct (loc_column (dropna raw) "species") as [y|e] eqn:Hy.
    + exfalso. apply Hmiss. intros c [->|Hc]%elem_of_cons.
      * apply (loc_column_is_Ok (dropna raw)). eauto.
      * revert c Hc. apply (loc_columns_is_Ok (dropna raw)). eauto.
    + assert (e = KeyError "species" ∧ "species" ∉ columns raw) as [-> Hout].
      { revert Hy. unfold loc_column.
        destruct (column_position (columns (dropna raw)) "species") eqn:E; [done|].
        intros [= <-]. split; [done|]. by apply column_position_None in E. }
      destruct (run_without_species env raw X _ Hload HX Hy)
        as (k & Hk & Hc & Hr & _ & Ht & Hm).
      exists "species", k. split; [apply list_elem_of_here|].
      split; [exact Hout|]. split; [done|].
      split; [by rewrite Hc|]. by repeat split.
  - pose proof HX as HX'. unfold loc_columns in HX'.
    destruct (column_positions (columns (dropna raw)) features) as [js|e'] eqn:E; [done|].
    injection HX' as ->.
    destruct (column_positions_Raise _ _ _ E) as (c & -> & Hin & Hout).
    destruct (run_without_features env raw _ Hload HX)
      as (k & Hk & Hc & Hr & _ & Ht & Hm).
    exists c, k. split; [by apply list_elem_of_further|].
    split; [exact Hout|]. split; [done|].
    split; [by rewrite Hc|]. by repeat split.
Qed.


Lemma X4_witness :
  ∃ c k,
    c ∈ ("species" :: features) ∧ (c ∉ ["bill_length_mm"])
    ∧ run_all Example.headless = (k, Raise (KeyError c))
    ∧ last (calls k) = Some DataFrame_loc
    ∧ raised k = [(DataFrame_loc, KeyError c)]
    ∧ Globals.X_train (names k) = None
    ∧ Globals.model (names k) = None.
Proof.
  apply (X4_missing_column_is_a_KeyError Example.headless
           (mkDataFrame ["bill_length_mm"] [mkRow 0 [Example.num 39]])).
  - reflexivity.
  - intros H. specialize (H "species" (list_elem_of_here _ _)).
    apply list_elem_of_singleton in H. discriminate.
Defined.

(** X5.  Fewer than two complete rows stop the run at the split.  When the
    table has the five columns but fewer than two rows without a missing
    entry, [train_test_split] refuses to split (the training part would be
    empty): the run ends with that [ValueError], at that call, and no model
    is ever created. *)
Theorem X5_too_few_rows_stop_at_the_split (env : Env) (raw : DataFrame) :
  load_dataset env "penguins" = Ok raw →
  ("species" :: features) ⊆ columns raw →
  length (rows (dropna raw)) < 2 →
  ∃ k,
    run_all env = (k, Raise (ValueError "the resulting train set will be empty"))
    ∧ last (calls k) = Some sk_train_test_split
    ∧ raised k = [(sk_train_test_split, ValueError "the resulting train set will be empty")]
    ∧ Globals.X_train (names k) = None
    ∧ Globals.model (names k) = None.
Proof.
  intros Hload Hcols Hlt.
  assert (Hf : features ⊆ columns raw) by (intros c Hc; apply Hcols; by right).
  assert (Hs : "species" ∈ columns raw) by (apply Hcols; left).
  destruct (proj2 (loc_columns_is_Ok (dropna raw) features) Hf) as [X HX].
  destruct (proj2 (loc_column_is_Ok (dropna raw) "species") Hs) as [y Hy].
  pose proof (loc_columns_spec _ _ _ HX) as (_ & LX & _).
  pose proof (loc_column_spec _ _ _ Hy) as (_ & Ly & _).
  assert (Hsmall : (Z.of_nat (length (rows X)) < 2 ^ 50)%Z) by (rewrite LX; lia).
  pose proof (split_of_two_rows env 0 X y ltac:(congruence) Hsmall) as Hsplit.
  rewrite decide_True in Hsplit by (by rewrite LX).
  apply (run_without_split env raw X y _ Hload HX Hy Hsplit).
Qed.

Lemma X5_witness :
  ∃ k,
    run_all Example.lonely = (k, Raise (ValueError "the resulting train set will be empty"))
    ∧ last (calls k) = Some sk_train_test_split
    ∧ raised k = [(sk_train_test_split, ValueError "the resulting train set will be empty")]
    ∧ Globals.X_train (names k) = None
    ∧ Globals.model (names k) = None.
Proof.
  apply (X5_too_few_rows_stop_at_the_split Example.lonely Example.one_penguin).
  - reflexivity.
  - apply (bool_decide_eq_true_1 _). reflexivity.
  - simpl. lia.
Defined.

End Completion.

(** ** Preparing the data *)

Section Preparation.
Import Pandas Sklearn Notebook Summary.

Lemma map_filter_sublist {A B} (f : A → B) (P : A → bool) (Q : B → bool) (l : list A) :
  (∀ a, P a = true → Q (f a) = true) →
  map f (List.filter P l) `sublist_of` List.filter Q (map f l).
Proof.
  intros HPQ. induction l as [|a l IH]; simpl; [done|].
  destruct (P a) eqn:EP.
  - rewrite (HPQ a EP). simpl. by apply sublist_skip.
  - destruct (Q (f a)); [by apply sublist_cons | done].
Qed.

Lemma filter_filter_same {A} (f : A → bool) (l : list A) :
  List.filter f (List.filter f l) = List.filter f l.
Proof.
  induction l as [|a l IH]; simpl; [done|].
  destruct (f a) eqn:E; simpl; [|done]. by rewrite E, IH.
Qed.

Lemma dropna_dropna (d : DataFrame) : dropna (dropna d) = dropna d.
Proof. unfold dropna; simpl. by rewrite filter_filter_same. Qed.

Lemma selected_row_complete (cols wanted : list string) (js : list nat) (r : Row) :
  column_positions cols wanted = Ok js →
  complete (length cols) r = true →
  complete (length wanted) (mkRow (label r) (map (entry r) js)) = true.
Proof.
  intros Hjs Hr. apply complete_spec. intros j Hj.
  apply column_positions_Ok in Hjs.
  destruct (lookup_lt_is_Some_2 wanted j Hj) as [c Hc].
  destruct (Forall2_lookup_l _ _ _ _ _ Hjs Hc) as (p & Hp & Hpos).
  unfold entry at 1; simpl. rewrite list_lookup_fmap, Hp; simpl.
  apply (proj1 (complete_spec _ _) Hr). by eapply column_position_lt.
Qed.


(** X6.  Cleaning comes before selecting, and that costs rows.  The
    notebook drops incomplete rows from the whole table and selects columns
    afterwards.  Every row it keeps would also be kept by selecting first
    and cleaning afterwards, in the same order; the converse fails: a row
    whose only missing entry lies outside the selected columns is lost. *)
Theorem X6_cleaning_first_keeps_fewer_rows :
  (∀ (d X : DataFrame) (wanted : list string),
     loc_columns (dropna d) wanted = Ok X →
     ∃ X', loc_columns d wanted = Ok X'
           ∧ rows X `sublist_of` rows (dropna X')
           ∧ columns (dropna X') = columns X)
  ∧ (∃ (d X X' : DataFrame),
       loc_columns (dropna d) features = Ok X
       ∧ loc_columns d features = Ok X'
       ∧ length (rows X) < length (rows (dropna X'))).
Proof.
  split.
  - intros d X wanted. unfold loc_columns. simpl.
    destruct (column_positions (columns d) wanted) as [js|e] eqn:Hjs; [|done].
    simpl. intros [= <-]. eexists. split; [reflexivity|]. simpl.
    split; [|done].
    apply map_filter_sublist. intros r. by apply selected_row_complete.
  - exists Example.penguins. eexists _, _.
    split; [reflexivity|]. split; [reflexivity|]. vm_compute. lia.
Qed.

Lemma X6_witness :
  ∃ X X', loc_columns (dropna Example.penguins) features = Ok X
          ∧ loc_columns Example.penguins features = Ok X'
          ∧ rows X `sublist_of` rows (dropna X')
          ∧ columns (dropna X') = columns X.
Proof.
  destruct X6_cleaning_first_keeps_fewer_rows as [H _].
  eexists. destruct (H Example.penguins _ features eq_refl) as (X' & H1 & H2 & H3).
  exists X'. split; [reflexivity|]. split; [exact H1|]. split; [exact H2 | exact H3].
Defined.

(** X7.  Cleaning twice is cleaning once.  [dropna] leaves a table without
    missing entries as it is, so running the cleaning cell a second time
    changes no global name and shows nothing; only one more library call is
    made. *)
Theorem X7_cleaning_cell_can_be_rerun (k k1 : Kernel) :
  cell_3 k = (k1, Ok tt) →
  ∃ k2, cell_3 k1 = (k2, Ok tt)
        ∧ names k2 = names k1
        ∧ outputs k2 = outputs k1
        ∧ imported k2 = imported k1
        ∧ calls k2 = calls k1 ++ [DataFrame_dropna]
        ∧ raised k2 = raised k1.
Proof.
  destruct k as [g im cs rs os dr]. destruct g.
  unfold cell_3. nb_unfold. simpl.
  destruct data as [d|]; simpl; [|done].
  intros [= <-]. simpl. rewrite dropna_dropna.
  eexists. split; [reflexivity|]. by repeat split.
Qed.

Lemma X7_witness :
  ∃ k2, cell_3 (run_cells [cell_1; cell_2 Example.toy; cell_3] fresh).1 = (k2, Ok tt)
        ∧ names k2 = names (run_cells [cell_1; cell_2 Example.toy; cell_3] fresh).1
        ∧ outputs k2 = outputs (run_cells [cell_1; cell_2 Example.toy; cell_3] fresh).1
        ∧ imported k2 = imported (run_cells [cell_1; cell_2 Example.toy; cell_3] fresh).1
        ∧ calls k2 = calls (run_cells [cell_1; cell_2 Example.toy; cell_3] fresh).1
                     ++ [DataFrame_dropna]
        ∧ raised k2 = raised (run_cells [cell_1; cell_2 Example.toy; cell_3] fresh).1.
Proof.
  apply (X7_cleaning_cell_can_be_rerun
           (run_cells [cell_1; cell_2 Example.toy] fresh).1
           (run_cells [cell_1; cell_2 Example.toy; cell_3] fresh).1).
  vm_compute. reflexivity.
Defined.


Lemma NoDup_List_filter {A} (f : A → bool) (l : list A) : NoDup l → NoDup (List.filter f l).
Proof.
  induction 1 as [|a l Ha Hl IH]; simpl; [constructor|].
  destruct (f a); [|done]. constructor; [|done].
  rewrite elem_of_List_filter. tauto.
Qed.

Lemma NoDup_unique (l : list cell) : NoDup (unique l).
Proof.
  induction l as [|x l IH]; simpl; constructor.
  - rewrite elem_of_List_filter, bool_decide_eq_true. tauto.
  - by apply NoDup_List_filter.
Qed.

Lemma first_position_is_Some (c : cell) (l : list cell) :
  c ∈ l → ∃ p, first_position c l = Some p.
Proof.
  induction l as [|x l IH]; [by intros ?%elem_of_nil|]. simpl.
  case_decide as E; [by eexists|].
  intros [->|Hc]%elem_of_cons; [done|].
  destruct (IH Hc) as [p ->]. by eexists.
Qed.

Lemma appears_before_cons (x c c' : cell) (l : list cell) :
  c ≠ x → c' ≠ x → appears_before l c c' → appears_before (x :: l) c c'.
Proof.
  intros Hc Hc' (p & q & Hp & Hq & Hpq). exists (S p), (S q). simpl.
  rewrite !decide_False by done. rewrite Hp, Hq. simpl. repeat split; lia.
Qed.

Lemma appears_before_asym (l : list cell) (c c' : cell) :
  appears_before l c c' → appears_before l c' c → False.
Proof. intros (p & q & Hp & Hq & ?) (q' & p' & Hq' & Hp' & ?). simplify_eq. lia. Qed.

Lemma StronglySorted_filter_impl {A} (R R' : A → A → Prop) (f : A → bool) (u : list A) :
  (∀ a b, f a = true → f b = true → R a b → R' a b) →
  StronglySorted R u → StronglySorted R' (List.filter f u).
Proof.
  intros HR. induction 1 as [|a u _ IH Ha]; simpl; [constructor|].
  destruct (f a) eqn:Efa; [|done]. constructor; [done|].
  apply Forall_forall. intros b [Hb Hfb]%elem_of_List_filter.
  apply HR; [done..|]. by eapply Forall_forall in Ha.
Qed.

(** [unique] lists the labels in the order of their first occurrence. *)
Lemma unique_sorted (l : list cell) : StronglySorted (appears_before l) (unique l).
Proof.
  induction l as [|x l IH]; simpl; constructor.
  - eapply StronglySorted_filter_impl; [|exact IH].
    intros a b Ha%bool_decide_eq_true Hb%bool_decide_eq_true. by apply appears_before_cons.
  - apply Forall_forall. intros c [Hc Hne%bool_decide_eq_true]%elem_of_List_filter.
    apply (proj1 (elem_of_unique l c)) in Hc.
    apply first_position_is_Some in Hc as [q Hq].
    exists 0, (S q). simpl. rewrite decide_True by done. rewrite decide_False by done.
    rewrite Hq. simpl. repeat split; lia.
Qed.

(** No other list does. *)
Lemma unique_is_the_only_one (l u : list cell) :
  NoDup u → (∀ c, c ∈ u ↔ c ∈ l) → StronglySorted (appears_before l) u → u = unique l.
Proof.
  intros Hnd Hel Hs.
  apply (StronglySorted_unique_strong (appears_before l)); [|done|apply unique_sorted|].
  - intros c c' _ _ H1 H2. by destruct (appears_before_asym l c c').
  - apply NoDup_Permutation; [done | apply NoDup_unique|].
    intros c. by rewrite Hel, elem_of_unique.
Qed.

(** X14.  The class names on the tree plot are the species in order of
    first appearance.  In a complete run the plot is annotated with the
    four feature names and with [y.unique()].  That list holds every
    species of the cleaned table once and none else, each before the
    species that first occur later in [y], and it is the only list that
    does.  It has a name for every label of the test part.  It is a
    rearrangement of the sorted distinct labels of [y], and not always that
    list: labels that do not first occur in sorted order are passed to
    [plot_tree] unsorted. *)
Theorem X14_class_names_follow_first_appearance :
  (∀ env k, run_all env = (k, Ok tt) →
     ∃ d y yte,
       In (Drawn d) (outputs k)
       ∧ Globals.y (names k) = Some y
       ∧ Globals.y_test (names k) = Some yte
       ∧ feature_names d = features
       ∧ class_names d = unique (values y)
       ∧ ∀ c, c ∈ values yte → c ∈ class_names d)
  ∧ (∀ l : list cell,
       NoDup (unique l)
       ∧ (∀ c, c ∈ unique l ↔ c ∈ l)
       ∧ StronglySorted (appears_before l) (unique l)
       ∧ (∀ u, NoDup u → (∀ c, c ∈ u ↔ c ∈ l) → StronglySorted (appears_before l) u →
               u = unique l)
       ∧ unique l ≡ₚ unique_labels l [])
  ∧ (∃ l, unique l ≠ unique_labels l []).
Proof.
  split; [|split].
  - intros env k (r & (_ & _ & _ & H4 & _) & ->)%run_all_ok.
    exists (mkDrawing (tree r) the_axes features (unique (values (y r)))), (y r), (y_test r).
    split; [simpl; tauto|]. split; [done|]. split; [done|]. split; [done|].
    split; [done|]. simpl. intros c Hc. apply elem_of_unique.
    destruct (train_test_split_partition _ _ _ _ _ _ _ _ (permutation_spec env 0 _) H4)
      as (_ & _ & Hy & _).
    unfold values in *. rewrite <- Hy, fmap_app, elem_of_app. by left.
  - intros l. split; [apply NoDup_unique|]. split; [apply elem_of_unique|].
    split; [apply unique_sorted|]. split; [intros u; apply unique_is_the_only_one|].
    apply NoDup_Permutation; [apply NoDup_unique | apply NoDup_unique_labels|].
    intros c. rewrite elem_of_unique, elem_of_unique_labels, elem_of_nil. tauto.
  - exists [Str "Gentoo"; Str "Adelie"]. vm_compute. discriminate.
Qed.

Lemma X14_witness :
  (∃ d y yte,
     In (Drawn d) (outputs (run_all Example.toy).1)
     ∧ Globals.y (names (run_all Example.toy).1) = Some y
     ∧ Globals.y_test (names (run_all Example.toy).1) = Some yte
     ∧ feature_names d = features
     ∧ class_names d = unique (values y)
     ∧ ∀ c, c ∈ values yte → c ∈ class_names d)
  ∧ [Str "Gentoo"; Str "Adelie"; Str "Chinstrap"]
    = unique [Str "Gentoo"; Str "Adelie"; Str "Gentoo"; Str "Chinstrap"].
Proof.
  destruct X14_class_names_follow_first_appearance as (H1 & H2 & _).
  split; [exact (H1 Example.toy _ toy_runs)|].
  destruct (H2 [Str "Gentoo"; Str "Adelie"; Str "Gentoo"; Str "Chinstrap"])
    as (_ & _ & _ & Hu & _).
  apply Hu.
  - apply (bool_decide_eq_true_1 _). reflexivity.
  - intros c. rewrite !elem_of_cons, !elem_of_nil. tauto.
  - repeat constructor; eexists _, _; (split; [reflexivity|]); (split; [reflexivity|]); lia.
Defined.

(** X17.  [X.head()] never shows a missing value, [data.head()] can.  The
    first table displayed is the head of the table as loaded, before any
    cleaning; the head of [X] shown later consists of the first rows of [X],
    at most five, and none of them has a missing entry. *)
Theorem X17_heads_shown_before_and_after_cleaning :
  (∀ env k, run_all env = (k, Ok tt) →
     ∃ raw X,
       load_dataset env "penguins" = Ok raw
       ∧ Globals.X (names k) = Some X
       ∧ head (outputs k) = Some (Displayed (VFrame (frame_head raw)))
       ∧ In (Displayed (VFrame (frame_head X))) (outputs k)
       ∧ rows (frame_head X) `prefix_of` rows X
       ∧ length (rows (frame_head X)) = length (rows X) `min` 5
       ∧ rows (frame_head raw) `prefix_of` rows raw
       ∧ ∀ r, r ∈ rows (frame_head X) → NaN ∉ entries r)
  ∧ (∃ env k raw r,
       run_all env = (k, Ok tt)
       ∧ head (outputs k) = Some (Displayed (VFrame (frame_head raw)))
       ∧ r ∈ rows (frame_head raw) ∧ NaN ∈ entries r).
Proof.
  split.
  - intros env k (r & (H1 & H2 & _) & ->)%run_all_ok.
    exists (raw r), (X r). split; [done|]. split; [done|]. split; [done|].
    split; [simpl; tauto|]. simpl.
    split; [apply prefix_take|]. split; [rewrite length_take; lia|].
    split; [apply prefix_take|].
    intros row Hrow. eapply loc_columns_dropna_no_NaN; [exact H2|].
    by apply (subseteq_take 5).
  - exists Example.toy, (run_all Example.toy).1, Example.penguins,
      (mkRow 1 [Str "Adelie"; Str "Torgersen"; NaN; NaN; NaN; NaN; NaN]).
    split; [apply toy_runs|]. split; [vm_compute; reflexivity|].
    split; simpl.
    + apply list_elem_of_further, list_elem_of_here.
    + do 2 apply list_elem_of_further. apply list_elem_of_here.
Qed.

Lemma X17_witness :
  ∃ raw X,
    load_dataset Example.toy "penguins" = Ok raw
    ∧ Globals.X (names (run_all Example.toy).1) = Some X
    ∧ head (outputs (run_all Example.toy).1) = Some (Displayed (VFrame (frame_head raw)))
    ∧ In (Displayed (VFrame (frame_head X))) (outputs (run_all Example.toy).1)
    ∧ rows (frame_head X) `prefix_of` rows X
    ∧ length (rows (frame_head X)) = length (rows X) `min` 5
    ∧ rows (frame_head raw) `prefix_of` rows raw
    ∧ ∀ r, r ∈ rows (frame_head X) → NaN ∉ entries r.
Proof.
  destruct X17_heads_shown_before_and_after_cleaning as [H _].
  exact (H Example.toy _ toy_runs).
Defined.

End Preparation.

(** ** The metrics *)

Section Metrics.
Import Pandas Sklearn Notebook Summary.

Lemma Qc_of_nat_le (a b : nat) : a ≤ b → (Qc_of_nat a <= Qc_of_nat b)%Qc.
Proof.
  intros H. unfold Qc_of_nat, Qcle. simpl. rewrite !Qred_correct.
  rewrite <- Zle_Qle. lia.
Qed.

Lemma Qc_of_nat_pos (n : nat) : n ≠ 0 → (0 < Qc_of_nat n)%Qc.
Proof.
  intros H. unfold Qc_of_nat, Qclt. simpl. rewrite !Qred_correct.
  change 0%Q with (inject_Z 0). rewrite <- Zlt_Qlt. lia.
Qed.

Lemma Qc_of_nat_0 : Qc_of_nat 0 = 0%Qc.
Proof. by apply Qc_is_canon. Qed.

Lemma Qcdiv_mult_cancel (x y : Qc) : y ≠ 0%Qc → (x / y * y)%Qc = x.
Proof. intros H. rewrite Qcmult_comm. by apply Qcmult_div_r. Qed.

(** A quotient with a positive denominator lies between two bounds when the
    numerator lies between their multiples. *)
Lemma Qcdiv_bounds (x y : Qc) : (0 < y)%Qc → (0 <= x)%Qc → (x <= y)%Qc →
  (0 <= x / y)%Qc ∧ (x / y <= 1)%Qc.
Proof.
  intros Hy H0 H1. assert (y ≠ 0%Qc) by (intros ->; by apply Qclt_not_eq in Hy).
  split; apply (Qcmult_lt_0_le_reg_r _ _ y Hy); rewrite Qcdiv_mult_cancel by done.
  - by rewrite Qcmult_0_l.
  - by rewrite Qcmult_1_l.
Qed.

Lemma quotient_bounds (a b : nat) : a ≤ b → b ≠ 0 →
  (0 <= quotient a b)%Qc ∧ (quotient a b <= 1)%Qc.
Proof.
  intros Hab Hb. apply Qcdiv_bounds.
  - by apply Qc_of_nat_pos.
  - rewrite <- Qc_of_nat_0. apply Qc_of_nat_le. lia.
  - by apply Qc_of_nat_le.
Qed.

Lemma prf_divide_bounds (a b : nat) : a ≤ b →
  (0 <= prf_divide a b)%Qc ∧ (prf_divide a b <= 1)%Qc.
Proof.
  intros Hab. unfold prf_divide. case_decide; [done | by apply quotient_bounds].
Qed.

Lemma true_positives_le_true (c : cell) (a b : list cell) : true_positives c a b ≤ count c a.
Proof.
  revert b. induction a as [|x a IH]; intros [|y b]; simpl; try lia.
  specialize (IH b). unfold count in *.
  destruct (cell_eq_dec x c); case_decide; try lia. tauto.
Qed.

Lemma true_positives_le_pred (c : cell) (a b : list cell) : true_positives c a b ≤ count c b.
Proof. rewrite true_positives_comm. apply true_positives_le_true. Qed.

Lemma sum_nat_le (f g : cell → nat) (l : list cell) :
  (∀ c, f c ≤ g c) → sum_nat (map f l) ≤ sum_nat (map g l).
Proof. intros H. induction l as [|x l IH]; simpl; [done|]. specialize (H x). lia. Qed.

Lemma class_row_bounds (a b : list cell) (c : cell) :
  Forall (λ q, (0 <= q)%Qc ∧ (q <= 1)%Qc)
    [precision (class_row a b c); recall (class_row a b c); f1_score (class_row a b c)].
Proof.
  pose proof (true_positives_le_true c a b). pose proof (true_positives_le_pred c a b).
  unfold class_row; simpl. repeat constructor; apply prf_divide_bounds; lia.
Qed.

Lemma micro_f1_bounds (a b labels : list cell) :
  (0 <= f1_score (micro_row a b labels))%Qc ∧ (f1_score (micro_row a b labels) <= 1)%Qc.
Proof.
  unfold micro_row; simpl. apply prf_divide_bounds.
  pose proof (sum_nat_le (λ c, true_positives c a b) (λ c, count c a) labels
                (λ c, true_positives_le_true c a b)).
  pose proof (sum_nat_le (λ c, true_positives c a b) (λ c, count c b) labels
                (λ c, true_positives_le_pred c a b)).
  lia.
Qed.

Lemma Qcplus_le_0 (x y : Qc) : (0 <= x)%Qc → (0 <= y)%Qc → (0 <= x + y)%Qc.
Proof.
  intros Hx Hy. rewrite <- (Qcplus_0_l 0). by apply Qcplus_le_compat.
Qed.

(** A sum of values between 0 and 1 lies between 0 and their number. *)
Lemma sum_Qc_bounds (l : list Qc) :
  Forall (λ q, (0 <= q)%Qc ∧ (q <= 1)%Qc) l →
  (0 <= sum_Qc l)%Qc ∧ (sum_Qc l <= Qc_of_nat (length l))%Qc.
Proof.
  induction 1 as [|q l [H0 H1] _ [IH0 IH1]]; simpl.
  - rewrite Qc_of_nat_0. split; apply Qcle_refl.
  - split; [by apply Qcplus_le_0|].
    change (S (length l)) with (1 + length l). rewrite Qc_of_nat_add.
    apply Qcplus_le_compat; [|done].
    replace (Qc_of_nat 1) with 1%Qc by (by apply Qc_is_canon). done.
Qed.

(** A mean of values between 0 and 1; the mean of no value is reported as
    0. *)
Lemma mean_bounds (l : list Qc) :
  Forall (λ q, (0 <= q)%Qc ∧ (q <= 1)%Qc) l →
  (0 <= sum_Qc l / Qc_of_nat (length l))%Qc ∧ (sum_Qc l / Qc_of_nat (length l) <= 1)%Qc.
Proof.
  intros H. destruct (sum_Qc_bounds l H) as [H0 H1].
  destruct (decide (length l = 0)) as [E|E].
  - destruct l; [|done]. simpl. rewrite Qc_of_nat_0. by split.
  - apply Qcdiv_bounds; [by apply Qc_of_nat_pos| done..].
Qed.

Lemma Qc_of_nat_sum (l : list nat) : Qc_of_nat (sum_nat l) = sum_Qc (map Qc_of_nat l).
Proof.
  induction l as [|n l IH]; simpl; [apply Qc_of_nat_0|].
  by rewrite Qc_of_nat_add, IH.
Qed.

Lemma Qc_of_nat_nonneg (n : nat) : (0 <= Qc_of_nat n)%Qc.
Proof. rewrite <- Qc_of_nat_0. apply Qc_of_nat_le. lia. Qed.

(** A mean weighted by supports, of values between 0 and 1. *)
Lemma weighted_sum_bounds (f : report_row → Qc) (l : list report_row) :
  Forall (λ r, (0 <= f r)%Qc ∧ (f r <= 1)%Qc) l →
  (0 <= sum_Qc (map (λ r, Qc_of_nat (support r) * f r) l))%Qc
  ∧ (sum_Qc (map (λ r, Qc_of_nat (support r) * f r) l)
     <= Qc_of_nat (sum_nat (map support l)))%Qc.
Proof.
  induction 1 as [|r l [H0 H1] _ [IH0 IH1]]; simpl.
  - rewrite Qc_of_nat_0. split; apply Qcle_refl.
  - pose proof (Qc_of_nat_nonneg (support r)) as Hs. split.
    + apply Qcplus_le_0; [|done].
      rewrite <- (Qcmult_0_l (f r)). by apply Qcmult_le_compat_r.
    + rewrite Qc_of_nat_add. apply Qcplus_le_compat; [|done].
      rewrite <- (Qcmult_1_l (Qc_of_nat (support r))) at 2.
      rewrite (Qcmult_comm _ (f r)). by apply Qcmult_le_compat_r.
Qed.


Lemma Forall_zip_map {A B} (P : A * B → Prop) (f : A → B) (l : list A) :
  (∀ a, P (a, f a)) → Forall P (zip l (map f l)).
Proof. intros H. induction l; simpl; by constructor. Qed.

Lemma Forall_map_row (P : Qc → Prop) (f : report_row → Qc) (g : cell → report_row)
    (l : list cell) :
  (∀ c, P (f (g c))) → Forall P (map f (map g l)).
Proof. intros H. induction l; simpl; by constructor. Qed.

Lemma macro_row_bounds (a b labels : list cell) :
  let m := macro_row (map (class_row a b) labels) in
  Forall (λ q, (0 <= q)%Qc ∧ (q <= 1)%Qc) [precision m; recall m; f1_score m].
Proof.
  unfold macro_row; simpl.
  repeat constructor.
  all: match goal with
       | |- context [sum_Qc (map ?f ?l)] =>
           rewrite <- (length_map f l); apply mean_bounds, Forall_map_row; intros c;
           pose proof (class_row_bounds a b c) as Hc;
           repeat (apply Forall_cons in Hc as [? Hc]); tauto
       end.
Qed.

Lemma weighted_row_bounds (a b labels : list cell) :
  let w := weighted_row (map (class_row a b) labels) in
  Forall (λ q, (0 <= q)%Qc ∧ (q <= 1)%Qc) [precision w; recall w; f1_score w].
Proof.
  unfold weighted_row; simpl.
  assert (∀ f, (∀ c, (0 <= f (class_row a b c))%Qc ∧ (f (class_row a b c) <= 1)%Qc) →
            (λ q, (0 <= q)%Qc ∧ (q <= 1)%Qc)
                     (if decide (sum_nat (map support (map (class_row a b) labels)) = 0)
                      then 0%Qc
                      else (sum_Qc (map (λ r, Qc_of_nat (support r) * f r)
                                        (map (class_row a b) labels))
                            / Qc_of_nat (sum_nat (map support (map (class_row a b) labels))))%Qc))
    as Havg.
  { intros f Hf. case_decide as Ht; [done|].
    destruct (weighted_sum_bounds f (map (class_row a b) labels)) as [H0 H1].
    { apply Forall_forall. intros r (c & -> & _)%list_elem_of_fmap. apply Hf. }
    apply Qcdiv_bounds; [by apply Qc_of_nat_pos | done..]. }
  repeat constructor; apply Havg || (refine (proj1 (Havg _ _)) || refine (proj2 (Havg _ _)));
    intros c; pose proof (class_row_bounds a b c) as Hc;
    repeat (apply Forall_cons in Hc as [? Hc]); tauto.
Qed.

(** X10.  Every score is a fraction.  Whatever the two label sequences, each
    precision, recall and f1 value of a report (the class rows, the macro
    and the weighted average), its accuracy line and the value of
    [accuracy_score] lie between 0 and 1, also where a class was never
    predicted or never occurs and the library reports 0 for a quotient by
    zero. *)
Theorem X10_every_score_is_a_fraction (a b : list cell) :
  (∀ rep, classification_report a b = Ok rep →
     ((0 <= accuracy rep)%Qc ∧ (accuracy rep <= 1)%Qc)
     ∧ Forall (λ q, (0 <= q)%Qc ∧ (q <= 1)%Qc) [precision (macro_avg rep); recall (macro_avg rep); f1_score (macro_avg rep)]
     ∧ Forall (λ q, (0 <= q)%Qc ∧ (q <= 1)%Qc) [precision (weighted_avg rep); recall (weighted_avg rep); f1_score (weighted_avg rep)]
     ∧ Forall (λ p, Forall (λ q, (0 <= q)%Qc ∧ (q <= 1)%Qc) [precision p.2; recall p.2; f1_score p.2]) (per_class rep))
  ∧ (∀ q, accuracy_score a b = Ok (val q) → (0 <= q)%Qc ∧ (q <= 1)%Qc).
Proof.
  split.
  - unfold classification_report. case_decide; [|done]. intros rep [= <-]. simpl.
    split; [apply micro_f1_bounds|]. split; [apply macro_row_bounds|].
    split; [apply weighted_row_bounds|].
    apply Forall_zip_map. intros c. apply class_row_bounds.
  - unfold accuracy_score. case_decide as Hlen; [|done]. case_decide as Hn; [done|].
    intros q [= <-]. apply quotient_bounds; [|done].
    rewrite agreements_zip. etrans; [apply length_filter|].
    rewrite length_zip. lia.
Qed.

Lemma X10_witness :
  ∃ rep q,
    classification_report [Str "Gentoo"; Str "Adelie"] [Str "Gentoo"; Str "Gentoo"] = Ok rep
    ∧ accuracy_score [Str "Gentoo"; Str "Adelie"] [Str "Gentoo"; Str "Gentoo"] = Ok (val q)
    ∧ (((0 <= accuracy rep)%Qc ∧ (accuracy rep <= 1)%Qc)
       ∧ Forall (λ q, (0 <= q)%Qc ∧ (q <= 1)%Qc) [precision (macro_avg rep); recall (macro_avg rep); f1_score (macro_avg rep)]
       ∧ Forall (λ q, (0 <= q)%Qc ∧ (q <= 1)%Qc) [precision (weighted_avg rep); recall (weighted_avg rep); f1_score (weighted_avg rep)]
       ∧ Forall (λ p, Forall (λ q, (0 <= q)%Qc ∧ (q <= 1)%Qc) [precision p.2; recall p.2; f1_score p.2]) (per_class rep))
    ∧ (0 <= q)%Qc ∧ (q <= 1)%Qc.
Proof.
  destruct (X10_every_score_is_a_fraction
              [Str "Gentoo"; Str "Adelie"] [Str "Gentoo"; Str "Gentoo"]) as [H1 H2].
  eexists _, _. split; [reflexivity|]. split; [reflexivity|].
  split; [by apply H1 | by apply H2].
Defined.



Lemma sum_support (a b labels : list cell) :
  sum_nat (map support (map (class_row a b) labels)) = sum_nat (map (λ c, count c a) labels).
Proof. induction labels as [|c l IH]; simpl; [done|]. by rewrite IH. Qed.

Lemma total_support (a b : list cell) :
  sum_nat (map support (map (class_row a b) (unique_labels a b))) = length a.
Proof.
  rewrite sum_support. apply sum_count; [apply NoDup_unique_labels|].
  intros c Hc. apply elem_of_unique_labels. by left.
Qed.

(** The support column of a report. *)
Lemma report_support (a b : list cell) (rep : Report) :
  classification_report a b = Ok rep →
  Forall (λ p, support p.2 = count p.1 a) (per_class rep)
  ∧ support (macro_avg rep) = length a
  ∧ support (weighted_avg rep) = length a.
Proof.
  unfold classification_report. case_decide; [|done]. intros [= <-]. simpl.
  split; [by apply Forall_zip_map|].
  split; apply total_support.
Qed.

(** X13.  The support column counts the first argument.  The support of a
    class in a report is the number of entries of the first argument with
    that label, and the supports add up to its length.  So the report
    printed for the tree, [classification_report(y_pred, y_test)], lists
    how many test rows were predicted as each species, and only the report
    of the last cell lists how many test rows are of each species; the
    totals of both are the number of test rows. *)
Theorem X13_support_counts_the_first_argument :
  (∀ (a b : list cell) (rep : Report),
     classification_report a b = Ok rep →
     Forall (λ p, support p.2 = count p.1 a) (per_class rep)
     ∧ support (macro_avg rep) = length a
     ∧ support (weighted_avg rep) = length a)
  ∧ (∀ env k, run_all env = (k, Ok tt) →
       ∃ Xte yte t rep rep',
         Globals.X_test (names k) = Some Xte
         ∧ Globals.y_test (names k) = Some yte
         ∧ In (Displayed (VLabels (take 10 (predictions t Xte)))) (outputs k)
         ∧ In (Printed "" (VReport rep)) (outputs k)
         ∧ last (outputs k) = Some (Printed "" (VReport rep'))
         ∧ Forall (λ p, support p.2 = count p.1 (predictions t Xte)) (per_class rep)
         ∧ Forall (λ p, support p.2 = count p.1 (values yte)) (per_class rep')
         ∧ support (weighted_avg rep) = length (rows Xte)
         ∧ support (weighted_avg rep') = length (rows Xte)).
Proof.
  split; [apply report_support|].
  intros env k (r & (_ & _ & _ & H4 & _ & _ & H7 & _ & H9 & _) & ->)%run_all_ok.
  destruct (report_support _ _ _ H7) as (S1 & _ & S2).
  destruct (report_support _ _ _ H9) as (S3 & _ & S4).
  destruct (train_test_split_partition _ _ _ _ _ _ _ _ (permutation_spec env 0 _) H4)
    as (_ & _ & _ & _ & L & _).
  exists (X_test r), (y_test r), (tree r), (tree_report r), (final_report r).
  repeat split; try done; try (simpl; tauto).
  - by rewrite S2, length_predictions.
  - by rewrite S4, length_values, L.
Qed.

Lemma X13_witness :
  ∃ Xte yte t rep rep',
    Globals.X_test (names (run_all Example.toy).1) = Some Xte
    ∧ Globals.y_test (names (run_all Example.toy).1) = Some yte
    ∧ In (Displayed (VLabels (take 10 (predictions t Xte)))) (outputs (run_all Example.toy).1)
    ∧ In (Printed "" (VReport rep)) (outputs (run_all Example.toy).1)
    ∧ last (outputs (run_all Example.toy).1) = Some (Printed "" (VReport rep'))
    ∧ Forall (λ p, support p.2 = count p.1 (predictions t Xte)) (per_class rep)
    ∧ Forall (λ p, support p.2 = count p.1 (values yte)) (per_class rep')
    ∧ support (weighted_avg rep) = length (rows Xte)
    ∧ support (weighted_avg rep') = length (rows Xte).
Proof.
  destruct X13_support_counts_the_first_argument as [_ H].
  exact (H Example.toy _ toy_runs).
Defined.

(** X9.  The accuracy shown is the accuracy line of the report.  In a
    complete run the value displayed by [accuracy_score(y_pred, y_test)] is
    the accuracy line of the report printed next, and the "Model accuracy"
    the last cell prints from [model.score] is the accuracy line of the
    report it prints; neither value is undefined, since the test part is
    never empty. *)
Theorem X9_shown_accuracy_is_the_accuracy_line (env : Env) (k : Kernel) :
  run_all env = (k, Ok tt) →
  ∃ rep rep',
    In (Displayed (VScore (val (accuracy rep)))) (outputs k)
    ∧ In (Printed "" (VReport rep)) (outputs k)
    ∧ In (Printed "Model accuracy: " (VScore (val (accuracy rep')))) (outputs k)
    ∧ last (outputs k) = Some (Printed "" (VReport rep'))
    ∧ Globals.report (names k) = Some rep'.
Proof.
  intros (r & (_ & _ & _ & H4 & _ & H6 & H7 & _ & H9 & H10 & _) & ->)%run_all_ok.
  pose proof (split_test_rows _ _ _ _ _ _ _ _ _ H4) as Hte.
  destruct (train_test_split_partition _ _ _ _ _ _ _ _ (permutation_spec env 0 _) H4)
    as (_ & _ & _ & _ & L2 & _).
  assert (predictions (tree r) (X_test r) ≠ []) as Hp.
  { intros E. apply (f_equal length) in E. rewrite length_predictions in E.
    simpl in E. lia. }
  assert (values (y_test r) ≠ []) as Hv.
  { intros E. apply (f_equal length) in E. rewrite length_values in E.
    simpl in E. lia. }
  pose proof (report_accuracy _ _ _ H7 Hp) as E1. rewrite H6 in E1.
  pose proof (report_accuracy _ _ _ H9 Hv) as E2. rewrite H10 in E2.
  injection E1 as E1. injection E2 as E2.
  exists (tree_report r), (final_report r). simpl. rewrite <- E1, <- E2.
  repeat split; try done; tauto.
Qed.

Lemma X9_witness :
  ∃ rep rep',
    In (Displayed (VScore (val (accuracy rep)))) (outputs (run_all Example.toy).1)
    ∧ In (Printed "" (VReport rep)) (outputs (run_all Example.toy).1)
    ∧ In (Printed "Model accuracy: " (VScore (val (accuracy rep'))))
         (outputs (run_all Example.toy).1)
    ∧ last (outputs (run_all Example.toy).1) = Some (Printed "" (VReport rep'))
    ∧ Globals.report (names (run_all Example.toy).1) = Some rep'.
Proof. exact (X9_shown_accuracy_is_the_accuracy_line Example.toy _ toy_runs). Defined.


Lemma Qc_of_nat_inj (a b : nat) : Qc_of_nat a = Qc_of_nat b → a = b.
Proof.
  unfold Qc_of_nat. intros E%Q2Qc_eq_iff. unfold Qeq in E. simpl in E. lia.
Qed.


Lemma quotient_eq_0 (a n : nat) : n ≠ 0 → quotient a n = 0%Qc ↔ a = 0.
Proof.
  intros Hn. pose proof (Qc_of_nat_nonzero n Hn) as Hq. unfold quotient. split.
  - intros E. apply Qc_of_nat_inj.
    rewrite <- (Qcdiv_mult_cancel (Qc_of_nat a) (Qc_of_nat n)) by done.
    by rewrite E, Qcmult_0_l, Qc_of_nat_0.
  - intros ->. rewrite Qc_of_nat_0. apply Qcmult_0_l.
Qed.







Lemma quotient_0_l (n : nat) : quotient 0 n = 0%Qc.
Proof. unfold quotient. rewrite Qc_of_nat_0. apply Qcmult_0_l. Qed.

Lemma prf_divide_0_l (n : nat) : prf_divide 0 n = 0%Qc.
Proof. unfold prf_divide. case_decide; [done | apply quotient_0_l]. Qed.

Lemma Qcplus_eq_0 (x y : Qc) : (0 <= x)%Qc → (0 <= y)%Qc → (x + y)%Qc = 0%Qc → x = 0%Qc.
Proof.
  intros Hx Hy E. apply Qcle_antisym; [|done].
  rewrite <- E. rewrite <- (Qcplus_0_r x) at 1.
  apply Qcplus_le_compat; [apply Qcle_refl | done].
Qed.

(** The f1 value of a class is the harmonic mean of its precision and its
    recall. *)
Lemma class_row_f1 (a b : list cell) (c : cell) :
  let x := class_row a b c in
  ((precision x + recall x)%Qc ≠ 0%Qc →
   f1_score x = (Qc_of_nat 2 * precision x * recall x / (precision x + recall x))%Qc)
  ∧ ((precision x + recall x)%Qc = 0%Qc → f1_score x = 0%Qc).
Proof.
  pose proof (true_positives_le_true c a b) as Ht.
  pose proof (true_positives_le_pred c a b) as Hp.
  unfold class_row. cbn [precision recall f1_score].
  set (tp := true_positives c a b) in *.
  set (T := count c a) in *. set (P := count c b) in *.
  destruct (decide (tp = 0)) as [E|E].
  - rewrite E. change (2 * 0) with 0. rewrite !prf_divide_0_l.
    split; [|done]. intros H. by rewrite Qcplus_0_l in H.
  - unfold prf_divide. rewrite !decide_False by lia.
    pose proof (Qc_of_nat_nonzero tp E) as Htp.
    pose proof (Qc_of_nat_nonzero T ltac:(lia)) as HT.
    pose proof (Qc_of_nat_nonzero P ltac:(lia)) as HP.
    pose proof (Qc_of_nat_nonzero (T + P) ltac:(lia)) as HTP.
    split.
    + intros _. unfold quotient.
      replace (2 * tp) with (tp + tp) by lia.
      replace (Qc_of_nat 2) with (1 + 1)%Qc by (by apply Qc_is_canon).
      rewrite Qc_of_nat_add in HTP. rewrite !Qc_of_nat_add.
      field. repeat split; try done.
      intros H. apply HTP.
      replace (Qc_of_nat tp * Qc_of_nat T + Qc_of_nat tp * Qc_of_nat P)%Qc
        with (Qc_of_nat tp * (Qc_of_nat T + Qc_of_nat P))%Qc in H by ring.
      by destruct (Qcmult_integral _ _ H).
    + intros H. apply Qcplus_eq_0 in H.
      * apply quotient_eq_0 in H; [done | lia].
      * apply quotient_bounds; lia.
      * apply quotient_bounds; lia.
Qed.

(** X12.  F1 is the harmonic mean of precision and recall.  In every class
    row of a report, f1 = 2 * precision * recall / (precision + recall)
    whenever that denominator is not zero, and f1 is 0 when it is: the f1
    value is a function of the two other values of its row. *)
Theorem X12_f1_is_the_harmonic_mean (a b : list cell) (rep : Report) :
  classification_report a b = Ok rep →
  Forall (λ p,
            ((precision p.2 + recall p.2)%Qc ≠ 0%Qc →
             f1_score p.2
             = (Qc_of_nat 2 * precision p.2 * recall p.2 / (precision p.2 + recall p.2))%Qc)
            ∧ ((precision p.2 + recall p.2)%Qc = 0%Qc → f1_score p.2 = 0%Qc))
         (per_class rep).
Proof.
  unfold classification_report. case_decide; [|done]. intros [= <-]. simpl.
  apply Forall_zip_map. intros c. apply class_row_f1.
Qed.

Lemma X12_witness :
  ∃ rep,
    classification_report [Str "Gentoo"; Str "Adelie"] [Str "Gentoo"; Str "Gentoo"] = Ok rep
    ∧ Forall (λ p,
                ((precision p.2 + recall p.2)%Qc ≠ 0%Qc →
                 f1_score p.2
                 = (Qc_of_nat 2 * precision p.2 * recall p.2
                    / (precision p.2 + recall p.2))%Qc)
                ∧ ((precision p.2 + recall p.2)%Qc = 0%Qc → f1_score p.2 = 0%Qc))
             (per_class rep).
Proof.
  eexists. split; [reflexivity|].
  by apply (X12_f1_is_the_harmonic_mean
              [Str "Gentoo"; Str "Adelie"] [Str "Gentoo"; Str "Gentoo"]).
Defined.

End Metrics.

(** ** What the evaluation cells show *)

Section Shown.
Import Pandas Sklearn Notebook Summary.

Lemma Forall2_common_source {A B C} (R1 : A → B → Prop) (R2 : A → C → Prop)
    (l : list A) (a : list B) (b : list C) :
  Forall2 R1 l a → Forall2 R2 l b →
  Forall2 (λ x y, ∃ z, z ∈ l ∧ R1 z x ∧ R2 z y) a b.
Proof.
  intros H1. revert b. induction H1 as [|z x l a Hzx _ IH]; intros b H2.
  - apply Forall2_nil_inv_l in H2 as ->. constructor.
  - apply Forall2_cons_inv_l in H2 as (y & b' & Hzy & H2 & ->).
    constructor.
    + exists z. split; [left | done].
    + eapply Forall2_impl; [apply IH, H2|].
      intros x' y' (z' & Hin & ? & ?). exists z'. split; [by right | done].
Qed.

Lemma Forall2_at_positions {A B} (Q : A → B → Prop) (l : list A) (k : list B)
    (idx : list nat) (ra : list A) (rb : list B) :
  Forall2 Q l k →
  Forall2 (λ i a, l !! i = Some a) idx ra →
  Forall2 (λ i b, k !! i = Some b) idx rb →
  Forall2 Q ra rb.
Proof.
  intros HQ Ha. revert rb. induction Ha as [|i a idx ra Hi _ IH]; intros rb Hb.
  - apply Forall2_nil_inv_l in Hb as ->. constructor.
  - apply Forall2_cons_inv_l in Hb as (b & rb' & Hb & Hrest & ->).
    constructor; [|by apply IH].
    by eapply Forall2_lookup_lr.
Qed.

(** X8.  The ten predictions and the ten labels shown side by side belong
    to the same penguins.  In a complete run [y_pred[0:10]] holds the
    predictions for the first ten rows of the test features and
    [y_test[0:10].values] the species of the first ten test labels;
    row [i] of the test features and label [i] of the test labels carry the
    same index label and come from one row of the cleaned table, of which
    they hold the four features and the species. *)
Theorem X8_shown_predictions_and_labels_are_aligned (env : Env) (k : Kernel) :
  run_all env = (k, Ok tt) →
  ∃ raw Xte yte t,
    load_dataset env "penguins" = Ok raw
    ∧ Globals.X_test (names k) = Some Xte
    ∧ Globals.y_test (names k) = Some yte
    ∧ In (Displayed (VLabels (map (λ r, decision t (entries r)) (take 10 (rows Xte)))))
         (outputs k)
    ∧ In (Displayed (VLabels ((take 10 (items yte)).*2))) (outputs k)
    ∧ length (take 10 (rows Xte)) = length (take 10 (items yte))
    ∧ Forall2 (λ r it, ∃ row, row ∈ rows (dropna raw)
                              ∧ label r = label row ∧ it.1 = label row
                              ∧ Forall2 (entry_of (columns raw) row) features (entries r)
                              ∧ entry_of (columns raw) row "species" it.2)
              (rows Xte) (items yte).
Proof.
  intros (r & (H1 & H2 & H3 & H4 & _) & ->)%run_all_ok.
  pose proof (loc_columns_rows _ _ _ H2) as R1.
  pose proof (loc_column_items _ _ _ H3) as R2.
  pose proof (Forall2_common_source _ _ _ _ _ R1 R2) as R.
  destruct (train_test_split_Ok _ _ _ _ _ _ _ _ H4)
    as (n_train & n_test & _ & _ & _ & T2 & _ & T4 & _).
  pose proof (Forall2_at_positions _ _ _ _ _ _ R T2 T4) as Q.
  exists (raw r), (X_test r), (y_test r), (tree r).
  split; [done|]. split; [done|]. split; [done|].
  split; [simpl; unfold predictions; rewrite <- firstn_map; tauto|].
  split; [simpl; unfold values, series_slice; simpl; tauto|].
  split; [rewrite !length_take; by rewrite (Forall2_length _ _ _ Q)|].
  eapply Forall2_impl; [exact Q|]. simpl.
  intros x it (row & Hin & (? & ?) & (? & ?)). exists row. by repeat split.
Qed.

Lemma X8_witness :
  ∃ raw Xte yte t,
    load_dataset Example.toy "penguins" = Ok raw
    ∧ Globals.X_test (names (run_all Example.toy).1) = Some Xte
    ∧ Globals.y_test (names (run_all Example.toy).1) = Some yte
    ∧ In (Displayed (VLabels (map (λ r, decision t (entries r)) (take 10 (rows Xte)))))
         (outputs (run_all Example.toy).1)
    ∧ In (Displayed (VLabels ((take 10 (items yte)).*2))) (outputs (run_all Example.toy).1)
    ∧ length (take 10 (rows Xte)) = length (take 10 (items yte))
    ∧ Forall2 (λ r it, ∃ row, row ∈ rows (dropna raw)
                              ∧ label r = label row ∧ it.1 = label row
                              ∧ Forall2 (entry_of (columns raw) row) features (entries r)
                              ∧ entry_of (columns raw) row "species" it.2)
              (rows Xte) (items yte).
Proof. exact (X8_shown_predictions_and_labels_are_aligned Example.toy _ toy_runs). Defined.


(** X15.  A cell run before the cell that binds its names stops with
    [NameError].  The cleaning cell, the two [head] cells and the cells
    showing the test labels read a global name first; when that name is not
    bound they raise [NameError] for it and leave the kernel as it was: no
    library call is made and nothing is shown. *)
Theorem X15_unbound_names_raise_NameError (k : Kernel) :
  (Globals.data (names k) = None → cell_3 k = (k, Raise (NameError "data")))
  ∧ (Globals.X (names k) = None → cell_5 k = (k, Raise (NameError "X")))
  ∧ (Globals.y (names k) = None → cell_6 k = (k, Raise (NameError "y")))
  ∧ (Globals.y_test (names k) = None →
     cell_8 k = (k, Raise (NameError "y_test"))
     ∧ cell_14 k = (k, Raise (NameError "y_test")))
  ∧ (Globals.model (names k) = None →
     ∀ env, fit_model env k = (k, Raise (NameError "model"))
            ∧ predict_test k = (k, Raise (NameError "model"))).
Proof.
  destruct k as [g im cs rs os dr]. destruct g. simpl.
  split; [by intros ->|]. split; [by intros ->|]. split; [by intros ->|].
  split; [by intros ->|]. by intros -> env.
Qed.

Lemma X15_witness :
  cell_3 fresh = (fresh, Raise (NameError "data"))
  ∧ cell_5 fresh = (fresh, Raise (NameError "X"))
  ∧ cell_6 fresh = (fresh, Raise (NameError "y"))
  ∧ (cell_8 fresh = (fresh, Raise (NameError "y_test"))
     ∧ cell_14 fresh = (fresh, Raise (NameError "y_test")))
  ∧ fit_model Example.toy fresh = (fresh, Raise (NameError "model"))
  ∧ predict_test fresh = (fresh, Raise (NameError "model")).
Proof.
  destruct (X15_unbound_names_raise_NameError fresh) as (H1 & H2 & H3 & H4 & H5).
  split; [by apply H1|]. split; [by apply H2|]. split; [by apply H3|].
  split; [by apply H4|]. by apply H5.
Defined.

(** X16.  Predicting or plotting before fitting stops with
    [NotFittedError].  With a model that was created but not fitted, the
    prediction cell raises [NotFittedError] at [model.predict] and binds no
    [y_pred]; the plotting cell creates the figure and the axes and then
    raises [NotFittedError] at [plot_tree], so nothing is drawn. *)
Theorem X16_an_unfitted_model_is_refused (k : Kernel) (m : Estimator) (Xte : DataFrame)
    (cols : list string) (y : Series) :
  Globals.model (names k) = Some m →
  tree_ m = None →
  Globals.X_test (names k) = Some Xte →
  Globals.feature_columns (names k) = Some cols →
  Globals.y (names k) = Some y →
  ((cell_13 k).2 = Raise NotFittedError
   ∧ calls (cell_13 k).1 = calls k ++ [estimator_predict]
   ∧ raised (cell_13 k).1 = raised k ++ [(estimator_predict, NotFittedError)]
   ∧ names (cell_13 k).1 = names k
   ∧ outputs (cell_13 k).1 = outputs k)
  ∧ ((cell_17 k).2 = Raise NotFittedError
     ∧ calls (cell_17 k).1 = calls k ++ [plt_subplots; Series_unique; sk_plot_tree]
     ∧ raised (cell_17 k).1 = raised k ++ [(sk_plot_tree, NotFittedError)]
     ∧ Globals.fig (names (cell_17 k).1) = Some (Matplotlib.mkFigure (14, 10))
     ∧ outputs (cell_17 k).1 = outputs k).
Proof.
  destruct k as [g im cs rs os dr]. destruct g. destruct m as [d t]. simpl.
  intros -> -> -> -> ->.
  unfold cell_13, cell_17, predict_test. nb_unfold. simpl.
  unfold predict, plot_tree. simpl.
  repeat split; try reflexivity.
  induction cs as [|c cs IH]; [reflexivity|]. by rewrite <- IH.
Qed.

Lemma X16_witness :
  let k := (run_cells [cell_1; cell_2 Example.toy; cell_3; cell_4; cell_5; cell_6;
                       cell_7 Example.toy; cell_8; cell_9; cell_10; cell_11] fresh).1 in
  ((cell_13 k).2 = Raise NotFittedError
   ∧ calls (cell_13 k).1 = calls k ++ [estimator_predict]
   ∧ raised (cell_13 k).1 = raised k ++ [(estimator_predict, NotFittedError)]
   ∧ names (cell_13 k).1 = names k
   ∧ outputs (cell_13 k).1 = outputs k)
  ∧ ((cell_17 k).2 = Raise NotFittedError
     ∧ calls (cell_17 k).1 = calls k ++ [plt_subplots; Series_unique; sk_plot_tree]
     ∧ raised (cell_17 k).1 = raised k ++ [(sk_plot_tree, NotFittedError)]
     ∧ Globals.fig (names (cell_17 k).1) = Some (Matplotlib.mkFigure (14, 10))
     ∧ outputs (cell_17 k).1 = outputs k).
Proof.
  intros k.
  eapply (X16_an_unfitted_model_is_refused k); vm_compute; reflexivity.
Defined.


(** X19.  The six shapes printed.  In a complete run over [n] cleaned rows
    the notebook prints the shapes [(n, 4)] and [(n,)] for [X] and [y],
    then [(n - t, 4)] and [(n - t,)] for the training part and [(t, 4)] and
    [(t,)] for the test part, where [t], the number of test rows, is neither
    0 nor [n]. *)
Theorem X19_the_printed_shapes (env : Env) (k : Kernel) :
  run_all env = (k, Ok tt) →
  ∃ n t,
    0 < t < n
    ∧ In (Printed "The shape of feature matrix X is: " (VShape [n; 4])) (outputs k)
    ∧ In (Printed "The shape of target vector y is: " (VShape [n])) (outputs k)
    ∧ In (Printed "The size of our feature matrix for the train set is: "
                  (VShape [n - t; 4])) (outputs k)
    ∧ In (Printed "The size of our target vector for the train set is: "
                  (VShape [n - t])) (outputs k)
    ∧ In (Printed (String "010"%char "The size of our feature matrix for the test set is: ")
                  (VShape [t; 4])) (outputs k)
    ∧ In (Printed "The size of our target vector for the test set is: "
                  (VShape [t])) (outputs k).
Proof.
  intros (r & (_ & H2 & H3 & H4 & _) & ->)%run_all_ok.
  pose proof (loc_columns_spec _ _ _ H2) as (CX & LX & _).
  pose proof (loc_column_spec _ _ _ H3) as (_ & Ly & _).
  destruct (train_test_split_partition _ _ _ _ _ _ _ _ (permutation_spec env 0 _) H4)
    as (_ & _ & _ & L1 & L2 & L3 & L4).
  destruct (train_test_split_Ok _ _ _ _ _ _ _ _ H4)
    as (_ & _ & _ & _ & _ & _ & _ & _ & C1 & C2 & _).
  pose proof (split_test_rows _ _ _ _ _ _ _ _ _ H4) as Hte.
  exists (length (rows (X r))), (length (rows (X_test r))).
  split; [lia|].
  assert (length (rows (X_train r)) = length (rows (X r)) - length (rows (X_test r)))
    as E by lia.
  simpl. unfold frame_shape, series_shape.
  rewrite C1, C2, CX, <- L1, <- L2, E, Ly, <- LX. simpl.
  repeat split; tauto.
Qed.

Lemma X19_witness :
  ∃ n t,
    0 < t < n
    ∧ In (Printed "The shape of feature matrix X is: " (VShape [n; 4]))
         (outputs (run_all Example.toy).1)
    ∧ In (Printed "The shape of target vector y is: " (VShape [n]))
         (outputs (run_all Example.toy).1)
    ∧ In (Printed "The size of our feature matrix for the train set is: "
                  (VShape [n - t; 4])) (outputs (run_all Example.toy).1)
    ∧ In (Printed "The size of our target vector for the train set is: "
                  (VShape [n - t])) (outputs (run_all Example.toy).1)
    ∧ In (Printed (String "010"%char "The size of our feature matrix for the test set is: ")
                  (VShape [t; 4])) (outputs (run_all Example.toy).1)
    ∧ In (Printed "The size of our target vector for the test set is: "
                  (VShape [t])) (outputs (run_all Example.toy).1).
Proof. exact (X19_the_printed_shapes Example.toy _ toy_runs). Defined.

End Shown.
